(** * kn-plugin-migration: the [migrate] command

    A shallow embedding of [pkg/command/migrate/migrate.go] and the proofs of
    its specification.  The Go code talks to two clusters through client
    objects; here a client is a record of state transformers over an abstract
    cluster state, and every Go function becomes a computation in a small
    monad that threads that state and records how the function ended
    (normal return, panic, [os.Exit], or an exhausted loop budget).

    Console output ([fmt.Println], [fmt.Printf], colours) is not modelled,
    except that the text printed immediately before [os.Exit] is kept in the
    [Exited] outcome. *)

From Stdlib Require Import ZArith String.
From stdpp Require Import base strings gmap list.

Local Open Scope string_scope.
Local Open Scope list_scope.
Local Open Scope Z_scope.

(** ** Go errors and their classification by [k8s.io/apimachinery] *)

Inductive StatusReason : Type :=
| StatusReasonNotFound
| StatusReasonConflict
| StatusReasonAlreadyExists
| StatusReasonUnknown.

(** A non-nil Go [error]: either an API status error carrying its reason, or
    a plain error such as the ones built by [fmt.Errorf].  A Go value of type
    [error] is an [option error], [None] being [nil]. *)
Inductive error : Type :=
| StatusError (reason : StatusReason) (message : string)
| errorString (message : string).

Definition Error (e : error) : string :=
  match e with
  | StatusError _ m => m
  | errorString m => m
  end.

Definition IsNotFound (err : option error) : bool :=
  match err with
  | Some (StatusError StatusReasonNotFound _) => true
  | _ => false
  end.

Definition IsConflict (err : option error) : bool :=
  match err with
  | Some (StatusError StatusReasonConflict _) => true
  | _ => false
  end.

(** What a client call hands back: a value or an error. *)
Inductive result (A : Type) : Type :=
| Ok (a : A)
| Err (e : error).
Arguments Ok {A} a.
Arguments Err {A} e.

(** ** Resources *)

(** A Go [map[string]string]; [None] is the nil map. *)
Abbreviation StringMap := (option (gmap string string)).

(** [m[k]] on a Go map: the zero value when the map is nil or has no [k]. *)
Definition map_index (m : StringMap) (k : string) : string :=
  match m with
  | Some g => default "" (g !! k)
  | None => ""
  end.

Record ObjectMeta : Type := {
  Name : string;
  Namespace : string;
  UID : string;
  Labels : StringMap;
  Annotations : StringMap
}.

Record Revision : Type := {
  Revision_ObjectMeta : ObjectMeta;
  Revision_Spec : string
}.

Record ServiceStatus : Type := {
  LatestCreatedRevisionName : string
}.

Record Service : Type := {
  Service_ObjectMeta : ObjectMeta;
  Service_Spec : string;
  Service_Status : ServiceStatus
}.

Record Configuration : Type := {
  Configuration_ObjectMeta : ObjectMeta
}.

Record TypeMeta : Type := {
  Kind : string;
  APIVersion : string
}.

Record ConfigMap : Type := {
  ConfigMap_TypeMeta : TypeMeta;
  ConfigMap_ObjectMeta : ObjectMeta;
  Data : StringMap
}.

Record Namespace_ : Type := {
  Namespace_ObjectMeta : ObjectMeta
}.

Definition with_Labels (m : ObjectMeta) (l : StringMap) : ObjectMeta :=
  {| Name := Name m; Namespace := Namespace m; UID := UID m;
     Labels := l; Annotations := Annotations m |}.

Definition Revision_with_Labels (r : Revision) (l : StringMap) : Revision :=
  {| Revision_ObjectMeta := with_Labels (Revision_ObjectMeta r) l;
     Revision_Spec := Revision_Spec r |}.

(** ** Package-level variables *)

Record migrateCmdFlags : Type := {
  Flag_Namespace : string;
  KubeConfig : string;
  DestinationKubeConfig : string;
  DestinationNamespace : string;
  Force : bool;
  Delete : bool
}.

(** [MaxGetRetries], [MaxUpdateRetries] and [migrateFlags] are mutable
    package variables; the functions below read them from this record. *)
Record Package : Type := {
  MaxGetRetries : Z;
  MaxUpdateRetries : Z;
  migrateFlags : migrateCmdFlags
}.

Definition Package_init (flags : migrateCmdFlags) : Package :=
  {| MaxGetRetries := 16; MaxUpdateRetries := 16; migrateFlags := flags |}.

(** [time.Duration] counts nanoseconds. *)
Definition time_Second : Z := 1000000000.

(** ** The monad of Go computations *)

(** How a computation can end other than by returning: a Go panic, a call of
    [os.Exit] (with the text printed just before it), or a loop that used up
    the rounds the model grants it. *)
Inductive Stop : Type :=
| Panicked (msg : string)
| Exited (code : Z) (printed : string)
| OutOfFuel.

Inductive Outcome (A : Type) : Type :=
| Returned (a : A)
| Stopped (why : Stop).
Arguments Returned {A} a.
Arguments Stopped {A} why.

Definition Go (St A : Type) : Type := St -> Outcome A * St.

#[global] Instance Go_ret {St} : MRet (Go St) :=
  fun A (a : A) (s : St) => (Returned a, s).

#[global] Instance Go_bind {St} : MBind (Go St) :=
  fun A B (k : A -> Go St B) (m : Go St A) (s : St) =>
    match m s with
    | (Returned a, s1) => k a s1
    | (Stopped why, s1) => (Stopped why, s1)
    end.

(** A client call: it always comes back. *)
Definition call {St A} (op : St -> A * St) : Go St A :=
  fun s => let '(a, s1) := op s in (Returned a, s1).

Definition stop {St A} (why : Stop) : Go St A := fun s => (Stopped why, s).

Definition panic {St A} (msg : string) : Go St A := stop (Panicked msg).

(** [fmt.Printf(text); os.Exit(code)]. *)
Definition os_Exit {St A} (code : Z) (printed : string) : Go St A :=
  stop (Exited code printed).

Definition out_of_fuel {St A} : Go St A := stop OutOfFuel.

(** How one round of a loop body ends. *)
Inductive Step (I R : Type) : Type :=
| Continue (i : I)
| Break
| Return (r : R).
Arguments Continue {I R} i.
Arguments Break {I R}.
Arguments Return {I R} r.

(** [for { body }] over the loop variables [i].  The result is [Some r] when
    the body returned [r] from the enclosing function and [None] when it left
    the loop with [break].  [fuel] bounds the number of rounds. *)
Fixpoint forever {St I R} (fuel : nat) (body : I -> Go St (Step I R)) (i : I)
  : Go St (option R) :=
  match fuel with
  | O => out_of_fuel
  | S fuel' =>
      st ← body i;
      match st with
      | Continue i' => forever fuel' body i'
      | Break => mret None
      | Return r => mret (Some r)
      end
  end.

(** [for i := 0; i < len(items); i++ { body items[i] }], where the body may
    return from the enclosing function. *)
Fixpoint for_range {St A R} (items : list A) (body : A -> Go St (option R))
  : Go St (option R) :=
  match items with
  | [] => mret None
  | x :: rest =>
      r ← body x;
      match r with
      | Some v => mret (Some v)
      | None => for_range rest body
      end
  end.

(** [for i := 0; i < len(items); i++ { body items[i] }] with a body that
    does not return from the enclosing function. *)
Fixpoint for_each {St A} (items : list A) (body : A -> Go St unit) : Go St unit :=
  match items with
  | [] => mret tt
  | x :: rest => _ ← body x; for_each rest body
  end.

(** [time.Sleep], provided by the runtime. *)
Class Clock (St : Type) := time_Sleep : Z -> St -> unit * St.

(** ** The client interfaces

    [command.MigrationClient] and [kubernetes.Clientset] are interfaces of
    other packages; the signatures are the ones the call sites of this file
    use.  Each operation runs against the cluster state and yields a value or
    an error. *)

Record MigrationClient (St : Type) : Type := {
  PrintServiceWithRevisions : string -> St -> option error * St;
  ListService : St -> result (list Service) * St;
  GetService : string -> St -> result Service * St;
  ServiceExists : string -> St -> result bool * St;
  DeleteService : string -> St -> option error * St;
  CreateService : Service -> St -> result Service * St;
  GetConfig : string -> St -> result Configuration * St;
  ListRevisionByService : string -> St -> result (list Revision) * St;
  GetRevision : string -> St -> result Revision * St;
  CreateRevision : Revision -> string -> St -> result Revision * St;
  UpdateRevision : Revision -> St -> option error * St
}.
Arguments PrintServiceWithRevisions {St} _ _ _.
Arguments ListService {St} _ _.
Arguments GetService {St} _ _ _.
Arguments ServiceExists {St} _ _ _.
Arguments DeleteService {St} _ _ _.
Arguments CreateService {St} _ _ _.
Arguments GetConfig {St} _ _ _.
Arguments ListRevisionByService {St} _ _ _.
Arguments GetRevision {St} _ _ _.
Arguments CreateRevision {St} _ _ _ _.
Arguments UpdateRevision {St} _ _ _.

(** [clientSet.CoreV1().Namespaces()] and [clientSet.CoreV1().ConfigMaps(ns)]. *)
Record Clientset (St : Type) : Type := {
  Namespaces_Get : string -> St -> result Namespace_ * St;
  Namespaces_Create : Namespace_ -> St -> result Namespace_ * St;
  ConfigMaps_Get : string -> string -> St -> result ConfigMap * St;
  ConfigMaps_Create : string -> ConfigMap -> St -> result ConfigMap * St
}.
Arguments Namespaces_Get {St} _ _ _.
Arguments Namespaces_Create {St} _ _ _.
Arguments ConfigMaps_Get {St} _ _ _ _.
Arguments ConfigMaps_Create {St} _ _ _ _.

(** The [err] of a Go [(value, err)] pair. *)
Definition err_of {A} (r : result A) : option error :=
  match r with
  | Ok _ => None
  | Err e => Some e
  end.

Definition generation_label : string := "serving.knative.dev/configurationGeneration".

(** ** The functions of [migrate.go] *)

Section Migrate.
Context {St : Type} `{Clock St}.
Variable pkg : Package.

Definition generateConfigmapName (serviceName : string) : string :=
  serviceName +:+ "-config".

Definition getOrCreateNamespace (clientSet : Clientset St) (namespace : string)
  : Go St (option error) :=
  let namespaceExists := true in
  r ← call (Namespaces_Get clientSet namespace);
  let err := err_of r in
  let namespaceExists := if IsNotFound err then false else namespaceExists in
  match err with
  | Some e => mret (Some e)
  | None =>
      if negb namespaceExists then
        let nsSpec := {| Namespace_ObjectMeta :=
                           {| Name := namespace; Namespace := ""; UID := "";
                              Labels := None; Annotations := None |} |} in
        r' ← call (Namespaces_Create clientSet nsSpec);
        match err_of r' with
        | Some e => mret (Some e)
        | None => mret None
        end
      else mret None
  end.

Definition getConfigmap (clientSet : Clientset St) (namespace configmapName : string)
  : Go St (option ConfigMap * option error) :=
  r ← call (ConfigMaps_Get clientSet namespace configmapName);
  match r with
  | Err e => mret (None, Some e)
  | Ok cm => mret (Some cm, None)
  end.

(** The object built by the composite literal of [createConfigmap]. *)
Definition configmap_copy (namespace : string) (configmap : ConfigMap) : ConfigMap :=
  {| ConfigMap_TypeMeta := {| Kind := "ConfigMap"; APIVersion := "v1" |};
     ConfigMap_ObjectMeta :=
       {| Name := Name (ConfigMap_ObjectMeta configmap);
          Namespace := namespace;
          UID := "";
          Labels := Labels (ConfigMap_ObjectMeta configmap);
          Annotations := Annotations (ConfigMap_ObjectMeta configmap) |};
     Data := Data configmap |}.

Definition createConfigmap (clientSet : Clientset St) (namespace : string)
    (configmap : ConfigMap) : Go St (option error) :=
  let cm := configmap_copy namespace configmap in
  r ← call (ConfigMaps_Create clientSet namespace cm);
  mret (err_of r).

Definition already_exists_message (serviceName : string) : string :=
  "cannot migrate service " +:+ serviceName +:+
  " in namespace because the service already exists and no --force option was given".

(** In the blocks below [Some v] stands for a [return v] that was executed
    and [None] for control falling through to the next statement. *)
Definition createService (migrationClient : MigrationClient St) (service : Service)
    (force : bool) : Go St (option error) :=
  let name := Name (Service_ObjectMeta service) in
  r ← call (ServiceExists migrationClient name);
  match r with
  | Err e => mret (Some e)
  | Ok serviceExists =>
      let err : option error := None in
      let block : Go St (option (option error)) :=
        if (serviceExists : bool) then
          if negb force then
            mret (Some (Some (errorString (already_exists_message name))))
          else
            (* the error of DeleteService is dropped; [err] is still the
               one of ServiceExists *)
            _ ← call (DeleteService migrationClient name);
            match err with
            | Some e => mret (Some (Some e))
            | None => mret None
            end
        else mret None in
      returned ← block;
      match returned with
      | Some v => mret v
      | None =>
          r' ← call (CreateService migrationClient service);
          match err_of r' with
          | Some e => mret (Some e)
          | None => mret None
          end
      end
  end.

Definition deleteAllServices (migrationClient : MigrationClient St) (delete : bool)
  : Go St (option error) :=
  if negb delete then mret None
  else
    r ← call (ListService migrationClient);
    match r with
    | Err e => mret (Some e)
    | Ok services =>
        returned ← for_range services (fun service =>
          err ← call (DeleteService migrationClient (Name (Service_ObjectMeta service)));
          match err with
          | Some e => mret (Some (Some e))
          | None => mret None
          end);
        match returned with
        | Some v => mret v
        | None => mret None
        end
    end.

(** [revision.ObjectMeta.Labels[k] = v]: a write to a nil map panics. *)
Definition set_label (revision : Revision) (k v : string) : Go St Revision :=
  match Labels (Revision_ObjectMeta revision) with
  | None => panic "assignment to entry in nil map"
  | Some m => mret (Revision_with_Labels revision (Some (<[k := v]> m)))
  end.

(** One round of the [for] loop of [migrateRevision]; the loop variables are
    [(getRetries, updateRetries)].  They are Go [int]s that are incremented
    only while below [MaxGetRetries] and [MaxUpdateRetries], so they do not
    wrap around and are integers here. *)
Definition migrateRevision_body (migrationClient : MigrationClient St)
    (revisionS : Revision) (i : Z * Z) : Go St (Step (Z * Z) (option error)) :=
  let '(getRetries, updateRetries) := i in
  r ← call (GetRevision migrationClient (Name (Revision_ObjectMeta revisionS)));
  match r with
  | Err err =>
      if IsNotFound (Some err) && (getRetries <? MaxGetRetries pkg) then
        _ ← call (time_Sleep time_Second);
        mret (Continue (getRetries + 1, updateRetries))
      else mret (Return (Some err))
  | Ok revision =>
      let sourceRevisionGeneration :=
        map_index (Labels (Revision_ObjectMeta revisionS)) generation_label in
      revision ← set_label revision generation_label sourceRevisionGeneration;
      err ← call (UpdateRevision migrationClient revision);
      match err with
      | Some e =>
          if IsConflict err && (updateRetries <? MaxUpdateRetries pkg) then
            mret (Continue (getRetries, updateRetries + 1))
          else mret (Return (Some e))
      | None => mret Break
      end
  end.

Definition migrateRevision (fuel : nat) (migrationClient : MigrationClient St)
    (revisionS : Revision) (serviceS : Service) (configUuid : string)
    (latestCreatedRevisionName : string) : Go St (option error) :=
  if negb (String.eqb (Name (Revision_ObjectMeta revisionS)) latestCreatedRevisionName) then
    r ← call (CreateRevision migrationClient revisionS configUuid);
    match err_of r with
    | Some e => mret (Some e)
    | None => mret None
    end
  else
    returned ← forever fuel (migrateRevision_body migrationClient revisionS) (0, 0);
    match returned with
    | Some v => mret v
    | None => mret None
    end.

(** [retries] is never incremented in the source. *)
Definition getConfig_body (migrationClient : MigrationClient St) (serviceName : string)
    (retries : Z) : Go St (Step Z (option Configuration * option error)) :=
  r ← call (GetConfig migrationClient serviceName);
  match r with
  | Err err =>
      if IsNotFound (Some err) && (retries <? MaxGetRetries pkg) then
        _ ← call (time_Sleep time_Second);
        mret (Continue retries)
      else mret (Return (None, Some err))
  | Ok config => mret (Return (Some config, None))
  end.

(** The loop of [getConfig] has no [break]; the last branch is not reached. *)
Definition getConfig (fuel : nat) (migrationClient : MigrationClient St)
    (serviceName : string) : Go St (option Configuration * option error) :=
  returned ← forever fuel (getConfig_body migrationClient serviceName) 0;
  match returned with
  | Some v => mret v
  | None => mret (None, None)
  end.

(** [if err != nil { fmt.Printf(err.Error()); os.Exit(1) }] *)
Definition check (err : option error) : Go St unit :=
  match err with
  | Some e => os_Exit 1 (Error e)
  | None => mret tt
  end.

(** The loop over [revisionsS.Items] (lines 184-193). *)
Definition Run_revisions (fuel : nat) (migrationClientD : MigrationClient St)
    (revisionsS : list Revision) (serviceS : Service) (configUUID : string)
    (latestCreatedRevisionName : string) : Go St unit :=
  for_each revisionsS (fun revisionS =>
    err ← migrateRevision fuel migrationClientD revisionS serviceS configUUID
            latestCreatedRevisionName;
    _ ← check err;
    _ ← call (time_Sleep (5 * time_Second));
    mret tt).

(** The body of the loop over [servicesS.Items] (lines 139-194). *)
Definition Run_service (fuel : nat) (clientSetS clientSetD : Clientset St)
    (migrationClientS migrationClientD : MigrationClient St)
    (namespaceS namespaceD : string) (serviceS : Service) : Go St unit :=
  let name := Name (Service_ObjectMeta serviceS) in
  '(configmapS, err) ← getConfigmap clientSetS namespaceS (generateConfigmapName name);
  (* [if err != nil && !api_errors.IsNotFound(err)]; [check] tests [err != nil] *)
  _ ← (if negb (IsNotFound err) then check err else mret tt);
  _ ← match configmapS with
      | Some cm =>
          err ← createConfigmap clientSetD namespaceD cm;
          check err
      | None => mret tt
      end;
  err ← createService migrationClientD serviceS (Force (migrateFlags pkg));
  _ ← check err;
  r ← call (GetService migrationClientD name);
  match r with
  | Err e => os_Exit 1 (Error e)
  | Ok serviceD =>
      '(config, err) ← getConfig fuel migrationClientD (Name (Service_ObjectMeta serviceD));
      _ ← check err;
      match config with
      | None => panic "invalid memory address or nil pointer dereference"
      | Some config =>
          let configUUID := UID (Configuration_ObjectMeta config) in
          r' ← call (ListRevisionByService migrationClientS name);
          match r' with
          | Err e => os_Exit 1 (Error e)
          | Ok revisionsS =>
              Run_revisions fuel migrationClientD revisionsS serviceS configUUID
                (LatestCreatedRevisionName (Service_Status serviceD))
          end
      end
  end.

(** Lines 116-202: from the first snapshot of the destination to the second,
    that is the whole migration pass. *)
Definition Run_migration (fuel : nat) (clientSetS clientSetD : Clientset St)
    (migrationClientS migrationClientD : MigrationClient St)
    (namespaceS namespaceD : string) : Go St unit :=
  err ← call (PrintServiceWithRevisions migrationClientD "destination");
  _ ← check err;
  err ← getOrCreateNamespace clientSetD namespaceD;
  _ ← check err;
  r ← call (ListService migrationClientS);
  match r with
  | Err e => os_Exit 1 (Error e)
  | Ok servicesS =>
      _ ← for_each servicesS
            (Run_service fuel clientSetS clientSetD migrationClientS migrationClientD
               namespaceS namespaceD);
      err ← call (PrintServiceWithRevisions migrationClientD "destination");
      check err
  end.

(** Lines 116-208: [Run] once both pairs of clients exist. *)
Definition Run_with_clients (fuel : nat) (clientSetS clientSetD : Clientset St)
    (migrationClientS migrationClientD : MigrationClient St)
    (namespaceS namespaceD : string) : Go St unit :=
  _ ← Run_migration fuel clientSetS clientSetD migrationClientS migrationClientD
        namespaceS namespaceD;
  err ← deleteAllServices migrationClientS (Delete (migrateFlags pkg));
  check err.

(** What [Run] takes from its environment: the process environment and the
    constructors of the client libraries. *)
Context {RestConfig ServingV1Client : Type}.
Variable os_Getenv : string -> string.
Variable BuildConfigFromFlags : string -> string -> result RestConfig.
Variable kubernetes_NewForConfig : RestConfig -> result (Clientset St).
Variable serving_NewForConfig : RestConfig -> result ServingV1Client.
Variable NewMigrationClient : ServingV1Client -> string -> MigrationClient St.

Definition getClients (kubeConfig namespace : string)
  : result (Clientset St * MigrationClient St) :=
  match BuildConfigFromFlags "" kubeConfig with
  | Err err => Err err
  | Ok cfg =>
      match kubernetes_NewForConfig cfg with
      | Err err => Err err
      | Ok clientSet =>
          match serving_NewForConfig cfg with
          | Err err => Err err
          | Ok servingClient =>
              Ok (clientSet, NewMigrationClient servingClient namespace)
          end
      end
  end.

(** The line feed that ends the messages below. *)
Definition newline : string :=
  String (Ascii.Ascii false true false true false false false false) "".

Definition Run (fuel : nat) : Go St unit :=
  let kubeconfigS := KubeConfig (migrateFlags pkg) in
  let kubeconfigS := if String.eqb kubeconfigS "" then os_Getenv "KUBECONFIG" else kubeconfigS in
  if String.eqb kubeconfigS "" then
    os_Exit 1 ("cannot get source cluster kube config, please use --kubeconfig or export environment variable KUBECONFIG to set" +:+ newline)
  else
  let kubeconfigD := DestinationKubeConfig (migrateFlags pkg) in
  let kubeconfigD := if String.eqb kubeconfigD "" then os_Getenv "KUBECONFIG_DESTINATION" else kubeconfigD in
  if String.eqb kubeconfigD "" then
    os_Exit 1 ("cannot get destination cluster kube config, please use --destination-kubeconfig or export environment variable KUBECONFIG_DESTINATION to set" +:+ newline)
  else
  let namespaceS := Flag_Namespace (migrateFlags pkg) in
  if String.eqb namespaceS "" then
    os_Exit 1 ("cannot get source cluster namespace, please use --namespace to set" +:+ newline)
  else
  let namespaceD := DestinationNamespace (migrateFlags pkg) in
  if String.eqb namespaceD "" then
    os_Exit 1 ("cannot get destination cluster namespace, please use --destination-namespace to set" +:+ newline)
  else
  match getClients kubeconfigS namespaceS with
  | Err err => os_Exit 1 (Error err)
  | Ok (clientSetS, migrationClientS) =>
      err ← call (PrintServiceWithRevisions migrationClientS "source");
      _ ← check err;
      match getClients kubeconfigD namespaceD with
      | Err err => os_Exit 1 (Error err)
      | Ok (clientSetD, migrationClientD) =>
          Run_with_clients fuel clientSetS clientSetD migrationClientS migrationClientD
            namespaceS namespaceD
      end
  end.

End Migrate.

(** ** Observing a run

    To speak about which calls a function makes, in which order and with
    which answers, the clients are wrapped so that every call appends an
    event to a trace kept next to the cluster state.  The functions above are
    not changed: they are run with the wrapped clients. *)

Inductive Side : Type := Source | Destination.

(** A call of a client operation, with its arguments and its answer. *)
Inductive Call : Type :=
| CNamespacesGet (name : string) (r : result Namespace_)
| CNamespacesCreate (ns : Namespace_) (r : result Namespace_)
| CConfigMapsGet (namespace name : string) (r : result ConfigMap)
| CConfigMapsCreate (namespace : string) (cm : ConfigMap) (r : result ConfigMap)
| CPrintServiceWithRevisions (label : string) (r : option error)
| CListService (r : result (list Service))
| CGetService (name : string) (r : result Service)
| CServiceExists (name : string) (r : result bool)
| CDeleteService (name : string) (r : option error)
| CCreateService (service : Service) (r : result Service)
| CGetConfig (name : string) (r : result Configuration)
| CListRevisionByService (name : string) (r : result (list Revision))
| CGetRevision (name : string) (r : result Revision)
| CCreateRevision (revision : Revision) (configUuid : string) (r : result Revision)
| CUpdateRevision (revision : Revision) (r : option error).

Inductive Event : Type :=
| Called (side : Side) (c : Call)
| Slept (d : Z).

Record Traced (W : Type) : Type := {
  world : W;
  trace : list Event
}.
Arguments world {W} _.
Arguments trace {W} _.

Section Tracing.
Context {W : Type}.

Definition observe {A} (ev : A -> Event) (op : W -> A * W) : Traced W -> A * Traced W :=
  fun s =>
    let '(a, w) := op (world s) in
    (a, {| world := w; trace := trace s ++ [ev a] |}).

Definition traced_client (side : Side) (c : MigrationClient W) : MigrationClient (Traced W) :=
  {| PrintServiceWithRevisions l :=
       observe (fun r => Called side (CPrintServiceWithRevisions l r))
               (PrintServiceWithRevisions c l);
     ListService :=
       observe (fun r => Called side (CListService r)) (ListService c);
     GetService n :=
       observe (fun r => Called side (CGetService n r)) (GetService c n);
     ServiceExists n :=
       observe (fun r => Called side (CServiceExists n r)) (ServiceExists c n);
     DeleteService n :=
       observe (fun r => Called side (CDeleteService n r)) (DeleteService c n);
     CreateService svc :=
       observe (fun r => Called side (CCreateService svc r)) (CreateService c svc);
     GetConfig n :=
       observe (fun r => Called side (CGetConfig n r)) (GetConfig c n);
     ListRevisionByService n :=
       observe (fun r => Called side (CListRevisionByService n r)) (ListRevisionByService c n);
     GetRevision n :=
       observe (fun r => Called side (CGetRevision n r)) (GetRevision c n);
     CreateRevision rev uid :=
       observe (fun r => Called side (CCreateRevision rev uid r)) (CreateRevision c rev uid);
     UpdateRevision rev :=
       observe (fun r => Called side (CUpdateRevision rev r)) (UpdateRevision c rev) |}.

Definition traced_clientset (side : Side) (cs : Clientset W) : Clientset (Traced W) :=
  {| Namespaces_Get n :=
       observe (fun r => Called side (CNamespacesGet n r)) (Namespaces_Get cs n);
     Namespaces_Create ns :=
       observe (fun r => Called side (CNamespacesCreate ns r)) (Namespaces_Create cs ns);
     ConfigMaps_Get ns n :=
       observe (fun r => Called side (CConfigMapsGet ns n r)) (ConfigMaps_Get cs ns n);
     ConfigMaps_Create ns cm :=
       observe (fun r => Called side (CConfigMapsCreate ns cm r)) (ConfigMaps_Create cs ns cm) |}.

#[global] Instance Traced_Clock `{Clock W} : Clock (Traced W) :=
  fun d => observe (fun _ => Slept d) (time_Sleep d).

(** The state a run starts from, with an empty trace. *)
Definition start (w : W) : Traced W := {| world := w; trace := [] |}.

(** How a computation ends, and the events it appends to the trace. *)
Definition outcome_of {A} (m : Go (Traced W) A) (s : Traced W) : Outcome A := (m s).1.

Definition events_of {A} (m : Go (Traced W) A) (s : Traced W) : list Event :=
  drop (length (trace s)) (trace (m s).2).

(** [emits m Q]: whenever [m] runs, it only appends to the trace, and the
    outcome [o] and the appended events [d] satisfy [Q o d]. *)
Definition emits {A} (m : Go (Traced W) A) (Q : Outcome A -> list Event -> Prop) : Prop :=
  forall s o s', m s = (o, s') -> exists d, trace s' = trace s ++ d /\ Q o d.

(** Safety properties: every event satisfies [P]. *)
Definition only {A} (P : Event -> Prop) : Outcome A -> list Event -> Prop :=
  fun _ d => Forall P d.

(** The runs of [forever fuel body i], given what one round of the body can
    do: [B i o d] says that the round started with loop variables [i] ends
    with [o] after the events [d]. *)
Inductive rounds {I R} (B : I -> Outcome (Step I R) -> list Event -> Prop)
  : nat -> I -> Outcome (option R) -> list Event -> Prop :=
| rounds_out_of_fuel i :
    rounds B O i (Stopped OutOfFuel) []
| rounds_continue fuel i i' d d' o :
    B i (Returned (Continue i')) d ->
    rounds B fuel i' o d' ->
    rounds B (S fuel) i o (d ++ d')
| rounds_break fuel i d :
    B i (Returned Break) d ->
    rounds B (S fuel) i (Returned None) d
| rounds_return fuel i r d :
    B i (Returned (Return r)) d ->
    rounds B (S fuel) i (Returned (Some r)) d
| rounds_stopped fuel i why d :
    B i (Stopped why) d ->
    rounds B (S fuel) i (Stopped why) d.

End Tracing.

(** ** Reading a trace *)

Definition Side_eqb (a b : Side) : bool :=
  match a, b with
  | Source, Source | Destination, Destination => true
  | _, _ => false
  end.

(** The calls that create, delete or update a resource. *)
Definition is_mutation (c : Call) : bool :=
  match c with
  | CNamespacesCreate _ _ | CConfigMapsCreate _ _ _ | CDeleteService _ _
  | CCreateService _ _ | CCreateRevision _ _ _ | CUpdateRevision _ _ => true
  | _ => false
  end.

Definition mutates (side : Side) (e : Event) : bool :=
  match e with
  | Called sd c => Side_eqb sd side && is_mutation c
  | Slept _ => false
  end.

Definition is_GetService (e : Event) : bool :=
  match e with Called _ (CGetService _ _) => true | _ => false end.

Definition is_GetConfig (e : Event) : bool :=
  match e with Called _ (CGetConfig _ _) => true | _ => false end.

Definition is_GetRevision (e : Event) : bool :=
  match e with Called _ (CGetRevision _ _) => true | _ => false end.

Definition is_CreateRevision (e : Event) : bool :=
  match e with Called _ (CCreateRevision _ _ _) => true | _ => false end.

Definition is_UpdateRevision (e : Event) : bool :=
  match e with Called _ (CUpdateRevision _ _) => true | _ => false end.

(** An [UpdateRevision] that succeeded. *)
Definition is_reconciled (e : Event) : bool :=
  match e with Called _ (CUpdateRevision _ None) => true | _ => false end.

Definition is_Slept (e : Event) : bool :=
  match e with Slept _ => true | _ => false end.

(** The revisions handed to [CreateRevision], in order. *)
Definition created (d : list Event) : list Revision :=
  omap (fun e => match e with
                 | Called _ (CCreateRevision rev _ _) => Some rev
                 | _ => None
                 end) d.

Definition count (f : Event -> bool) (d : list Event) : nat :=
  length (List.filter f d).

(** Before the revisions of a service are replayed, no call concerns a
    revision, and [GetService] and [ListRevisionByService] are each called at
    one place only. *)
Definition quiet (e : Event) : bool :=
  match e with
  | Called _ (CGetService _ _) | Called _ (CListRevisionByService _ _)
  | Called _ (CGetRevision _ _) | Called _ (CCreateRevision _ _ _)
  | Called _ (CUpdateRevision _ _) => false
  | _ => true
  end.

(** A [GetRevision] or [GetConfig] that did not fail with NotFound. *)
Definition visible (e : Event) : bool :=
  match e with
  | Called _ (CGetRevision _ r) | Called _ (CGetConfig _ r) => negb (IsNotFound (err_of r))
  | _ => false
  end.

(** The calls of [getConfig]. *)
Definition config_event (e : Event) : bool :=
  match e with
  | Called _ (CGetConfig _ _) | Slept _ => true
  | _ => false
  end.

Definition bears (latest : string) (rev : Revision) : bool :=
  String.eqb (Name (Revision_ObjectMeta rev)) latest.

(** ** What the runs look like *)

(** The revision [migrateRevision] submits after fetching [rev], whose label
    map is [m]: only the generation label is written. *)
Definition relabel (rev : Revision) (m : gmap string string) (generation : string) : Revision :=
  Revision_with_Labels rev (Some (<[generation_label := generation]> m)).

Section Runs.
Variable pkg : Package.
Variable side : Side.

(** One round of the loop of [migrateRevision] for the source revision
    [revisionS], with loop variables [(getRetries, updateRetries)]. *)
Inductive reconcile_round (revisionS : Revision)
  : Z * Z -> Outcome (Step (Z * Z) (option error)) -> list Event -> Prop :=
| round_get_retry g u e :
    IsNotFound (Some e) = true -> g < MaxGetRetries pkg ->
    reconcile_round revisionS (g, u) (Returned (Continue (g + 1, u)))
      [Called side (CGetRevision (Name (Revision_ObjectMeta revisionS)) (Err e));
       Slept time_Second]
| round_get_failed g u e :
    IsNotFound (Some e) && (g <? MaxGetRetries pkg) = false ->
    reconcile_round revisionS (g, u) (Returned (Return (Some e)))
      [Called side (CGetRevision (Name (Revision_ObjectMeta revisionS)) (Err e))]
| round_nil_map g u rev :
    Labels (Revision_ObjectMeta rev) = None ->
    reconcile_round revisionS (g, u) (Stopped (Panicked "assignment to entry in nil map"))
      [Called side (CGetRevision (Name (Revision_ObjectMeta revisionS)) (Ok rev))]
| round_update_retry g u rev m e :
    Labels (Revision_ObjectMeta rev) = Some m ->
    IsConflict (Some e) = true -> u < MaxUpdateRetries pkg ->
    reconcile_round revisionS (g, u) (Returned (Continue (g, u + 1)))
      [Called side (CGetRevision (Name (Revision_ObjectMeta revisionS)) (Ok rev));
       Called side (CUpdateRevision
         (relabel rev m (map_index (Labels (Revision_ObjectMeta revisionS)) generation_label))
         (Some e))]
| round_update_failed g u rev m e :
    Labels (Revision_ObjectMeta rev) = Some m ->
    IsConflict (Some e) && (u <? MaxUpdateRetries pkg) = false ->
    reconcile_round revisionS (g, u) (Returned (Return (Some e)))
      [Called side (CGetRevision (Name (Revision_ObjectMeta revisionS)) (Ok rev));
       Called side (CUpdateRevision
         (relabel rev m (map_index (Labels (Revision_ObjectMeta revisionS)) generation_label))
         (Some e))]
| round_updated g u rev m :
    Labels (Revision_ObjectMeta rev) = Some m ->
    reconcile_round revisionS (g, u) (Returned Break)
      [Called side (CGetRevision (Name (Revision_ObjectMeta revisionS)) (Ok rev));
       Called side (CUpdateRevision
         (relabel rev m (map_index (Labels (Revision_ObjectMeta revisionS)) generation_label))
         None)].

(** The calls of that loop: [GetRevision] for the name of the source
    revision, [UpdateRevision], and sleeps of one second. *)
Definition reconcile_event (revisionS : Revision) (e : Event) : Prop :=
  match e with
  | Called sd (CGetRevision n _) => sd = side /\ n = Name (Revision_ObjectMeta revisionS)
  | Called sd (CUpdateRevision _ _) => sd = side
  | Slept d => d = time_Second
  | _ => False
  end.

(** One round of the loop of [getConfig], with loop variable [retries]. *)
Inductive getConfig_round (serviceName : string)
  : Z -> Outcome (Step Z (option Configuration * option error)) -> list Event -> Prop :=
| config_retry retries e :
    IsNotFound (Some e) = true -> retries < MaxGetRetries pkg ->
    getConfig_round serviceName retries (Returned (Continue retries))
      [Called side (CGetConfig serviceName (Err e)); Slept time_Second]
| config_failed retries e :
    IsNotFound (Some e) && (retries <? MaxGetRetries pkg) = false ->
    getConfig_round serviceName retries (Returned (Return (None, Some e)))
      [Called side (CGetConfig serviceName (Err e))]
| config_found retries config :
    getConfig_round serviceName retries (Returned (Return (Some config, None)))
      [Called side (CGetConfig serviceName (Ok config))].

(** The value [migrateRevision] returns after its loop. *)
Definition after_loop (o : Outcome (option (option error))) : Outcome (option error) :=
  match o with
  | Returned (Some v) => Returned v
  | Returned None => Returned None
  | Stopped why => Stopped why
  end.

(** The two strategies of [migrateRevision]. *)
Inductive revision_run (fuel : nat) (configUuid latest : string) (revisionS : Revision)
  : Outcome (option error) -> list Event -> Prop :=
| run_create r :
    bears latest revisionS = false ->
    revision_run fuel configUuid latest revisionS (Returned (err_of r))
      [Called side (CCreateRevision revisionS configUuid r)]
| run_reconcile o d :
    bears latest revisionS = true ->
    rounds (reconcile_round revisionS) fuel (0, 0) o d ->
    revision_run fuel configUuid latest revisionS (after_loop o) d.

(** The runs of the loop over the revisions of a service. *)
Inductive replay (fuel : nat) (configUuid latest : string)
  : list Revision -> Outcome unit -> list Event -> Prop :=
| replay_done :
    replay fuel configUuid latest [] (Returned tt) []
| replay_next rev rest d d' o :
    revision_run fuel configUuid latest rev (Returned None) d ->
    replay fuel configUuid latest rest o d' ->
    replay fuel configUuid latest (rev :: rest) o (d ++ Slept (5 * time_Second) :: d')
| replay_failed rev rest e d :
    revision_run fuel configUuid latest rev (Returned (Some e)) d ->
    replay fuel configUuid latest (rev :: rest) (Stopped (Exited 1 (Error e))) d
| replay_stopped rev rest why d :
    revision_run fuel configUuid latest rev (Stopped why) d ->
    replay fuel configUuid latest (rev :: rest) (Stopped why) d.

(** The calls of that loop, for the captured name [latest]. *)
Definition replay_event (latest : string) (e : Event) : Prop :=
  match e with
  | Called sd (CCreateRevision rev _ _) => sd = side /\ bears latest rev = false
  | Called sd (CGetRevision n _) => sd = side /\ n = latest
  | Called sd (CUpdateRevision _ _) => sd = side
  | Slept _ => True
  | _ => False
  end.

(** The runs of [createService]. *)
Inductive createService_run (service : Service) (force : bool)
  : Outcome (option error) -> list Event -> Prop :=
| create_check_failed e :
    createService_run service force (Returned (Some e))
      [Called side (CServiceExists (Name (Service_ObjectMeta service)) (Err e))]
| create_refused :
    force = false ->
    createService_run service force
      (Returned (Some (errorString (already_exists_message (Name (Service_ObjectMeta service))))))
      [Called side (CServiceExists (Name (Service_ObjectMeta service)) (Ok true))]
| create_replaced deleted r :
    force = true ->
    createService_run service force (Returned (err_of r))
      [Called side (CServiceExists (Name (Service_ObjectMeta service)) (Ok true));
       Called side (CDeleteService (Name (Service_ObjectMeta service)) deleted);
       Called side (CCreateService service r)]
| create_fresh r :
    createService_run service force (Returned (err_of r))
      [Called side (CServiceExists (Name (Service_ObjectMeta service)) (Ok false));
       Called side (CCreateService service r)].

End Runs.

(** [if err != nil { fmt.Printf(err.Error()); os.Exit(1) }] as an outcome. *)
Definition check_outcome (err : option error) : Outcome unit :=
  match err with
  | Some e => Stopped (Exited 1 (Error e))
  | None => Returned tt
  end.

(** The runs of the first step for a service: the lookup of its configmap on
    the source and, when there is one, its copy to the destination. *)
Inductive configmap_run (namespaceS namespaceD serviceName : string)
  : Outcome unit -> list Event -> Prop :=
| configmap_absent e :
    IsNotFound (Some e) = true ->
    configmap_run namespaceS namespaceD serviceName (Returned tt)
      [Called Source (CConfigMapsGet namespaceS (generateConfigmapName serviceName) (Err e))]
| configmap_lookup_failed e :
    IsNotFound (Some e) = false ->
    configmap_run namespaceS namespaceD serviceName (Stopped (Exited 1 (Error e)))
      [Called Source (CConfigMapsGet namespaceS (generateConfigmapName serviceName) (Err e))]
| configmap_copied cm r :
    configmap_run namespaceS namespaceD serviceName (check_outcome (err_of r))
      [Called Source (CConfigMapsGet namespaceS (generateConfigmapName serviceName) (Ok cm));
       Called Destination (CConfigMapsCreate namespaceD (configmap_copy namespaceD cm) r)].

(** The runs of the body of the loop over the services: how far the
    migration of [serviceS] got. *)
Inductive service_run (pkg : Package) (fuel : nat) (namespaceS namespaceD : string)
    (serviceS : Service) : Outcome unit -> list Event -> Prop :=
| service_configmap_failed why d :
    configmap_run namespaceS namespaceD (Name (Service_ObjectMeta serviceS)) (Stopped why) d ->
    service_run pkg fuel namespaceS namespaceD serviceS (Stopped why) d
| service_create_failed d1 d2 e :
    configmap_run namespaceS namespaceD (Name (Service_ObjectMeta serviceS)) (Returned tt) d1 ->
    createService_run Destination serviceS (Force (migrateFlags pkg)) (Returned (Some e)) d2 ->
    service_run pkg fuel namespaceS namespaceD serviceS (Stopped (Exited 1 (Error e)))
      (d1 ++ d2)
| service_get_failed d1 d2 e :
    configmap_run namespaceS namespaceD (Name (Service_ObjectMeta serviceS)) (Returned tt) d1 ->
    createService_run Destination serviceS (Force (migrateFlags pkg)) (Returned None) d2 ->
    service_run pkg fuel namespaceS namespaceD serviceS (Stopped (Exited 1 (Error e)))
      (d1 ++ d2 ++
       [Called Destination (CGetService (Name (Service_ObjectMeta serviceS)) (Err e))])
| service_config_failed d1 d2 serviceD d3 why :
    configmap_run namespaceS namespaceD (Name (Service_ObjectMeta serviceS)) (Returned tt) d1 ->
    createService_run Destination serviceS (Force (migrateFlags pkg)) (Returned None) d2 ->
    Forall (fun e => config_event e = true) d3 ->
    service_run pkg fuel namespaceS namespaceD serviceS (Stopped why)
      (d1 ++ d2 ++
       Called Destination (CGetService (Name (Service_ObjectMeta serviceS)) (Ok serviceD)) :: d3)
| service_list_failed d1 d2 serviceD d3 e :
    configmap_run namespaceS namespaceD (Name (Service_ObjectMeta serviceS)) (Returned tt) d1 ->
    createService_run Destination serviceS (Force (migrateFlags pkg)) (Returned None) d2 ->
    Forall (fun e => config_event e = true) d3 ->
    service_run pkg fuel namespaceS namespaceD serviceS (Stopped (Exited 1 (Error e)))
      (d1 ++ d2 ++
       Called Destination (CGetService (Name (Service_ObjectMeta serviceS)) (Ok serviceD)) :: d3 ++
       [Called Source (CListRevisionByService (Name (Service_ObjectMeta serviceS)) (Err e))])
| service_replayed d1 d2 serviceD d3 revisionsS configUUID o d4 :
    configmap_run namespaceS namespaceD (Name (Service_ObjectMeta serviceS)) (Returned tt) d1 ->
    createService_run Destination serviceS (Force (migrateFlags pkg)) (Returned None) d2 ->
    Forall (fun e => config_event e = true) d3 ->
    replay pkg Destination fuel configUUID
      (LatestCreatedRevisionName (Service_Status serviceD)) revisionsS o d4 ->
    service_run pkg fuel namespaceS namespaceD serviceS o
      (d1 ++ d2 ++
       Called Destination (CGetService (Name (Service_ObjectMeta serviceS)) (Ok serviceD)) :: d3 ++
       Called Source (CListRevisionByService (Name (Service_ObjectMeta serviceS)) (Ok revisionsS))
       :: d4).

(** The runs of the loop of [deleteAllServices]. *)
Inductive deletions (side : Side) : list Service -> Outcome (option error) -> list Event -> Prop :=
| deletions_done :
    deletions side [] (Returned None) []
| deletions_next service rest o d :
    deletions side rest o d ->
    deletions side (service :: rest) o
      (Called side (CDeleteService (Name (Service_ObjectMeta service)) None) :: d)
| deletions_failed service rest e :
    deletions side (service :: rest) (Returned (Some e))
      [Called side (CDeleteService (Name (Service_ObjectMeta service)) (Some e))].

(** The runs of [deleteAllServices]. *)
Inductive deleteAllServices_run (side : Side) : bool -> Outcome (option error) -> list Event -> Prop :=
| delete_skipped :
    deleteAllServices_run side false (Returned None) []
| delete_list_failed e :
    deleteAllServices_run side true (Returned (Some e)) [Called side (CListService (Err e))]
| delete_listed services o d :
    deletions side services o d ->
    deleteAllServices_run side true o (Called side (CListService (Ok services)) :: d).

(** ** A small cluster to run the code on

    The examples below run the functions against an in-memory cluster that
    behaves like a Knative control plane as far as the migration can tell:
    creating a service fabricates its configuration and its latest revision. *)

Module Sim.

Record Cluster : Type := {
  namespaces : list string;
  configmaps : list ConfigMap;
  services : list Service;
  configurations : list Configuration;
  revisions : list Revision
}.

Record World : Type := {
  source : Cluster;
  destination : Cluster
}.

Definition cluster (side : Side) (w : World) : Cluster :=
  match side with
  | Source => source w
  | Destination => destination w
  end.

Definition on (side : Side) {A} (op : Cluster -> A * Cluster) (w : World) : A * World :=
  let '(a, k) := op (cluster side w) in
  (a, match side with
      | Source => {| source := k; destination := destination w |}
      | Destination => {| source := source w; destination := k |}
      end).

Definition not_found (what : string) : error :=
  StatusError StatusReasonNotFound (what +:+ " not found").

Definition already_exists (what : string) : error :=
  StatusError StatusReasonAlreadyExists (what +:+ " already exists").

Definition service_label : string := "serving.knative.dev/service".

Definition service_named (n : string) (svc : Service) : bool :=
  String.eqb (Name (Service_ObjectMeta svc)) n.

Definition revision_named (n : string) (rev : Revision) : bool :=
  String.eqb (Name (Revision_ObjectMeta rev)) n.

Definition revision_of (n : string) (rev : Revision) : bool :=
  String.eqb (map_index (Labels (Revision_ObjectMeta rev)) service_label) n.

Definition configuration_named (n : string) (cfg : Configuration) : bool :=
  String.eqb (Name (Configuration_ObjectMeta cfg)) n.

Definition configmap_named (ns n : string) (cm : ConfigMap) : bool :=
  String.eqb (Namespace (ConfigMap_ObjectMeta cm)) ns &&
  String.eqb (Name (ConfigMap_ObjectMeta cm)) n.

Definition meta (n : string) (labels : StringMap) : ObjectMeta :=
  {| Name := n; Namespace := "default"; UID := "uid-" +:+ n;
     Labels := labels; Annotations := None |}.

(** The revision the control plane fabricates for a new service. *)
Definition fabricated (svc : Service) : Revision :=
  {| Revision_ObjectMeta :=
       meta (LatestCreatedRevisionName (Service_Status svc))
            (Some (<[service_label := Name (Service_ObjectMeta svc)]>
                     (<[generation_label := "1"]> ∅)));
     Revision_Spec := Service_Spec svc |}.

Definition answer {A} (what : string) (found : option A) (k : Cluster) : result A * Cluster :=
  match found with
  | Some a => (Ok a, k)
  | None => (Err (not_found what), k)
  end.

Definition create_service (svc : Service) (k : Cluster) : result Service * Cluster :=
  let n := Name (Service_ObjectMeta svc) in
  if existsb (service_named n) (services k) then (Err (already_exists n), k)
  else (Ok svc,
        {| namespaces := namespaces k;
           configmaps := configmaps k;
           services := services k ++ [svc];
           configurations := configurations k ++ [{| Configuration_ObjectMeta := meta n None |}];
           revisions := revisions k ++ [fabricated svc] |}).

Definition delete_service (n : string) (k : Cluster) : option error * Cluster :=
  if existsb (service_named n) (services k) then
    (None,
     {| namespaces := namespaces k;
        configmaps := configmaps k;
        services := List.filter (fun svc => negb (service_named n svc)) (services k);
        configurations :=
          List.filter (fun cfg => negb (configuration_named n cfg)) (configurations k);
        revisions := List.filter (fun rev => negb (revision_of n rev)) (revisions k) |})
  else (Some (not_found n), k).

Definition create_revision (rev : Revision) (k : Cluster) : result Revision * Cluster :=
  let n := Name (Revision_ObjectMeta rev) in
  if existsb (revision_named n) (revisions k) then (Err (already_exists n), k)
  else (Ok rev,
        {| namespaces := namespaces k;
           configmaps := configmaps k;
           services := services k;
           configurations := configurations k;
           revisions := revisions k ++ [rev] |}).

Definition update_revision (rev : Revision) (k : Cluster) : option error * Cluster :=
  let n := Name (Revision_ObjectMeta rev) in
  if existsb (revision_named n) (revisions k) then
    (None,
     {| namespaces := namespaces k;
        configmaps := configmaps k;
        services := services k;
        configurations := configurations k;
        revisions := map (fun old => if revision_named n old then rev else old) (revisions k) |})
  else (Some (not_found n), k).

Definition create_namespace (ns : Namespace_) (k : Cluster) : result Namespace_ * Cluster :=
  let n := Name (Namespace_ObjectMeta ns) in
  if existsb (String.eqb n) (namespaces k) then (Err (already_exists n), k)
  else (Ok ns,
        {| namespaces := namespaces k ++ [n];
           configmaps := configmaps k;
           services := services k;
           configurations := configurations k;
           revisions := revisions k |}).

Definition create_configmap (ns : string) (cm : ConfigMap) (k : Cluster)
  : result ConfigMap * Cluster :=
  let n := Name (ConfigMap_ObjectMeta cm) in
  if existsb (configmap_named ns n) (configmaps k) then (Err (already_exists n), k)
  else (Ok cm,
        {| namespaces := namespaces k;
           configmaps := configmaps k ++ [cm];
           services := services k;
           configurations := configurations k;
           revisions := revisions k |}).

Definition client (side : Side) : MigrationClient World :=
  {| PrintServiceWithRevisions _ := fun w => (None, w);
     ListService := on side (fun k => (Ok (services k), k));
     GetService n := on side (fun k => answer n (List.find (service_named n) (services k)) k);
     ServiceExists n := on side (fun k => (Ok (existsb (service_named n) (services k)), k));
     DeleteService n := on side (delete_service n);
     CreateService svc := on side (create_service svc);
     GetConfig n :=
       on side (fun k => answer n (List.find (configuration_named n) (configurations k)) k);
     ListRevisionByService n :=
       on side (fun k => (Ok (List.filter (revision_of n) (revisions k)), k));
     GetRevision n :=
       on side (fun k => answer n (List.find (revision_named n) (revisions k)) k);
     CreateRevision rev _ := on side (create_revision rev);
     UpdateRevision rev := on side (update_revision rev) |}.

Definition clientset (side : Side) : Clientset World :=
  {| Namespaces_Get n :=
       on side (fun k =>
         answer n (if existsb (String.eqb n) (namespaces k)
                   then Some {| Namespace_ObjectMeta := meta n None |} else None) k);
     Namespaces_Create ns := on side (create_namespace ns);
     ConfigMaps_Get ns n :=
       on side (fun k => answer n (List.find (configmap_named ns n) (configmaps k)) k);
     ConfigMaps_Create ns cm := on side (create_configmap ns cm) |}.

#[global] Instance World_Clock : Clock World := fun _ w => (tt, w).

(** *** A source namespace with one service and two revisions *)

Definition foo : Service :=
  {| Service_ObjectMeta := meta "foo" None;
     Service_Spec := "image: foo:2";
     Service_Status := {| LatestCreatedRevisionName := "foo-00002" |} |}.

Definition foo_revision (n generation spec : string) : Revision :=
  {| Revision_ObjectMeta :=
       meta n (Some (<[service_label := "foo"]> (<[generation_label := generation]> ∅)));
     Revision_Spec := spec |}.

Definition foo_00001 : Revision := foo_revision "foo-00001" "1" "image: foo:1".
Definition foo_00002 : Revision := foo_revision "foo-00002" "2" "image: foo:2".

Definition foo_config : ConfigMap :=
  {| ConfigMap_TypeMeta := {| Kind := "ConfigMap"; APIVersion := "v1" |};
     ConfigMap_ObjectMeta := meta "foo-config" None;
     Data := Some (<["mode" := "fast"]> ∅) |}.

Definition source_cluster : Cluster :=
  {| namespaces := ["default"];
     configmaps := [foo_config];
     services := [foo];
     configurations := [{| Configuration_ObjectMeta := meta "foo" None |}];
     revisions := [foo_00001; foo_00002] |}.

Definition empty_cluster : Cluster :=
  {| namespaces := ["default"]; configmaps := []; services := [];
     configurations := []; revisions := [] |}.

(** A destination on which a service [foo] already runs. *)
Definition taken_cluster : Cluster :=
  {| namespaces := ["default"];
     configmaps := [];
     services := [foo];
     configurations := [{| Configuration_ObjectMeta := meta "foo" None |}];
     revisions := [fabricated foo] |}.

Definition fresh : World := {| source := source_cluster; destination := empty_cluster |}.
Definition taken : World := {| source := source_cluster; destination := taken_cluster |}.

Definition flags (force delete : bool) : migrateCmdFlags :=
  {| Flag_Namespace := "default"; KubeConfig := "source.yml";
     DestinationKubeConfig := "destination.yml"; DestinationNamespace := "default";
     Force := force; Delete := delete |}.

(** *** Clients that misbehave in one operation *)

(** The revision is never visible. *)
Definition lost_revision (c : MigrationClient World) : MigrationClient World :=
  {| PrintServiceWithRevisions := PrintServiceWithRevisions c;
     ListService := ListService c;
     GetService := GetService c;
     ServiceExists := ServiceExists c;
     DeleteService := DeleteService c;
     CreateService := CreateService c;
     GetConfig := GetConfig c;
     ListRevisionByService := ListRevisionByService c;
     GetRevision n := fun w => (Err (not_found n), w);
     CreateRevision := CreateRevision c;
     UpdateRevision := UpdateRevision c |}.

(** The fetched revision has no label map. *)
Definition bare_revision (c : MigrationClient World) : MigrationClient World :=
  {| PrintServiceWithRevisions := PrintServiceWithRevisions c;
     ListService := ListService c;
     GetService := GetService c;
     ServiceExists := ServiceExists c;
     DeleteService := DeleteService c;
     CreateService := CreateService c;
     GetConfig := GetConfig c;
     ListRevisionByService := ListRevisionByService c;
     GetRevision n := fun w =>
       (Ok {| Revision_ObjectMeta := meta n None; Revision_Spec := "" |}, w);
     CreateRevision := CreateRevision c;
     UpdateRevision := UpdateRevision c |}.

(** The configuration is never visible. *)
Definition lost_config (c : MigrationClient World) : MigrationClient World :=
  {| PrintServiceWithRevisions := PrintServiceWithRevisions c;
     ListService := ListService c;
     GetService := GetService c;
     ServiceExists := ServiceExists c;
     DeleteService := DeleteService c;
     CreateService := CreateService c;
     GetConfig n := fun w => (Err (not_found n), w);
     ListRevisionByService := ListRevisionByService c;
     GetRevision := GetRevision c;
     CreateRevision := CreateRevision c;
     UpdateRevision := UpdateRevision c |}.

(** Deleting a service is refused. *)
Definition stuck_delete (c : MigrationClient World) : MigrationClient World :=
  {| PrintServiceWithRevisions := PrintServiceWithRevisions c;
     ListService := ListService c;
     GetService := GetService c;
     ServiceExists := ServiceExists c;
     DeleteService n := fun w => (Some (StatusError StatusReasonUnknown "delete refused"), w);
     CreateService := CreateService c;
     GetConfig := GetConfig c;
     ListRevisionByService := ListRevisionByService c;
     GetRevision := GetRevision c;
     CreateRevision := CreateRevision c;
     UpdateRevision := UpdateRevision c |}.

(** Creating a revision fails with the given reason. *)
Definition failing_create (reason : StatusReason) (c : MigrationClient World)
  : MigrationClient World :=
  {| PrintServiceWithRevisions := PrintServiceWithRevisions c;
     ListService := ListService c;
     GetService := GetService c;
     ServiceExists := ServiceExists c;
     DeleteService := DeleteService c;
     CreateService := CreateService c;
     GetConfig := GetConfig c;
     ListRevisionByService := ListRevisionByService c;
     GetRevision := GetRevision c;
     CreateRevision rev _ := fun w => (Err (StatusError reason "create refused"), w);
     UpdateRevision := UpdateRevision c |}.

(** A namespace that is not there. *)
Definition no_namespace : World :=
  {| source := source_cluster;
     destination := {| namespaces := []; configmaps := []; services := [];
                       configurations := []; revisions := [] |} |}.

(** *** The runs of the examples *)

Definition pkg (force delete : bool) : Package := Package_init (flags force delete).

Definition sourceClient : MigrationClient (Traced World) := traced_client Source (client Source).
Definition destinationClient : MigrationClient (Traced World) :=
  traced_client Destination (client Destination).
Definition sourceClientset : Clientset (Traced World) :=
  traced_clientset Source (clientset Source).
Definition destinationClientset : Clientset (Traced World) :=
  traced_clientset Destination (clientset Destination).

(** The whole of [Run] after the clients are built. *)
Definition run (force delete : bool) : Go (Traced World) unit :=
  Run_with_clients (pkg force delete) 64 (traced_clientset Source (clientset Source))
    (traced_clientset Destination (clientset Destination))
    (traced_client Source (client Source)) (traced_client Destination (client Destination))
    "default" "default".

(** The migration of the service [foo]. *)
Definition migrate_foo (force : bool) : Go (Traced World) unit :=
  Run_service (pkg force false) 64 (traced_clientset Source (clientset Source))
    (traced_clientset Destination (clientset Destination))
    (traced_client Source (client Source)) (traced_client Destination (client Destination))
    "default" "default" foo.

(** [migrateRevision] for one revision of [foo], against a destination client. *)
Definition migrate_revision (fuel : nat) (c : MigrationClient World) (rev : Revision)
  : Go (Traced World) (option error) :=
  migrateRevision (pkg false false) fuel (traced_client Destination c) rev foo
    "uid-foo" "foo-00002".

(** The destination after [foo] has been created on it. *)
Definition created_world : World :=
  (CreateService (client Destination) foo fresh).2.

(** The environment of [Run]: two kubeconfig files, one for each cluster. *)
Definition BuildConfigFromFlags (masterUrl kubeconfigPath : string) : result Side :=
  if String.eqb kubeconfigPath "source.yml" then Ok Source
  else if String.eqb kubeconfigPath "destination.yml" then Ok Destination
  else Err (errorString ("stat " +:+ kubeconfigPath +:+ ": no such file or directory")).

Definition Run_sim (force delete : bool) : Go (Traced World) unit :=
  Run (pkg force delete) (fun _ => "") BuildConfigFromFlags
    (fun side => Ok (traced_clientset side (clientset side)))
    (fun side => Ok side)
    (fun side _ => traced_client side (client side))
    64.

End Sim.

(** ** More about traces and runs *)

Definition is_CreateService (e : Event) : bool :=
  match e with Called _ (CCreateService _ _) => true | _ => false end.

Definition is_DeleteService (e : Event) : bool :=
  match e with Called _ (CDeleteService _ _) => true | _ => false end.

Definition is_ConfigMapsCreate (e : Event) : bool :=
  match e with Called _ (CConfigMapsCreate _ _ _) => true | _ => false end.

(** The five-second pause of [Run] after a revision. *)
Definition is_throttle (e : Event) : bool :=
  match e with Slept d => Z.eqb d (5 * time_Second) | _ => false end.

(** The names of the configmaps looked up on the source, in order. *)
Definition lookups (d : list Event) : list string :=
  omap (fun e => match e with
                 | Called Source (CConfigMapsGet _ n _) => Some n
                 | _ => None
                 end) d.

(** The configuration UIDs handed to [CreateRevision]. *)
Definition stamped (d : list Event) : list string :=
  omap (fun e => match e with
                 | Called _ (CCreateRevision _ uid _) => Some uid
                 | _ => None
                 end) d.


(** The calls that [Run] makes outside the migration of a service, and the
    lookup of the configmap that starts the migration of a service. *)
Definition pass_level (e : Event) : bool :=
  match e with
  | Called _ (CPrintServiceWithRevisions _ _) | Called _ (CNamespacesGet _ _)
  | Called _ (CNamespacesCreate _ _) | Called _ (CListService _)
  | Called _ (CConfigMapsGet _ _ _) => true
  | _ => false
  end.

(** A call of the migration pass itself that failed with [e]: a snapshot,
    the check of the namespace or the listing of the services. *)
Definition preflight_failure (e : error) (ev : Event) : Prop :=
  match ev with
  | Called _ (CPrintServiceWithRevisions _ r) => r = Some e
  | Called _ (CNamespacesGet _ r) => err_of r = Some e
  | Called _ (CListService r) => r = Err e
  | _ => False
  end.

(** The name of the configmap of a service. *)
Definition configmap_of (service : Service) : string :=
  generateConfigmapName (Name (Service_ObjectMeta service)).

(** A [DeleteService] on the cluster [side]. *)
Definition deletes (side : Side) (e : Event) : bool :=
  match e with
  | Called sd (CDeleteService _ _) => Side_eqb sd side
  | _ => false
  end.

(** The lookup of the configuration of a service and the listing of the
    revisions that follows it. *)
Definition reads_configuration (e : Event) : bool :=
  match e with
  | Called _ (CGetConfig _ _) | Called _ (CListRevisionByService _ _) => true
  | _ => false
  end.

(** [kubeconfigS] and [kubeconfigD] of [Run]: the flag, or the environment
    variable when the flag is empty. *)
Definition flag_or_env (flag env : string) : string :=
  if String.eqb flag "" then env else flag.

Section MoreRuns.
Variable pkg : Package.
Variable side : Side.

(** One fetch of the loop of [migrateRevision] with what directly follows it:
    a sleep after NotFound, nothing after another error or a revision
    without label map, the update of the relabelled revision otherwise. *)
Inductive attempt (revisionS : Revision) : list Event -> Prop :=
| attempt_not_visible e :
    IsNotFound (Some e) = true ->
    attempt revisionS
      [Called side (CGetRevision (Name (Revision_ObjectMeta revisionS)) (Err e));
       Slept time_Second]
| attempt_failed e :
    attempt revisionS
      [Called side (CGetRevision (Name (Revision_ObjectMeta revisionS)) (Err e))]
| attempt_no_labels rev :
    Labels (Revision_ObjectMeta rev) = None ->
    attempt revisionS
      [Called side (CGetRevision (Name (Revision_ObjectMeta revisionS)) (Ok rev))]
| attempt_update rev m r :
    Labels (Revision_ObjectMeta rev) = Some m ->
    attempt revisionS
      [Called side (CGetRevision (Name (Revision_ObjectMeta revisionS)) (Ok rev));
       Called side (CUpdateRevision
         (relabel rev m (map_index (Labels (Revision_ObjectMeta revisionS)) generation_label))
         r)].

End MoreRuns.

(** The runs of the loop over the services of the source. *)
Inductive services_run (pkg : Package) (fuel : nat) (namespaceS namespaceD : string)
  : list Service -> Outcome unit -> list Event -> Prop :=
| services_done :
    services_run pkg fuel namespaceS namespaceD [] (Returned tt) []
| services_next service rest d d' o :
    service_run pkg fuel namespaceS namespaceD service (Returned tt) d ->
    services_run pkg fuel namespaceS namespaceD rest o d' ->
    services_run pkg fuel namespaceS namespaceD (service :: rest) o (d ++ d')
| services_stopped service rest why d :
    service_run pkg fuel namespaceS namespaceD service (Stopped why) d ->
    services_run pkg fuel namespaceS namespaceD (service :: rest) (Stopped why) d.

(** The runs of the migration pass, by the place where it ends. *)
Inductive migration_run (pkg : Package) (fuel : nat) (namespaceS namespaceD : string)
  : Outcome unit -> list Event -> Prop :=
| migration_snapshot_failed e :
    migration_run pkg fuel namespaceS namespaceD (Stopped (Exited 1 (Error e)))
      [Called Destination (CPrintServiceWithRevisions "destination" (Some e))]
| migration_namespace_failed r e :
    err_of r = Some e ->
    migration_run pkg fuel namespaceS namespaceD (Stopped (Exited 1 (Error e)))
      [Called Destination (CPrintServiceWithRevisions "destination" None);
       Called Destination (CNamespacesGet namespaceD r)]
| migration_list_failed r e :
    err_of r = None ->
    migration_run pkg fuel namespaceS namespaceD (Stopped (Exited 1 (Error e)))
      [Called Destination (CPrintServiceWithRevisions "destination" None);
       Called Destination (CNamespacesGet namespaceD r);
       Called Source (CListService (Err e))]
| migration_stopped r services why d :
    err_of r = None ->
    services_run pkg fuel namespaceS namespaceD services (Stopped why) d ->
    migration_run pkg fuel namespaceS namespaceD (Stopped why)
      (Called Destination (CPrintServiceWithRevisions "destination" None) ::
       Called Destination (CNamespacesGet namespaceD r) ::
       Called Source (CListService (Ok services)) :: d)
| migration_done r services d after :
    err_of r = None ->
    services_run pkg fuel namespaceS namespaceD services (Returned tt) d ->
    migration_run pkg fuel namespaceS namespaceD (check_outcome after)
      (Called Destination (CPrintServiceWithRevisions "destination" None) ::
       Called Destination (CNamespacesGet namespaceD r) ::
       Called Source (CListService (Ok services)) :: d ++
       [Called Destination (CPrintServiceWithRevisions "destination" after)]).

(** ** More examples *)

Module More.

Definition with_GetRevision {St} (c : MigrationClient St)
    (f : string -> St -> result Revision * St) : MigrationClient St :=
  {| PrintServiceWithRevisions := PrintServiceWithRevisions c;
     ListService := ListService c;
     GetService := GetService c;
     ServiceExists := ServiceExists c;
     DeleteService := DeleteService c;
     CreateService := CreateService c;
     GetConfig := GetConfig c;
     ListRevisionByService := ListRevisionByService c;
     GetRevision := f;
     CreateRevision := CreateRevision c;
     UpdateRevision := UpdateRevision c |}.

Definition with_UpdateRevision {St} (c : MigrationClient St)
    (f : Revision -> St -> option error * St) : MigrationClient St :=
  {| PrintServiceWithRevisions := PrintServiceWithRevisions c;
     ListService := ListService c;
     GetService := GetService c;
     ServiceExists := ServiceExists c;
     DeleteService := DeleteService c;
     CreateService := CreateService c;
     GetConfig := GetConfig c;
     ListRevisionByService := ListRevisionByService c;
     GetRevision := GetRevision c;
     CreateRevision := CreateRevision c;
     UpdateRevision := f |}.

Definition forbidden : error := StatusError StatusReasonUnknown "forbidden".



(** Updates are refused for another reason than a conflict. *)
Definition refused_update : MigrationClient Sim.World :=
  with_UpdateRevision (Sim.client Destination) (fun _ w => (Some forbidden, w)).

(** Fetches are refused for another reason than NotFound. *)
Definition refused_get : MigrationClient Sim.World :=
  with_GetRevision (Sim.client Destination) (fun _ w => (Err forbidden, w)).

(** The configuration cannot be read, for another reason than NotFound. *)
Definition refused_config : MigrationClient Sim.World :=
  {| PrintServiceWithRevisions := PrintServiceWithRevisions (Sim.client Destination);
     ListService := ListService (Sim.client Destination);
     GetService := GetService (Sim.client Destination);
     ServiceExists := ServiceExists (Sim.client Destination);
     DeleteService := DeleteService (Sim.client Destination);
     CreateService := CreateService (Sim.client Destination);
     GetConfig _ := fun w => (Err forbidden, w);
     ListRevisionByService := ListRevisionByService (Sim.client Destination);
     GetRevision := GetRevision (Sim.client Destination);
     CreateRevision := CreateRevision (Sim.client Destination);
     UpdateRevision := UpdateRevision (Sim.client Destination) |}.

(** The migration of [foo] to that destination. *)
Definition migrate_foo_refused : Go (Traced Sim.World) unit :=
  Run_service (Sim.pkg false false) 64 (traced_clientset Source (Sim.clientset Source))
    (traced_clientset Destination (Sim.clientset Destination))
    (traced_client Source (Sim.client Source)) (traced_client Destination refused_config)
    "default" "default" Sim.foo.

(** A destination whose latest revision of [foo] already carries the
    generation of the source. *)
Definition reconciled_world : Sim.World :=
  (UpdateRevision (Sim.client Destination) Sim.foo_00002 Sim.created_world).2.

(** A control plane that shows the configuration of a new service only at
    the fourth request: the state counts the requests. *)
Definition lagging : MigrationClient nat :=
  {| PrintServiceWithRevisions _ := fun w => (None, w);
     ListService := fun w => (Ok [], w);
     GetService n := fun w => (Err (Sim.not_found n), w);
     ServiceExists _ := fun w => (Ok false, w);
     DeleteService _ := fun w => (None, w);
     CreateService svc := fun w => (Ok svc, w);
     GetConfig n := fun w =>
       if (w <? 3)%nat then (Err (Sim.not_found n), S w)
       else (Ok {| Configuration_ObjectMeta := Sim.meta n None |}, S w);
     ListRevisionByService _ := fun w => (Ok [], w);
     GetRevision n := fun w => (Err (Sim.not_found n), w);
     CreateRevision rev _ := fun w => (Ok rev, w);
     UpdateRevision _ := fun w => (None, w) |}.

#[global] Instance nat_Clock : Clock nat := fun _ w => (tt, w).

(** A second service, which is already on the destination. *)
Definition bar : Service :=
  {| Service_ObjectMeta := Sim.meta "bar" None;
     Service_Spec := "image: bar:1";
     Service_Status := {| LatestCreatedRevisionName := "bar-00001" |} |}.

Definition two_services : Sim.World :=
  {| Sim.source :=
       {| Sim.namespaces := ["default"]; Sim.configmaps := [Sim.foo_config];
          Sim.services := [bar; Sim.foo];
          Sim.configurations := [{| Configuration_ObjectMeta := Sim.meta "foo" None |}];
          Sim.revisions := [Sim.foo_00001; Sim.foo_00002] |};
     Sim.destination :=
       {| Sim.namespaces := ["default"]; Sim.configmaps := [];
          Sim.services := [bar]; Sim.configurations := []; Sim.revisions := [] |} |}.

(** The run of the examples after the clients are built, against a
    destination that refuses to create revisions. *)
Definition run_failing_create (reason : StatusReason) : Go (Traced Sim.World) unit :=
  Run_with_clients (Sim.pkg false false) 64 (traced_clientset Source (Sim.clientset Source))
    (traced_clientset Destination (Sim.clientset Destination))
    (traced_client Source (Sim.client Source))
    (traced_client Destination (Sim.failing_create reason (Sim.client Destination)))
    "default" "default".

(** The migration pass of the examples. *)
Definition pass (force : bool) : Go (Traced Sim.World) unit :=
  Run_migration (Sim.pkg force false) 64 (traced_clientset Source (Sim.clientset Source))
    (traced_clientset Destination (Sim.clientset Destination))
    (traced_client Source (Sim.client Source)) (traced_client Destination (Sim.client Destination))
    "default" "default".

(** [Run] with the given flags in the environment of the examples. *)
Definition Run_with (flags : migrateCmdFlags) (getenv : string -> string)
  : Go (Traced Sim.World) unit :=
  Run (Package_init flags) getenv Sim.BuildConfigFromFlags
    (fun side => Ok (traced_clientset side (Sim.clientset side)))
    (fun side => Ok side)
    (fun side _ => traced_client side (Sim.client side))
    64.

Definition no_flags : migrateCmdFlags :=
  {| Flag_Namespace := "default"; KubeConfig := ""; DestinationKubeConfig := "";
     DestinationNamespace := "default"; Force := false; Delete := false |}.

Definition lost_destination : migrateCmdFlags :=
  {| Flag_Namespace := "default"; KubeConfig := "source.yml";
     DestinationKubeConfig := "nowhere.yml";
     DestinationNamespace := "default"; Force := false; Delete := false |}.

End More.

(** * Proofs *)

(** ** The trace logic *)

Section TraceLogic.
Context {W : Type}.

Lemma emits_mono {A} (m : Go (Traced W) A) (Q Q' : Outcome A -> list Event -> Prop) :
  emits m Q -> (forall o d, Q o d -> Q' o d) -> emits m Q'.
Proof.
  intros Hm HQ s o s' E. destruct (Hm _ _ _ E) as (d & Ht & Hq). eauto.
Qed.

Lemma emits_mret {A} (a : A) :
  emits (mret a : Go (Traced W) A) (fun o d => o = Returned a /\ d = []).
Proof.
  intros s o s' E. inversion E; subst. exists []. by rewrite app_nil_r.
Qed.

Lemma emits_stop {A} (why : Stop) :
  emits (stop why : Go (Traced W) A) (fun o d => o = Stopped why /\ d = []).
Proof.
  intros s o s' E. inversion E; subst. exists []. by rewrite app_nil_r.
Qed.

Lemma emits_call {A} (ev : A -> Event) (op : W -> A * W) :
  emits (call (observe ev op)) (fun o d => exists a, o = Returned a /\ d = [ev a]).
Proof.
  intros s o s' E. unfold call, observe in E.
  destruct (op (world s)) as [a w]. inversion E; subst. simpl. eauto.
Qed.

(** The same, keeping a fact [P] that holds of every answer of [op]. *)
Lemma emits_call_with {A} (P : A -> Prop) (ev : A -> Event) (op : W -> A * W) :
  (forall w, P (op w).1) ->
  emits (call (observe ev op)) (fun o d => exists a, P a /\ o = Returned a /\ d = [ev a]).
Proof.
  intros HP s o s' E. unfold call, observe in E. specialize (HP (world s)).
  destruct (op (world s)) as [a w]. inversion E; subst. simpl in *.
  exists [ev a]. eauto.
Qed.

Lemma emits_bind {A B} (m : Go (Traced W) A) (k : A -> Go (Traced W) B)
    (Q1 : Outcome A -> list Event -> Prop) (Q2 : A -> Outcome B -> list Event -> Prop) :
  emits m Q1 ->
  (forall a, emits (k a) (Q2 a)) ->
  emits (m ≫= k) (fun o d =>
    (exists a d1 d2, d = d1 ++ d2 /\ Q1 (Returned a) d1 /\ Q2 a o d2) \/
    (exists why, o = Stopped why /\ Q1 (Stopped why) d)).
Proof.
  intros Hm Hk s o s' E. unfold mbind, Go_bind in E.
  destruct (m s) as [[a | why] s1] eqn:Em.
  - destruct (Hm _ _ _ Em) as (d1 & Ht1 & Hq1).
    destruct (Hk a _ _ _ E) as (d2 & Ht2 & Hq2).
    exists (d1 ++ d2). split.
    + by rewrite Ht2, Ht1, app_assoc.
    + left. eauto 10.
  - inversion E; subst. destruct (Hm _ _ _ Em) as (d1 & Ht1 & Hq1). eauto 10.
Qed.

(** Two descriptions of the same run can be combined: the appended events
    are determined by the run. *)
Lemma emits_and {A} (m : Go (Traced W) A) (Q1 Q2 : Outcome A -> list Event -> Prop) :
  emits m Q1 -> emits m Q2 -> emits m (fun o d => Q1 o d /\ Q2 o d).
Proof.
  intros H1 H2 s o s' E.
  destruct (H1 _ _ _ E) as (d1 & Ht1 & Hq1).
  destruct (H2 _ _ _ E) as (d2 & Ht2 & Hq2).
  assert (d1 = d2) as -> by (eapply app_inv_head; by rewrite <- Ht1, <- Ht2).
  eauto.
Qed.

Lemma emits_run {A} (m : Go (Traced W) A) Q (s : Traced W) :
  emits m Q -> Q (outcome_of m s) (events_of m s).
Proof.
  intros Hm. unfold outcome_of, events_of. destruct (m s) as [o s'] eqn:E.
  destruct (Hm _ _ _ E) as (d & Ht & Hq).
  simpl. rewrite Ht, drop_app_length. exact Hq.
Qed.

Lemma only_mret {A} P (a : A) : emits (mret a : Go (Traced W) A) (only P).
Proof. eapply emits_mono; [apply emits_mret |]. intros o d [_ ->]. constructor. Qed.

Lemma only_stop {A} P (why : Stop) : emits (stop why : Go (Traced W) A) (only P).
Proof. eapply emits_mono; [apply emits_stop |]. intros o d [_ ->]. constructor. Qed.

Lemma only_call {A} (P : Event -> Prop) (ev : A -> Event) (op : W -> A * W) :
  (forall a, P (ev a)) -> emits (call (observe ev op)) (only P).
Proof.
  intros HP. eapply emits_mono; [apply emits_call |].
  intros o d (a & _ & ->). repeat constructor. apply HP.
Qed.

Lemma only_call_with {A} (P : Event -> Prop) (ev : A -> Event) (op : W -> A * W) :
  (forall w, P (ev (op w).1)) -> emits (call (observe ev op)) (only P).
Proof.
  intros HP. eapply emits_mono; [apply (emits_call_with (fun a => P (ev a))); exact HP |].
  intros o d (a & Ha & _ & ->). by repeat constructor.
Qed.

Lemma only_bind {A B} P (m : Go (Traced W) A) (k : A -> Go (Traced W) B) :
  emits m (only P) -> (forall a, emits (k a) (only P)) -> emits (m ≫= k) (only P).
Proof.
  intros Hm Hk. eapply emits_mono; [apply (emits_bind _ _ _ _ Hm Hk) |].
  intros o d [(a & d1 & d2 & -> & H1 & H2) | (why & _ & H1)]; [| exact H1].
  apply Forall_app. split; assumption.
Qed.

Lemma only_for_each {A} P (items : list A) (body : A -> Go (Traced W) unit) :
  (forall x, emits (body x) (only P)) -> emits (for_each items body) (only P).
Proof.
  intros Hb. induction items as [| x rest IH]; simpl.
  - apply only_mret.
  - apply only_bind; [apply Hb | intros _; exact IH].
Qed.

Lemma only_for_range {A R} P (items : list A) (body : A -> Go (Traced W) (option R)) :
  (forall x, emits (body x) (only P)) -> emits (for_range items body) (only P).
Proof.
  intros Hb. induction items as [| x rest IH]; simpl.
  - apply only_mret.
  - apply only_bind; [apply Hb |]. intros [v |]; [apply only_mret | exact IH].
Qed.

Lemma only_forever {I R} P (fuel : nat) (body : I -> Go (Traced W) (Step I R)) (i : I) :
  (forall j, emits (body j) (only P)) -> emits (forever fuel body i) (only P).
Proof.
  intros Hb. revert i. induction fuel as [| fuel IH]; intros i; simpl.
  - apply only_stop.
  - apply only_bind; [apply Hb |]. intros [i' | | r]; [apply IH | apply only_mret ..].
Qed.

Lemma emits_forever {I R} (B : I -> Outcome (Step I R) -> list Event -> Prop)
    (fuel : nat) (body : I -> Go (Traced W) (Step I R)) (i : I) :
  (forall j, emits (body j) (B j)) ->
  emits (forever fuel body i) (rounds B fuel i).
Proof.
  intros Hb. revert i. induction fuel as [| fuel IH]; intros i; simpl.
  - eapply emits_mono; [apply emits_stop |]. intros o d [-> ->]. constructor.
  - eapply emits_mono; [apply (emits_bind _ _ (B i) (fun st o d =>
      match st with
      | Continue i' => rounds B fuel i' o d
      | Break => o = Returned None /\ d = []
      | Return r => o = Returned (Some r) /\ d = []
      end) (Hb i)) |].
    + intros [i' | | r]; [apply IH | apply emits_mret ..].
    + intros o d [(st & d1 & d2 & -> & H1 & H2) | (why & -> & H1)].
      * destruct st as [i' | | r].
        -- econstructor; eassumption.
        -- destruct H2 as [-> ->]. rewrite app_nil_r. by constructor.
        -- destruct H2 as [-> ->]. rewrite app_nil_r. by constructor.
      * by constructor.
Qed.

End TraceLogic.

(** Stepping through a computation. *)

Lemma bind_inv {St A B} (m : Go St A) (k : A -> Go St B) (s s' : St) (o : Outcome B) :
  (m ≫= k) s = (o, s') ->
  (exists a s1, m s = (Returned a, s1) /\ k a s1 = (o, s')) \/
  (exists why, m s = (Stopped why, s') /\ o = Stopped why).
Proof.
  unfold mbind, Go_bind. destruct (m s) as [[a | why] s1]; intros E.
  - left. eauto.
  - right. inversion E; subst. eauto.
Qed.

Lemma mret_inv {St A} (a : A) (s s' : St) (o : Outcome A) :
  (mret a : Go St A) s = (o, s') -> o = Returned a /\ s' = s.
Proof. intros E. by inversion E. Qed.

Lemma stop_inv {St A} (why : Stop) (s s' : St) (o : Outcome A) :
  (stop why : Go St A) s = (o, s') -> o = Stopped why /\ s' = s.
Proof. intros E. by inversion E. Qed.

Lemma check_inv {St} (err : option error) (s s' : St) (o : Outcome unit) :
  check err s = (o, s') -> o = check_outcome err /\ s' = s.
Proof. destruct err; intros E; by inversion E. Qed.

Lemma call_inv {W A} (ev : A -> Event) (op : W -> A * W) (s s' : Traced W) (o : Outcome A) :
  call (observe ev op) s = (o, s') ->
  exists a, o = Returned a /\ trace s' = trace s ++ [ev a].
Proof.
  intros E. destruct (emits_call ev op _ _ _ E) as (d & Ht & a & -> & ->). eauto.
Qed.

Lemma run_eq {W A} (m : Go (Traced W) A) (s s' : Traced W) (o : Outcome A) (d : list Event) :
  m s = (o, s') -> trace s' = trace s ++ d -> outcome_of m s = o /\ events_of m s = d.
Proof.
  intros E Ht. unfold outcome_of, events_of. rewrite E. cbn [fst snd].
  by rewrite Ht, drop_app_length.
Qed.

Lemma count_app (f : Event -> bool) (d1 d2 : list Event) :
  count f (d1 ++ d2) = (count f d1 + count f d2)%nat.
Proof. unfold count. by rewrite List.filter_app, length_app. Qed.

Lemma count_cons (f : Event -> bool) (e : Event) (d : list Event) :
  count f (e :: d) = ((if f e then 1 else 0) + count f d)%nat.
Proof. unfold count. cbn [List.filter]. by destruct (f e). Qed.

Lemma count_none (f : Event -> bool) (d : list Event) :
  Forall (fun e => f e = false) d -> count f d = O.
Proof.
  unfold count. induction 1 as [| e d He _ IH]; simpl; [done |]. by rewrite He.
Qed.

Lemma created_app (d1 d2 : list Event) : created (d1 ++ d2) = created d1 ++ created d2.
Proof. apply omap_app. Qed.

(** Splits a membership in a list that is given by its elements. *)
Ltac in_cases H :=
  repeat match type of H with
         | In _ (_ ++ _) => apply in_app_or in H as [H | H]
         | In _ (_ :: _) => destruct H as [H | H]; [try discriminate H |]
         | In _ [] => destruct H
         end.

Ltac trace_cbn :=
  cbv [time_Sleep Traced_Clock];
  cbn [traced_client traced_clientset
       PrintServiceWithRevisions ListService GetService ServiceExists DeleteService
       CreateService GetConfig ListRevisionByService GetRevision CreateRevision
       UpdateRevision Namespaces_Get Namespaces_Create ConfigMaps_Get ConfigMaps_Create].

(** Breaks a goal [emits m (only P)] down to the calls of [m]. *)
Ltac only_auto :=
  repeat first
    [ apply only_mret
    | apply only_stop
    | apply only_bind; [| intros ?]
    | apply only_forever; intros ?
    | apply only_for_each; intros ?
    | apply only_for_range; intros ?
    | match goal with
      | |- emits (match ?x with _ => _ end) _ => destruct x
      | |- emits (if ?x then _ else _) _ => destruct x
      | |- emits (let '(_, _) := ?x in _) _ => destruct x
      end
    | progress trace_cbn
    | apply only_call; intros ?; reflexivity ].

Ltac trace_cbn_in E :=
  cbv [time_Sleep Traced_Clock] in E;
  cbn [traced_client traced_clientset
       PrintServiceWithRevisions ListService GetService ServiceExists DeleteService
       CreateService GetConfig ListRevisionByService GetRevision CreateRevision
       UpdateRevision Namespaces_Get Namespaces_Create ConfigMaps_Get ConfigMaps_Create] in E.

(** ** What each function does *)

Section Functions.
Context {W : Type} `{Clock W}.
Variable pkg : Package.

(** Runs a straight-line computation symbolically: [E : m s = (o, s')]. *)
Ltac go_unfold E :=
  cbv [mbind mret Go_bind Go_ret call observe stop panic os_Exit out_of_fuel check
       traced_client traced_clientset time_Sleep Traced_Clock] in E;
  cbn [PrintServiceWithRevisions ListService GetService ServiceExists DeleteService
       CreateService GetConfig ListRevisionByService GetRevision CreateRevision
       UpdateRevision Namespaces_Get Namespaces_Create ConfigMaps_Get ConfigMaps_Create
       world trace] in E.

Ltac go_step E :=
  match type of E with
  | context [let '(_, _) := ?op ?w in _] =>
      let a := fresh "a" in let w' := fresh "w" in let Eop := fresh "Eop" in
      destruct (op w) as [a w'] eqn:Eop
  | context [match err_of ?x with _ => _ end] => destruct x
  | context [match ?x with _ => _ end] =>
      first [ is_var x; destruct x | let Ex := fresh "Ex" in destruct x eqn:Ex ]
  end;
  cbn [err_of negb andb fst snd world trace] in E.

Ltac go_simpl E := cbn [err_of negb andb fst snd world trace] in E.

Ltac go_finish E :=
  inversion E; subst; clear E; cbn [trace world];
  eexists; split; [ rewrite <- ?app_assoc; reflexivity | ].

Lemma getOrCreateNamespace_emits (cs : Clientset W) (side : Side) (namespace : string) :
  emits (getOrCreateNamespace (traced_clientset side cs) namespace)
    (fun o d => exists r, d = [Called side (CNamespacesGet namespace r)] /\
                          o = Returned (err_of r)).
Proof.
  intros s o s' E. unfold getOrCreateNamespace in E. go_unfold E.
  go_step E. destruct a as [ns | e]; cbn in E.
  - go_finish E. by eexists.
  - destruct (IsNotFound (Some e)); cbn in E; go_finish E; by eexists.
Qed.

Lemma createService_emits (c : MigrationClient W) (side : Side) (service : Service)
    (force : bool) :
  emits (createService (traced_client side c) service force)
    (createService_run side service force).
Proof.
  intros s o s' E. unfold createService in E. go_unfold E.
  go_step E. destruct a as [[|] | e]; cbn in E.
  - destruct force; cbn in E.
    + do 2 go_step E.
      destruct a0 as [x | e]; cbn in E; go_finish E.
      * by apply (create_replaced side service true a (Ok x)).
      * by apply (create_replaced side service true a (Err e)).
    + go_finish E. by constructor.
  - go_step E. destruct a as [x | e]; cbn in E; go_finish E.
    * apply (create_fresh side service force (Ok x)).
    * apply (create_fresh side service force (Err e)).
  - go_finish E. constructor.
Qed.

Lemma migrateRevision_body_emits (c : MigrationClient W) (side : Side)
    (revisionS : Revision) (i : Z * Z) :
  emits (migrateRevision_body pkg (traced_client side c) revisionS i)
    (reconcile_round pkg side revisionS i).
Proof.
  intros s o s' E. destruct i as [g u]. unfold migrateRevision_body, set_label in E.
  go_unfold E. go_step E. destruct a as [rev | e]; go_simpl E.
  - destruct (Labels (Revision_ObjectMeta rev)) as [m |] eqn:El; go_simpl E.
    + go_step E. destruct a as [e |]; go_simpl E.
      * destruct (IsConflict (Some e) && (u <? MaxUpdateRetries pkg)) eqn:Eb; go_finish E.
        -- apply andb_true_iff in Eb as [? ?%Z.ltb_lt]. by apply round_update_retry.
        -- by apply round_update_failed.
      * go_finish E. by apply round_updated.
    + go_finish E. by apply round_nil_map.
  - destruct (IsNotFound (Some e) && (g <? MaxGetRetries pkg)) eqn:Eb.
    + go_step E. go_finish E.
      apply andb_true_iff in Eb as [? ?%Z.ltb_lt]. by apply round_get_retry.
    + go_finish E. by apply round_get_failed.
Qed.

Lemma migrateRevision_emits (fuel : nat) (c : MigrationClient W) (side : Side)
    (revisionS : Revision) (serviceS : Service) (configUuid latest : string) :
  emits (migrateRevision pkg fuel (traced_client side c) revisionS serviceS configUuid latest)
    (revision_run pkg side fuel configUuid latest revisionS).
Proof.
  unfold migrateRevision. fold (bears latest revisionS).
  destruct (bears latest revisionS) eqn:Eb; cbn [negb].
  - eapply emits_mono.
    + apply emits_bind.
      * apply emits_forever. intros j. apply migrateRevision_body_emits.
      * intros a. instantiate (1 := fun a o d => o = Returned (default None a) /\ d = []).
        destruct a; apply emits_mret.
    + cbn beta. intros o d [(a & d1 & d2 & -> & Hr & -> & ->) | (why & -> & Hr)].
      * rewrite app_nil_r.
        replace (Returned (default None a)) with (after_loop (Returned a))
          by (by destruct a).
        by apply run_reconcile.
      * change (Stopped why) with (after_loop (Stopped why : Outcome (option (option error)))).
        by apply run_reconcile.
  - intros s o s' E. go_unfold E. go_step E. 
    destruct a as [x | e]; cbn in E; go_finish E.
    + by apply (run_create pkg side fuel configUuid latest revisionS (Ok x)).
    + by apply (run_create pkg side fuel configUuid latest revisionS (Err e)).
Qed.

Lemma getConfig_body_emits (c : MigrationClient W) (side : Side) (serviceName : string)
    (retries : Z) :
  emits (getConfig_body pkg (traced_client side c) serviceName retries)
    (getConfig_round pkg side serviceName retries).
Proof.
  intros s o s' E. unfold getConfig_body in E.
  go_unfold E. go_step E. destruct a as [config | e]; go_simpl E.
  - go_finish E. constructor.
  - destruct (IsNotFound (Some e) && (retries <? MaxGetRetries pkg)) eqn:Eb.
    + go_step E. go_finish E.
      apply andb_true_iff in Eb as [? ?%Z.ltb_lt]. by constructor.
    + go_finish E. by constructor.
Qed.

Lemma getConfig_emits (fuel : nat) (c : MigrationClient W) (side : Side)
    (serviceName : string) :
  emits (getConfig pkg fuel (traced_client side c) serviceName)
    (fun o d => exists o',
       rounds (getConfig_round pkg side serviceName) fuel 0 o' d /\
       o = match o' with
           | Returned (Some v) => Returned v
           | Returned None => Returned (None, None)
           | Stopped why => Stopped why
           end).
Proof.
  unfold getConfig. eapply emits_mono.
  - apply emits_bind.
    + apply emits_forever. intros j. apply getConfig_body_emits.
    + intros a.
      instantiate (1 := fun a o d => o = Returned (default (None, None) a) /\ d = []).
      destruct a; apply emits_mret.
  - cbn beta. intros o d [(a & d1 & d2 & -> & Hr & -> & ->) | (why & -> & Hr)].
    + rewrite app_nil_r. exists (Returned a). split; [done |]. by destruct a.
    + by exists (Stopped why).
Qed.

End Functions.

(** ** The loop of [migrateRevision] *)

Section Reconcile.
Variable pkg : Package.
Variable side : Side.
Variable revisionS : Revision.

Ltac inv_round :=
  match goal with
  | H : reconcile_round _ _ _ _ _ _ |- _ => inversion H; subst; clear H
  end.

(** The budget [MaxGetRetries + MaxUpdateRetries + 1] is enough for the loop
    to come to an end. *)
Lemma reconcile_total fuel i o d :
  rounds (reconcile_round pkg side revisionS) fuel i o d ->
  (Z.to_nat (MaxGetRetries pkg - i.1) + Z.to_nat (MaxUpdateRetries pkg - i.2) < fuel)%nat ->
  o <> Stopped OutOfFuel.
Proof.
  induction 1 as [i | fuel i i' d d' o Hb Hr IH | | |]; intros Hfuel.
  - lia.
  - apply IH. inv_round; cbn [fst snd] in *; lia.
  - discriminate.
  - discriminate.
  - inv_round. discriminate.
Qed.

(** A fetched revision without a label map makes the function panic. *)
Lemma reconcile_nil_map fuel i o d n rev :
  rounds (reconcile_round pkg side revisionS) fuel i o d ->
  In (Called side (CGetRevision n (Ok rev))) d ->
  Labels (Revision_ObjectMeta rev) = None ->
  o = Stopped (Panicked "assignment to entry in nil map").
Proof.
  induction 1 as [i | fuel i i' d d' o Hb Hr IH | | |]; intros Hin Hnil.
  - destruct Hin.
  - apply in_app_or in Hin as [Hin | Hin]; [| by apply IH].
    inv_round; in_cases Hin; congruence.
  - inv_round. in_cases Hin; congruence.
  - inv_round; in_cases Hin; congruence.
  - inv_round. done.
Qed.

(** Every revision submitted to [UpdateRevision] is a fetched revision with
    the generation label of the source written into its label map. *)
Lemma reconcile_updates fuel i o d sd rev' r :
  rounds (reconcile_round pkg side revisionS) fuel i o d ->
  In (Called sd (CUpdateRevision rev' r)) d ->
  exists rev m,
    In (Called side (CGetRevision (Name (Revision_ObjectMeta revisionS)) (Ok rev))) d /\
    Labels (Revision_ObjectMeta rev) = Some m /\
    rev' = relabel rev m (map_index (Labels (Revision_ObjectMeta revisionS)) generation_label).
Proof.
  induction 1 as [i | fuel i i' d d' o Hb Hr IH | | |]; intros Hin.
  - destruct Hin.
  - apply in_app_or in Hin as [Hin | Hin].
    + inv_round; in_cases Hin. inversion Hin; subst.
      exists rev, m. split; [apply in_or_app; left; by left | done].
    + destruct (IH Hin) as (rev & m & ? & ? & ?).
      exists rev, m. split; [apply in_or_app; by right | done].
  - inv_round. in_cases Hin. inversion Hin; subst.
    exists rev, m. split; [by left | done].
  - inv_round; in_cases Hin. inversion Hin; subst.
    exists rev, m. split; [by left | done].
  - inv_round. in_cases Hin.
Qed.

Lemma reconcile_events fuel i o d :
  rounds (reconcile_round pkg side revisionS) fuel i o d ->
  Forall (reconcile_event side revisionS) d.
Proof.
  induction 1 as [i | fuel i i' d d' o Hb Hr IH | | |].
  - constructor.
  - apply Forall_app. split; [| exact IH]. inv_round; repeat constructor.
  - inv_round; repeat constructor.
  - inv_round; repeat constructor.
  - inv_round; repeat constructor.
Qed.

(** The loop ends with [break] exactly when its last two calls are a fetch
    and the successful update of the fetched revision; no earlier update
    succeeded. *)
Lemma reconcile_success fuel i d :
  rounds (reconcile_round pkg side revisionS) fuel i (Returned None) d ->
  exists pre rev m,
    d = pre ++
        [Called side (CGetRevision (Name (Revision_ObjectMeta revisionS)) (Ok rev));
         Called side (CUpdateRevision
           (relabel rev m (map_index (Labels (Revision_ObjectMeta revisionS)) generation_label))
           None)] /\
    Labels (Revision_ObjectMeta rev) = Some m /\
    count is_reconciled pre = O.
Proof.
  intros Hr. remember (Returned None) as o eqn:Eo.
  induction Hr as [i | fuel i i' d d' o Hb Hr IH | fuel i d Hb | |]; try discriminate.
  - destruct (IH Eo) as (pre & rev & m & -> & Hl & Hc).
    exists (d ++ pre), rev, m. split; [by rewrite app_assoc |]. split; [done |].
    rewrite count_app, Hc. inv_round; reflexivity.
  - inv_round. exists [], rev, m. done.
Qed.

Lemma reconcile_returned fuel i r d :
  rounds (reconcile_round pkg side revisionS) fuel i (Returned (Some r)) d ->
  (exists e, r = Some e) /\ count is_reconciled d = O.
Proof.
  intros Hr. remember (Returned (Some r)) as o eqn:Eo.
  induction Hr as [i | fuel i i' d d' o Hb Hr IH | | fuel i r' d Hb |]; try discriminate.
  - destruct (IH Eo) as [He Hc]. split; [done |].
    rewrite count_app, Hc. inv_round; reflexivity.
  - inversion Eo; subst. inv_round; eauto.
Qed.

Lemma reconcile_stopped fuel i why d :
  rounds (reconcile_round pkg side revisionS) fuel i (Stopped why) d ->
  count is_reconciled d = O.
Proof.
  intros Hr. remember (Stopped why) as o eqn:Eo.
  induction Hr as [i | fuel i i' d d' o Hb Hr IH | | | fuel i why' d Hb]; try discriminate.
  - reflexivity.
  - rewrite count_app, (IH Eo). inv_round; reflexivity.
  - inv_round. reflexivity.
Qed.


End Reconcile.

(** ** The loop of [getConfig] *)

(** As long as the configuration is not visible the loop goes on with the
    same [retries]: it uses up any budget. *)
Lemma getConfig_rounds_never_visible (pkg : Package) (side : Side) (serviceName : string)
    fuel retries o d :
  rounds (getConfig_round pkg side serviceName) fuel retries o d ->
  Forall (fun e => visible e = false) d ->
  retries < MaxGetRetries pkg ->
  o = Stopped OutOfFuel /\ count is_GetConfig d = fuel.
Proof.
  induction 1 as [i | fuel i i' d d' o Hb Hr IH | fuel i d Hb | fuel i r d Hb | fuel i why d Hb];
    intros Hv Hmax.
  - done.
  - apply Forall_app in Hv as [Hv1 Hv2]. inversion Hb; subst.
    destruct (IH Hv2 Hmax) as [-> Hc]. split; [done |].
    rewrite count_app, Hc. reflexivity.
  - inversion Hb.
  - inversion Hb; subst.
    + inversion Hv as [| ? ? Hget _]; subst.
      unfold visible in Hget. cbn [err_of] in Hget. apply negb_false_iff in Hget.
      match goal with
      | Hc : _ && _ = false |- _ => rewrite Hget in Hc; cbn [andb] in Hc; apply Z.ltb_ge in Hc
      end. lia.
    + inversion Hv as [| ? ? Hget _]; subst. discriminate Hget.
  - inversion Hb.
Qed.

(** ** Safety properties of whole functions *)

Section Safety.
Context {W : Type} `{Clock W}.
Variable pkg : Package.


Lemma getConfig_never_visible (fuel : nat) (c : MigrationClient W) (side : Side)
    (serviceName : string) :
  (forall n w, IsNotFound (err_of (GetConfig c n w).1) = true) ->
  emits (getConfig pkg fuel (traced_client side c) serviceName)
    (only (fun e => visible e = false)).
Proof.
  intros Hlost. unfold getConfig, getConfig_body.
  only_auto.
  apply only_call_with. intros w. cbn [visible]. by rewrite Hlost.
Qed.

End Safety.

(** ** The runs of [Run] *)

Section RunSpecs.
Context {W : Type} `{Clock W}.
Variable pkg : Package.

Lemma Run_revisions_emits (fuel : nat) (c : MigrationClient W) (revisionsS : list Revision)
    (serviceS : Service) (configUUID latest : string) :
  emits (Run_revisions pkg fuel (traced_client Destination c) revisionsS serviceS configUUID latest)
    (replay pkg Destination fuel configUUID latest revisionsS).
Proof.
  unfold Run_revisions. induction revisionsS as [| rev rest IH]; intros s o s' E.
  - apply mret_inv in E as [-> ->]. exists []. split; [by rewrite app_nil_r | constructor].
  - cbn [for_each] in E.
    apply bind_inv in E as [([] & s1 & E1 & E) | (why & E1 & ->)].
    + apply bind_inv in E1 as [(err & s2 & E2 & E1) | (why & E2 & Ho)]; [| discriminate Ho].
      destruct (migrateRevision_emits pkg _ _ _ _ _ _ _ _ _ _ E2) as (d2 & Ht2 & Hrun).
      apply bind_inv in E1 as [([] & s3 & E3 & E1) | (why & E3 & Ho)]; [| discriminate Ho].
      apply check_inv in E3 as [Hc ->]. destruct err; [discriminate Hc |].
      apply bind_inv in E1 as [([] & s4 & E4 & E1) | (why & E4 & Ho)]; [| discriminate Ho].
      trace_cbn_in E4. apply call_inv in E4 as (? & _ & Ht4).
      apply mret_inv in E1 as [_ ->].
      destruct (IH _ _ _ E) as (d' & Ht' & Hrest).
      exists (d2 ++ Slept (5 * time_Second) :: d'). split.
      * rewrite Ht', Ht4, Ht2. by rewrite <- !app_assoc.
      * by constructor.
    + apply bind_inv in E1 as [(err & s2 & E2 & E1) | (why' & E2 & Ho)].
      * destruct (migrateRevision_emits pkg _ _ _ _ _ _ _ _ _ _ E2) as (d2 & Ht2 & Hrun).
        apply bind_inv in E1 as [([] & s3 & E3 & E1) | (why' & E3 & Ho)].
        -- apply bind_inv in E1 as [([] & s4 & E4 & E1) | (why' & E4 & Ho)].
           ++ by apply mret_inv in E1 as [? _].
           ++ trace_cbn_in E4. by apply call_inv in E4 as (? & ? & _).
        -- apply check_inv in E3 as [Hc ->]. injection Ho as <-.
           destruct err as [e |]; [| discriminate Hc]. injection Hc as ->.
           exists d2. split; [done |]. by apply replay_failed.
      * injection Ho as <-.
        destruct (migrateRevision_emits pkg _ _ _ _ _ _ _ _ _ _ E2) as (d2 & Ht2 & Hrun).
        exists d2. split; [done |]. by apply replay_stopped.
Qed.

Lemma getConfigmap_emits (cs : Clientset W) (side : Side) (namespace configmapName : string) :
  emits (getConfigmap (traced_clientset side cs) namespace configmapName)
    (fun o d => exists r,
       d = [Called side (CConfigMapsGet namespace configmapName r)] /\
       o = Returned (match r with
                     | Ok cm => (Some cm, None)
                     | Err e => (None, Some e)
                     end)).
Proof.
  intros s o s' E. unfold getConfigmap in E.
  apply bind_inv in E as [(r & s1 & E1 & E) | (why & E1 & ->)];
    trace_cbn_in E1; apply call_inv in E1 as (a & Ho & Ht); [| discriminate Ho].
  injection Ho as <-.
  exists [Called side (CConfigMapsGet namespace configmapName r)].
  destruct r; apply mret_inv in E as [-> ->]; eauto.
Qed.

Lemma createConfigmap_emits (cs : Clientset W) (side : Side) (namespace : string)
    (configmap : ConfigMap) :
  emits (createConfigmap (traced_clientset side cs) namespace configmap)
    (fun o d => exists r,
       d = [Called side (CConfigMapsCreate namespace (configmap_copy namespace configmap) r)] /\
       o = Returned (err_of r)).
Proof.
  intros s o s' E. unfold createConfigmap in E. cbn zeta in E.
  apply bind_inv in E as [(r & s1 & E1 & E) | (why & E1 & ->)];
    trace_cbn_in E1; apply call_inv in E1 as (a & Ho & Ht); [| discriminate Ho].
  injection Ho as <-. apply mret_inv in E as [-> ->]. eauto.
Qed.

Lemma getConfig_events (fuel : nat) (c : MigrationClient W) (side : Side)
    (serviceName : string) :
  emits (getConfig pkg fuel (traced_client side c) serviceName)
    (only (fun e => config_event e = true)).
Proof. unfold getConfig, getConfig_body. only_auto. Qed.

Lemma Run_service_emits (fuel : nat) (csS csD : Clientset W) (cS cD : MigrationClient W)
    (namespaceS namespaceD : string) (serviceS : Service) :
  emits (Run_service pkg fuel (traced_clientset Source csS) (traced_clientset Destination csD)
           (traced_client Source cS) (traced_client Destination cD)
           namespaceS namespaceD serviceS)
    (service_run pkg fuel namespaceS namespaceD serviceS).
Proof.
  intros s o s' E. unfold Run_service in E. cbn zeta in E.
  (* the configmap *)
  assert (exists s2 d1 o1,
    trace s2 = trace s ++ d1 /\
    configmap_run namespaceS namespaceD (Name (Service_ObjectMeta serviceS)) o1 d1 /\
    match o1 with
    | Returned _ =>
        (err ← createService (traced_client Destination cD) serviceS (Force (migrateFlags pkg));
         _ ← check err;
         r ← call (GetService (traced_client Destination cD) (Name (Service_ObjectMeta serviceS)));
         match r with
         | Err e => os_Exit 1 (Error e)
         | Ok serviceD =>
             '(config, err) ← getConfig pkg fuel (traced_client Destination cD)
                                (Name (Service_ObjectMeta serviceD));
             _ ← check err;
             match config with
             | None => panic "invalid memory address or nil pointer dereference"
             | Some config =>
                 let configUUID := UID (Configuration_ObjectMeta config) in
                 r' ← call (ListRevisionByService (traced_client Source cS)
                             (Name (Service_ObjectMeta serviceS)));
                 match r' with
                 | Err e => os_Exit 1 (Error e)
                 | Ok revisionsS =>
                     Run_revisions pkg fuel (traced_client Destination cD) revisionsS serviceS
                       configUUID (LatestCreatedRevisionName (Service_Status serviceD))
                 end
             end
         end) s2 = (o, s')
    | Stopped why => o = Stopped why /\ s' = s2
    end) as (s2 & d1 & o1 & Ht1 & Hcm & E').
  { apply bind_inv in E as [([cm err] & s1 & E1 & E) | (why & E1 & ->)];
      destruct (getConfigmap_emits _ _ _ _ _ _ _ E1) as (d1 & Ht1 & r & -> & Ho1);
      [| by destruct r].
    destruct r as [cm' | e]; injection Ho1 as -> ->.
    - cbn [IsNotFound negb] in E.
      apply bind_inv in E as [([] & s2 & E2 & E) | (why & E2 & Ho)];
        apply check_inv in E2 as [Hc ->]; [clear Hc | discriminate Hc].
      apply bind_inv in E as [([] & s3 & E3 & E) | (why & E3 & ->)].
      + apply bind_inv in E3 as [(err & s4 & E4 & E3) | (why & E4 & Ho)]; [| discriminate Ho].
        destruct (createConfigmap_emits _ _ _ _ _ _ _ E4) as (d4 & Ht4 & r & -> & Ho4).
        injection Ho4 as ->. apply check_inv in E3 as [Hc ->].
        eexists s4, _, (check_outcome (err_of r)). split; [| split; [apply configmap_copied |]].
        * by rewrite Ht4, Ht1, <- app_assoc.
        * rewrite <- Hc. exact E.
      + apply bind_inv in E3 as [(err & s4 & E4 & E3) | (why' & E4 & Ho)].
        * destruct (createConfigmap_emits _ _ _ _ _ _ _ E4) as (d4 & Ht4 & r & -> & Ho4).
          injection Ho4 as ->. apply check_inv in E3 as [Hc ->].
          eexists s4, _, (check_outcome (err_of r)). split; [| split; [apply configmap_copied |]].
          -- by rewrite Ht4, Ht1, <- app_assoc.
          -- by rewrite <- Hc.
        * destruct (createConfigmap_emits _ _ _ _ _ _ _ E4) as (d4 & Ht4 & r & -> & Ho4).
          discriminate Ho4.
    - destruct (IsNotFound (Some e)) eqn:Enf; cbn [negb] in E.
      + apply bind_inv in E as [([] & s2 & E2 & E) | (why & E2 & Ho)];
          apply mret_inv in E2 as [Hc ->]; [clear Hc | discriminate Hc].
        apply bind_inv in E as [([] & s3 & E3 & E) | (why & E3 & Ho)];
          apply mret_inv in E3 as [Hc ->]; [clear Hc | discriminate Hc].
        eexists s1, _, (Returned tt). split; [exact Ht1 |]. split; [by constructor | exact E].
      + apply bind_inv in E as [([] & s2 & E2 & E) | (why & E2 & ->)];
          apply check_inv in E2 as [Hc ->]; [discriminate Hc |].
        injection Hc as ->.
        eexists s1, _, (Stopped (Exited 1 (Error e))). split; [exact Ht1 |].
        split; [by constructor | done]. }
  destruct o1 as [[] | why]; [| destruct E' as [-> ->]; exists d1; split; [done | by constructor]].
  clear E. rename E' into E.
  (* the service *)
  apply bind_inv in E as [(err & s3 & E3 & E) | (why & E3 & ->)];
    destruct (createService_emits _ _ _ _ _ _ _ E3) as (d2 & Ht2 & Hcs);
    [| inversion Hcs].
  apply bind_inv in E as [([] & s4 & E4 & E) | (why & E4 & ->)];
    apply check_inv in E4 as [Hc ->].
  2: { destruct err as [e |]; [| discriminate Hc]. injection Hc as ->.
       exists (d1 ++ d2). split; [by rewrite Ht2, Ht1, app_assoc |].
       by apply service_create_failed. }
  destruct err; [discriminate Hc |]. clear Hc.
  apply bind_inv in E as [(r & s5 & E5 & E) | (why & E5 & ->)];
    trace_cbn_in E5; apply call_inv in E5 as (a & Ho & Ht5); [| discriminate Ho].
  injection Ho as <-.
  destruct r as [serviceD | e].
  2: { apply stop_inv in E as [-> ->].
       exists (d1 ++ d2 ++ [Called Destination (CGetService (Name (Service_ObjectMeta serviceS)) (Err e))]).
       split; [by rewrite Ht5, Ht2, Ht1, <- !app_assoc |].
       by apply service_get_failed. }
  (* the configuration *)
  apply bind_inv in E as [([config err] & s6 & E6 & E) | (why & E6 & ->)];
    destruct (getConfig_events _ _ _ _ _ _ _ E6) as (d3 & Ht6 & Hq3); unfold only in Hq3.
  2: { exists (d1 ++ d2 ++ Called Destination (CGetService (Name (Service_ObjectMeta serviceS)) (Ok serviceD)) :: d3).
       split; [rewrite Ht6, Ht5, Ht2, Ht1, <- !app_assoc; by cbn |].
       by apply service_config_failed. }
  apply bind_inv in E as [([] & s7 & E7 & E) | (why & E7 & ->)];
    apply check_inv in E7 as [Hc ->].
  2: { exists (d1 ++ d2 ++ Called Destination (CGetService (Name (Service_ObjectMeta serviceS)) (Ok serviceD)) :: d3).
       split; [rewrite Ht6, Ht5, Ht2, Ht1, <- !app_assoc; by cbn |].
       by apply service_config_failed. }
  clear Hc.
  destruct config as [config |].
  2: { apply stop_inv in E as [-> ->].
       exists (d1 ++ d2 ++ Called Destination (CGetService (Name (Service_ObjectMeta serviceS)) (Ok serviceD)) :: d3).
       split; [rewrite Ht6, Ht5, Ht2, Ht1, <- !app_assoc; by cbn |].
       by apply service_config_failed. }
  (* the revisions *)
  apply bind_inv in E as [(r & s8 & E8 & E) | (why & E8 & ->)];
    trace_cbn_in E8; apply call_inv in E8 as (a & Ho & Ht8); [| discriminate Ho].
  injection Ho as <-.
  destruct r as [revisionsS | e].
  - destruct (Run_revisions_emits _ _ _ _ _ _ _ _ _ E) as (d4 & Ht4 & Hreplay).
    eexists. split; [| eapply service_replayed; eassumption].
    rewrite Ht4, Ht8, Ht6, Ht5, Ht2, Ht1, <- !app_assoc. by cbn.
  - apply stop_inv in E as [-> ->].
    eexists. split; [| eapply service_list_failed; eassumption].
    rewrite Ht8, Ht6, Ht5, Ht2, Ht1, <- !app_assoc. by cbn.
Qed.

Lemma deletions_emits (c : MigrationClient W) (side : Side) (services : list Service) :
  emits (for_range services (fun service =>
           err ← call (DeleteService (traced_client side c) (Name (Service_ObjectMeta service)));
           match err with
           | Some e => mret (Some (Some e))
           | None => mret None
           end))
    (fun o d => deletions side services
                  match o with
                  | Returned None => Returned None
                  | Returned (Some v) => Returned v
                  | Stopped why => Stopped why
                  end d).
Proof.
  induction services as [| service rest IH]; intros s o s' E; cbn [for_range] in E.
  - apply mret_inv in E as [-> ->]. exists []. split; [by rewrite app_nil_r | constructor].
  - apply bind_inv in E as [(r & s1 & E1 & E) | (why & E1 & ->)];
      (apply bind_inv in E1 as [(err & s2 & E2 & E1) | (why' & E2 & Ho)];
       trace_cbn_in E2; apply call_inv in E2 as (a & Ha & Ht2); [| discriminate Ha]).
    + injection Ha as <-. destruct err as [e |]; apply mret_inv in E1 as [Hr ->];
        injection Hr as ->.
      * apply mret_inv in E as [-> ->]. eexists. split; [exact Ht2 |]. constructor.
      * destruct (IH _ _ _ E) as (d & Ht & Hd).
        eexists. split; [| apply deletions_next; exact Hd].
        by rewrite Ht, Ht2, <- app_assoc.
    + destruct err; by apply mret_inv in E1 as [? _].
Qed.

Lemma deleteAllServices_emits (c : MigrationClient W) (side : Side) (delete : bool) :
  emits (deleteAllServices (traced_client side c) delete) (deleteAllServices_run side delete).
Proof.
  intros s o s' E. unfold deleteAllServices in E. destruct delete; cbn [negb] in E.
  - apply bind_inv in E as [(r & s1 & E1 & E) | (why & E1 & ->)];
      trace_cbn_in E1; apply call_inv in E1 as (a & Ha & Ht1); [| discriminate Ha].
    injection Ha as <-. destruct r as [services | e].
    + apply bind_inv in E as [(returned & s2 & E2 & E) | (why & E2 & ->)];
        destruct (deletions_emits _ _ _ _ _ _ E2) as (d & Ht2 & Hd).
      * exists (Called side (CListService (Ok services)) :: d). split.
        -- destruct returned; apply mret_inv in E as [_ ->];
             by rewrite Ht2, Ht1, <- app_assoc.
        -- apply delete_listed.
           destruct returned as [v |]; apply mret_inv in E as [-> _]; exact Hd.
      * exists (Called side (CListService (Ok services)) :: d). split.
        -- by rewrite Ht2, Ht1, <- app_assoc.
        -- apply delete_listed. exact Hd.
    + apply mret_inv in E as [-> ->]. eexists. split; [exact Ht1 | constructor].
  - apply mret_inv in E as [-> ->]. exists []. split; [by rewrite app_nil_r | constructor].
Qed.

(** The migration pass does not create, delete or update anything on the
    source. *)
Lemma Run_migration_source_untouched (fuel : nat) (csS csD : Clientset W)
    (cS cD : MigrationClient W) (namespaceS namespaceD : string) :
  emits (Run_migration pkg fuel (traced_clientset Source csS) (traced_clientset Destination csD)
           (traced_client Source cS) (traced_client Destination cD) namespaceS namespaceD)
    (only (fun e => mutates Source e = false)).
Proof.
  unfold Run_migration, Run_service, Run_revisions, migrateRevision, migrateRevision_body,
    set_label, getConfig, getConfig_body, createService, createConfigmap, getConfigmap,
    getOrCreateNamespace, check, os_Exit, panic.
  cbv zeta. only_auto.
Qed.

End RunSpecs.

(** ** Reading the runs of a service *)

Section Replay.
Variable pkg : Package.
Variable side : Side.

Lemma quiet_in (d : list Event) (e : Event) :
  Forall (fun e => quiet e = true) d -> In e d -> quiet e = true.
Proof. intros Hq Hin. rewrite Forall_forall in Hq. apply Hq. by apply list_elem_of_In. Qed.

Lemma quiet_created (d : list Event) :
  Forall (fun e => quiet e = true) d -> created d = [].
Proof.
  induction 1 as [| e d He _ IH]; [done |].
  destruct e as [sd c |]; [destruct c |]; try discriminate He; exact IH.
Qed.

Lemma quiet_count (f : Event -> bool) (d : list Event) :
  (forall e, quiet e = true -> f e = false) ->
  Forall (fun e => quiet e = true) d -> count f d = O.
Proof.
  intros Hf Hq. apply count_none. eapply Forall_impl; [exact Hq |]. exact Hf.
Qed.

Lemma config_event_quiet (d : list Event) :
  Forall (fun e => config_event e = true) d -> Forall (fun e => quiet e = true) d.
Proof. intros Hd. eapply Forall_impl; [exact Hd |]. by intros [sd [] |]. Qed.

Lemma configmap_run_quiet namespaceS namespaceD serviceName o d :
  configmap_run namespaceS namespaceD serviceName o d -> Forall (fun e => quiet e = true) d.
Proof. destruct 1; by repeat constructor. Qed.

Lemma createService_run_quiet sd service force o d :
  createService_run sd service force o d -> Forall (fun e => quiet e = true) d.
Proof. destruct 1; by repeat constructor. Qed.

Lemma replay_event_in latest (d : list Event) (e : Event) :
  Forall (replay_event side latest) d -> In e d -> replay_event side latest e.
Proof. intros Hq Hin. rewrite Forall_forall in Hq. apply Hq. by apply list_elem_of_In. Qed.

Lemma replay_event_count latest (f : Event -> bool) (d : list Event) :
  (forall e, replay_event side latest e -> f e = false) ->
  Forall (replay_event side latest) d -> count f d = O.
Proof.
  intros Hf Hq. apply count_none. eapply Forall_impl; [exact Hq |]. exact Hf.
Qed.

Lemma revision_run_events fuel configUuid latest rev o d :
  revision_run pkg side fuel configUuid latest rev o d ->
  Forall (replay_event side latest) d.
Proof.
  destruct 1 as [r Hb | o d Hb Hr].
  - by repeat constructor.
  - apply reconcile_events in Hr. eapply Forall_impl; [exact Hr |].
    unfold bears in Hb. apply String.eqb_eq in Hb.
    intros [sd [] | ?]; cbn; try done. intros [-> ->]. done.
Qed.

(** A revision that was migrated without error was either created, once, or
    reconciled by one successful update, according to its name. *)
Lemma revision_run_done fuel configUuid latest rev d :
  revision_run pkg side fuel configUuid latest rev (Returned None) d ->
  created d = (if bears latest rev then [] else [rev]) /\
  count is_reconciled d = (if bears latest rev then 1 else 0)%nat.
Proof.
  inversion 1 as [r Hb Ho Hd | o d' Hb Hr Ho Hd]; subst; rewrite Hb.
  - done.
  - destruct o as [[v |] | why]; cbn in Ho; try discriminate.
    + injection Ho as ->. by destruct (reconcile_returned _ _ _ _ _ _ _ Hr) as [[e He] _].
    + destruct (reconcile_success _ _ _ _ _ _ Hr) as (pre & fetched & labels & -> & _ & Hc).
      split.
      * rewrite created_app. cbn. rewrite app_nil_r.
        apply reconcile_events, Forall_app in Hr as [Hr _].
        clear -Hr. induction Hr as [| e d He _ IH]; [done |].
        destruct e as [sd c |]; [destruct c |]; try destruct He; exact IH.
      * by rewrite count_app, Hc.
Qed.

(** Whatever its outcome, the migration of a revision calls [CreateRevision]
    for that revision and no other, and only when its name differs; an update
    succeeds only for a revision bearing the name, and at most once. *)
Lemma revision_run_any fuel configUuid latest rev o d :
  revision_run pkg side fuel configUuid latest rev o d ->
  created d = (if bears latest rev then [] else [rev]) /\
  (count is_reconciled d <= if bears latest rev then 1 else 0)%nat.
Proof.
  destruct 1 as [r Hb | o d Hb Hr]; rewrite Hb.
  - split; [done |]. cbn. lia.
  - split.
    + apply reconcile_events in Hr.
      clear -Hr. induction Hr as [| e d He _ IH]; [done |].
      destruct e as [sd c |]; [destruct c |]; try destruct He; exact IH.
    + destruct o as [[v |] | why].
      * destruct (reconcile_returned _ _ _ _ _ _ _ Hr) as [_ ->]. lia.
      * destruct (reconcile_success _ _ _ _ _ _ Hr) as (pre & fetched & labels & -> & _ & Hc).
        rewrite count_app, Hc. cbn. lia.
      * rewrite (reconcile_stopped _ _ _ _ _ _ _ Hr). lia.
Qed.

Lemma revision_run_updates fuel configUuid latest rev o d sd rev' r :
  revision_run pkg side fuel configUuid latest rev o d ->
  In (Called sd (CUpdateRevision rev' r)) d ->
  exists fetched labels generation,
    In (Called side (CGetRevision latest (Ok fetched))) d /\
    Labels (Revision_ObjectMeta fetched) = Some labels /\
    rev' = relabel fetched labels generation.
Proof.
  destruct 1 as [r0 Hb | o d Hb Hr]; intros Hin.
  - in_cases Hin.
  - destruct (reconcile_updates _ _ _ _ _ _ _ _ _ _ Hr Hin) as (fetched & labels & ? & ? & ?).
    unfold bears in Hb. apply String.eqb_eq in Hb. rewrite <- Hb. eauto 10.
Qed.

Lemma replay_events fuel configUuid latest revisionsS o d :
  replay pkg side fuel configUuid latest revisionsS o d ->
  Forall (replay_event side latest) d.
Proof.
  induction 1 as [| rev rest d d' o Hrun Hrest IH | rev rest e d Hrun | rev rest why d Hrun].
  - constructor.
  - apply Forall_app. split; [exact (revision_run_events _ _ _ _ _ _ Hrun) |]. by constructor.
  - exact (revision_run_events _ _ _ _ _ _ Hrun).
  - exact (revision_run_events _ _ _ _ _ _ Hrun).
Qed.

(** After a replay that came to its end, the revisions created are those
    whose name differs from [latest], each once and in the order of the
    source, and the number of successful updates is the number of revisions
    named [latest]. *)
Lemma replay_completed fuel configUuid latest revisionsS d :
  replay pkg side fuel configUuid latest revisionsS (Returned tt) d ->
  created d = List.filter (fun rev => negb (bears latest rev)) revisionsS /\
  count is_reconciled d = length (List.filter (bears latest) revisionsS).
Proof.
  intros Hr. remember (Returned tt) as o eqn:Eo.
  induction Hr as [| rev rest d d' o Hrun Hrest IH | |]; try discriminate.
  - done.
  - destruct (IH Eo) as [IHc IHn].
    destruct (revision_run_done _ _ _ _ _ Hrun) as [Hc Hn].
    change (d ++ Slept (5 * time_Second) :: d') with (d ++ [Slept (5 * time_Second)] ++ d').
    rewrite !created_app, !count_app, Hc, Hn, IHc, IHn. cbn [List.filter].
    destruct (bears latest rev); done.
Qed.

(** However far a replay gets, the revisions created so far are the first
    of the source revisions with another name, in order, and no more updates
    have succeeded than there are revisions bearing the name. *)
Lemma replay_partial fuel configUuid latest revisionsS o d :
  replay pkg side fuel configUuid latest revisionsS o d ->
  (exists later,
     List.filter (fun rev => negb (bears latest rev)) revisionsS = created d ++ later) /\
  (count is_reconciled d <= length (List.filter (bears latest) revisionsS))%nat.
Proof.
  induction 1 as [| rev rest d d' o Hrun Hrest [[later IHc] IHn]
                 | rev rest e d Hrun | rev rest why d Hrun];
    try destruct (revision_run_any _ _ _ _ _ _ Hrun) as [Hc Hn].
  - split; [by exists [] | done].
  - change (d ++ Slept (5 * time_Second) :: d') with (d ++ [Slept (5 * time_Second)] ++ d').
    rewrite !created_app, !count_app, Hc. cbn [List.filter].
    destruct (bears latest rev); cbn [negb length] in *.
    + split; [by exists later |]. cbn. lia.
    + split; [exists later; by rewrite IHc |]. cbn. lia.
  - rewrite Hc. cbn [List.filter].
    destruct (bears latest rev); cbn [negb length] in *; (split; [eauto | lia]).
  - rewrite Hc. cbn [List.filter].
    destruct (bears latest rev); cbn [negb length] in *; (split; [eauto | lia]).
Qed.

Lemma replay_updates fuel configUuid latest revisionsS o d sd rev' r :
  replay pkg side fuel configUuid latest revisionsS o d ->
  In (Called sd (CUpdateRevision rev' r)) d ->
  exists fetched labels generation,
    In (Called side (CGetRevision latest (Ok fetched))) d /\
    Labels (Revision_ObjectMeta fetched) = Some labels /\
    rev' = relabel fetched labels generation.
Proof.
  induction 1 as [| rev rest d d' o Hrun Hrest IH | rev rest e d Hrun | rev rest why d Hrun];
    intros Hin.
  - destruct Hin.
  - in_cases Hin.
    + destruct (revision_run_updates _ _ _ _ _ _ _ _ _ Hrun Hin) as (f & l & g & ? & ? & ?).
      exists f, l, g. split; [apply in_or_app; by left | done].
    + destruct (IH Hin) as (f & l & g & ? & ? & ?).
      exists f, l, g. split; [apply in_or_app; right; by right | done].
  - exact (revision_run_updates _ _ _ _ _ _ _ _ _ Hrun Hin).
  - exact (revision_run_updates _ _ _ _ _ _ _ _ _ Hrun Hin).
Qed.

End Replay.

(** The place of [GetService] in the run of a service: what precedes it
    concerns no revision, and what follows it is the lookup of the
    configuration, the listing of the source revisions and their replay with
    the name found in the answer of [GetService]. *)
Lemma service_run_captured pkg fuel namespaceS namespaceD serviceS o d n serviceD :
  service_run pkg fuel namespaceS namespaceD serviceS o d ->
  In (Called Destination (CGetService n (Ok serviceD))) d ->
  exists d0 d3 rest,
    d = d0 ++ Called Destination (CGetService n (Ok serviceD)) :: d3 ++ rest /\
    Forall (fun e => quiet e = true) d0 /\
    Forall (fun e => quiet e = true) d3 /\
    ((rest = [] /\ exists why, o = Stopped why) \/
     (exists e, rest = [Called Source (CListRevisionByService n (Err e))] /\
                o = Stopped (Exited 1 (Error e))) \/
     (exists revisionsS configUUID d4,
        rest = Called Source (CListRevisionByService n (Ok revisionsS)) :: d4 /\
        replay pkg Destination fuel configUUID
          (LatestCreatedRevisionName (Service_Status serviceD)) revisionsS o d4)).
Proof.
  assert (forall d, Forall (fun e => quiet e = true) d ->
            ~ In (Called Destination (CGetService n (Ok serviceD))) d) as Hq.
  { intros d' Hd Hin. by pose proof (quiet_in _ _ Hd Hin). }
  assert (forall side latest d, Forall (replay_event side latest) d ->
            ~ In (Called Destination (CGetService n (Ok serviceD))) d) as Hr.
  { intros sd latest d' Hd Hin. exact (replay_event_in _ _ _ _ Hd Hin). }
  destruct 1 as [why d Hcm | d1 d2 e Hcm Hcs | d1 d2 e Hcm Hcs
                | d1 d2 sD d3 why Hcm Hcs Hd3 | d1 d2 sD d3 e Hcm Hcs Hd3
                | d1 d2 sD d3 revisionsS configUUID o d4 Hcm Hcs Hd3 Hreplay];
    intros Hin;
    pose proof (configmap_run_quiet _ _ _ _ _ Hcm) as Hq1;
    try pose proof (createService_run_quiet _ _ _ _ _ Hcs) as Hq2;
    try pose proof (config_event_quiet _ Hd3) as Hq3;
    try pose proof (replay_events _ _ _ _ _ _ _ _ Hreplay) as Hq4;
    in_cases Hin;
    try (by destruct (Hq _ Hq1 Hin));
    try (by destruct (Hq _ Hq2 Hin));
    try (by destruct (Hq _ Hq3 Hin));
    try (by destruct (Hr _ _ _ Hq4 Hin));
    injection Hin as <- <-.
  - exists (d1 ++ d2), d3, []. rewrite app_nil_r, <- app_assoc.
    split; [done |]. split; [by apply Forall_app |]. split; [done |]. left. eauto.
  - exists (d1 ++ d2), d3, [Called Source (CListRevisionByService (Name (Service_ObjectMeta serviceS)) (Err e))].
    rewrite <- app_assoc.
    split; [done |]. split; [by apply Forall_app |]. split; [done |]. right. left. eauto.
  - exists (d1 ++ d2), d3,
      (Called Source (CListRevisionByService (Name (Service_ObjectMeta serviceS)) (Ok revisionsS)) :: d4).
    rewrite <- app_assoc.
    split; [done |]. split; [by apply Forall_app |]. split; [done |]. right. right. eauto 10.
Qed.

(** [GetService] is called at most once for a service. *)
Lemma service_run_one_lookup pkg fuel namespaceS namespaceD serviceS o d :
  service_run pkg fuel namespaceS namespaceD serviceS o d ->
  (count is_GetService d <= 1)%nat.
Proof.
  assert (forall d, Forall (fun e => quiet e = true) d -> count is_GetService d = O) as Hq.
  { intros d'. apply quiet_count. by intros [sd [] |]. }
  assert (forall side latest d, Forall (replay_event side latest) d ->
            count is_GetService d = O) as Hr.
  { intros sd latest d'. apply replay_event_count. by intros [sd' [] |]. }
  destruct 1 as [why d Hcm | d1 d2 e Hcm Hcs | d1 d2 e Hcm Hcs
                | d1 d2 sD d3 why Hcm Hcs Hd3 | d1 d2 sD d3 e Hcm Hcs Hd3
                | d1 d2 sD d3 revisionsS configUUID o d4 Hcm Hcs Hd3 Hreplay];
    pose proof (Hq _ (configmap_run_quiet _ _ _ _ _ Hcm)) as Hq1;
    try pose proof (Hq _ (createService_run_quiet _ _ _ _ _ Hcs)) as Hq2;
    try pose proof (Hq _ (config_event_quiet _ Hd3)) as Hq3;
    try pose proof (Hr _ _ _ (replay_events _ _ _ _ _ _ _ _ Hreplay)) as Hq4.
  all: repeat (rewrite count_app || rewrite count_cons); cbn [is_GetService];
    try change (count is_GetService []) with O; lia.
Qed.

(** ** The migration pass *)

Section MorePass.
Context {W : Type} `{Clock W}.
Variable pkg : Package.

Lemma Run_services_emits (fuel : nat) (csS csD : Clientset W) (cS cD : MigrationClient W)
    (namespaceS namespaceD : string) (servicesS : list Service) :
  emits (for_each servicesS
           (Run_service pkg fuel (traced_clientset Source csS) (traced_clientset Destination csD)
              (traced_client Source cS) (traced_client Destination cD) namespaceS namespaceD))
    (services_run pkg fuel namespaceS namespaceD servicesS).
Proof.
  induction servicesS as [| service rest IH]; cbn [for_each].
  - eapply emits_mono; [apply emits_mret |]. intros o d [-> ->]. constructor.
  - eapply emits_mono;
      [apply (emits_bind _ _ _ _ (Run_service_emits pkg fuel csS csD cS cD namespaceS
                                     namespaceD service) (fun _ => IH)) |].
    intros o d [([] & d1 & d2 & -> & H1 & H2) | (why & -> & H1)].
    + by apply services_next.
    + by apply services_stopped.
Qed.

Lemma Run_migration_emits (fuel : nat) (csS csD : Clientset W) (cS cD : MigrationClient W)
    (namespaceS namespaceD : string) :
  emits (Run_migration pkg fuel (traced_clientset Source csS) (traced_clientset Destination csD)
           (traced_client Source cS) (traced_client Destination cD) namespaceS namespaceD)
    (migration_run pkg fuel namespaceS namespaceD).
Proof.
  intros s o s' E. unfold Run_migration in E.
  apply bind_inv in E as [(err & s1 & E1 & E) | (why & E1 & ->)];
    trace_cbn_in E1; apply call_inv in E1 as (a & Ho & Ht1); [| discriminate Ho].
  injection Ho as <-.
  apply bind_inv in E as [([] & s2 & E2 & E) | (why & E2 & ->)];
    apply check_inv in E2 as [Hc ->].
  2: { destruct err as [e |]; [| discriminate Hc]. injection Hc as ->.
       eexists. split; [exact Ht1 | constructor]. }
  destruct err; [discriminate Hc |]. clear Hc.
  apply bind_inv in E as [(err & s3 & E3 & E) | (why & E3 & ->)];
    destruct (getOrCreateNamespace_emits _ _ _ _ _ _ E3) as (d3 & Ht3 & r & -> & Ho3);
    [| discriminate Ho3].
  injection Ho3 as ->.
  apply bind_inv in E as [([] & s4 & E4 & E) | (why & E4 & ->)];
    apply check_inv in E4 as [Hc ->].
  2: { destruct (err_of r) as [e |] eqn:Er; [| discriminate Hc]. injection Hc as ->.
       eexists. split; [by rewrite Ht3, Ht1, <- app_assoc |]. by constructor. }
  assert (err_of r = None) as Hr by (by destruct (err_of r)). clear Hc.
  apply bind_inv in E as [(l & s5 & E5 & E) | (why & E5 & ->)];
    trace_cbn_in E5; apply call_inv in E5 as (a & Ho & Ht5); [| discriminate Ho].
  injection Ho as <-. destruct l as [servicesS | e].
  2: { apply stop_inv in E as [-> ->]. eexists.
       split; [by rewrite Ht5, Ht3, Ht1, <- !app_assoc |]. by constructor. }
  apply bind_inv in E as [([] & s6 & E6 & E) | (why & E6 & ->)];
    destruct (Run_services_emits _ _ _ _ _ _ _ _ _ _ _ E6) as (d6 & Ht6 & Hrun).
  2: { eexists. split; [| eapply migration_stopped; eassumption].
       by rewrite Ht6, Ht5, Ht3, Ht1, <- !app_assoc. }
  apply bind_inv in E as [(after & s7 & E7 & E) | (why & E7 & ->)];
    trace_cbn_in E7; apply call_inv in E7 as (a & Ho & Ht7); [| discriminate Ho].
  injection Ho as <-. apply check_inv in E as [-> ->].
  eexists. split; [| eapply migration_done; eassumption].
  by rewrite Ht7, Ht6, Ht5, Ht3, Ht1, <- !app_assoc.
Qed.

End MorePass.

(** ** A [CreateRevision] that fails *)

(** In the run of [migrateRevision] a failed [CreateRevision] is the only
    call, and its error is returned. *)
Lemma revision_run_create_failed pkg side fuel configUuid latest revisionS o d sd rev uid e :
  revision_run pkg side fuel configUuid latest revisionS o d ->
  In (Called sd (CCreateRevision rev uid (Err e))) d ->
  o = Returned (Some e) /\ d = [Called sd (CCreateRevision rev uid (Err e))].
Proof.
  destruct 1 as [r Hb | o d Hb Hr]; intros Hin.
  - in_cases Hin. inversion Hin; subst. done.
  - apply reconcile_events in Hr. rewrite List.Forall_forall in Hr. destruct (Hr _ Hin).
Qed.

(** In the replay of the revisions of a service it is the last call, and
    the replay exits with its error. *)
Lemma replay_create_failed pkg side fuel configUuid latest revisionsS o d sd rev uid e :
  replay pkg side fuel configUuid latest revisionsS o d ->
  In (Called sd (CCreateRevision rev uid (Err e))) d ->
  o = Stopped (Exited 1 (Error e)) /\
  last d = Some (Called sd (CCreateRevision rev uid (Err e))).
Proof.
  induction 1 as [| rev0 rest d d' o Hrun Hrest IH | rev0 rest e0 d Hrun | rev0 rest why d Hrun];
    intros Hin.
  - destruct Hin.
  - apply in_app_or in Hin as [Hin | Hin].
    + by destruct (revision_run_create_failed _ _ _ _ _ _ _ _ _ _ _ _ Hrun Hin) as [? _].
    + destruct Hin as [Hin | Hin]; [discriminate Hin |].
      destruct (IH Hin) as [-> Hlast]. split; [done |].
      rewrite last_app, last_cons, Hlast. done.
  - destruct (revision_run_create_failed _ _ _ _ _ _ _ _ _ _ _ _ Hrun Hin) as [Ho ->].
    by injection Ho as ->.
  - by destruct (revision_run_create_failed _ _ _ _ _ _ _ _ _ _ _ _ Hrun Hin) as [? _].
Qed.

Lemma service_run_create_failed pkg fuel namespaceS namespaceD serviceS o d sd rev uid e :
  service_run pkg fuel namespaceS namespaceD serviceS o d ->
  In (Called sd (CCreateRevision rev uid (Err e))) d ->
  o = Stopped (Exited 1 (Error e)) /\
  last d = Some (Called sd (CCreateRevision rev uid (Err e))).
Proof.
  assert (forall d, Forall (fun e => quiet e = true) d ->
            ~ In (Called sd (CCreateRevision rev uid (Err e))) d) as Hq.
  { intros d' Hd Hin. by pose proof (quiet_in _ _ Hd Hin). }
  destruct 1 as [why d Hcm | d1 d2 e0 Hcm Hcs | d1 d2 e0 Hcm Hcs
                | d1 d2 sD d3 why Hcm Hcs Hd3 | d1 d2 sD d3 e0 Hcm Hcs Hd3
                | d1 d2 sD d3 revisionsS configUUID o d4 Hcm Hcs Hd3 Hreplay];
    intros Hin;
    pose proof (configmap_run_quiet _ _ _ _ _ Hcm) as Hq1;
    try pose proof (createService_run_quiet _ _ _ _ _ Hcs) as Hq2;
    try pose proof (config_event_quiet _ Hd3) as Hq3;
    in_cases Hin;
    try (by destruct (Hq _ Hq1 Hin));
    try (by destruct (Hq _ Hq2 Hin));
    try (by destruct (Hq _ Hq3 Hin)).
  destruct (replay_create_failed _ _ _ _ _ _ _ _ _ _ _ _ Hreplay Hin) as [-> Hlast].
  split; [done |].
  rewrite !last_app, last_cons, last_app, last_cons, Hlast. done.
Qed.

Lemma services_run_create_failed pkg fuel namespaceS namespaceD services o d sd rev uid e :
  services_run pkg fuel namespaceS namespaceD services o d ->
  In (Called sd (CCreateRevision rev uid (Err e))) d ->
  o = Stopped (Exited 1 (Error e)) /\
  last d = Some (Called sd (CCreateRevision rev uid (Err e))).
Proof.
  induction 1 as [| service rest d d' o Hs Hrun IH | service rest why d Hs]; intros Hin.
  - destruct Hin.
  - apply in_app_or in Hin as [Hin | Hin].
    + by destruct (service_run_create_failed _ _ _ _ _ _ _ _ _ _ _ Hs Hin) as [? _].
    + destruct (IH Hin) as [-> Hlast]. split; [done |]. by rewrite last_app, Hlast.
  - exact (service_run_create_failed _ _ _ _ _ _ _ _ _ _ _ Hs Hin).
Qed.

Lemma migration_run_create_failed pkg fuel namespaceS namespaceD o d sd rev uid e :
  migration_run pkg fuel namespaceS namespaceD o d ->
  In (Called sd (CCreateRevision rev uid (Err e))) d ->
  o = Stopped (Exited 1 (Error e)) /\
  last d = Some (Called sd (CCreateRevision rev uid (Err e))).
Proof.
  destruct 1 as [e0 | r e0 Hr | r e0 Hr | r services why d Hr Hrun
                | r services d after Hr Hrun]; intros Hin; in_cases Hin.
  - destruct (services_run_create_failed _ _ _ _ _ _ _ _ _ _ _ Hrun Hin) as [-> Hlast].
    split; [done |]. by rewrite !last_cons, Hlast.
  - by destruct (services_run_create_failed _ _ _ _ _ _ _ _ _ _ _ Hrun Hin) as [? _].
Qed.

Section Abort.
Context {W : Type} `{Clock W}.
Variable pkg : Package.

(** In [Run] a failed [CreateRevision] is the last call: the run exits with
    status 1 and the error of that call. *)
Lemma Run_with_clients_create_failed (fuel : nat) (csS csD : Clientset W)
    (cS cD : MigrationClient W) (namespaceS namespaceD : string) :
  emits (Run_with_clients pkg fuel (traced_clientset Source csS)
           (traced_clientset Destination csD) (traced_client Source cS)
           (traced_client Destination cD) namespaceS namespaceD)
    (fun o d => forall sd rev uid e,
       In (Called sd (CCreateRevision rev uid (Err e))) d ->
       o = Stopped (Exited 1 (Error e)) /\
       last d = Some (Called sd (CCreateRevision rev uid (Err e)))).
Proof.
  unfold Run_with_clients.
  eapply emits_mono.
  - apply (emits_bind _ _ _ (fun _ => only (fun e => is_CreateRevision e = false))
             (Run_migration_emits pkg fuel csS csD cS cD namespaceS namespaceD)).
    intros _. unfold deleteAllServices, check, os_Exit. only_auto.
  - intros o d [([] & d1 & d2 & -> & H1 & H2) | (why & -> & H1)] sd rev uid e Hin.
    + apply in_app_or in Hin as [Hin | Hin].
      * by destruct (migration_run_create_failed _ _ _ _ _ _ _ _ _ _ H1 Hin) as [? _].
      * unfold only in H2. rewrite List.Forall_forall in H2. by pose proof (H2 _ Hin).
    + exact (migration_run_create_failed _ _ _ _ _ _ _ _ _ _ H1 Hin).
Qed.

End Abort.

(** * The claims *)

Section Claims.
Context {W : Type} `{Clock W}.
Variable pkg : Package.



(** C8 (as amended).  On the fresh-create path [migrateRevision] calls
    [CreateRevision] exactly once and returns whatever error that call gives,
    NotFound and Conflict included, without a retry and without a sleep.  In
    [Run] that error aborts the migration: a [CreateRevision] that failed is
    the last call of the run, which exits with status 1 and the error of
    that call. *)
Theorem migrateRevision_create_once (fuel : nat) (c : MigrationClient W) (side : Side)
    (revisionS : Revision) (serviceS : Service) (configUuid latest : string)
    (s : Traced W) (csS csD : Clientset W) (cS cD : MigrationClient W)
    (namespaceS namespaceD : string) (s0 : Traced W) :
  Name (Revision_ObjectMeta revisionS) <> latest ->
  let m := migrateRevision pkg fuel (traced_client side c) revisionS serviceS configUuid latest in
  let r := (CreateRevision c revisionS configUuid (world s)).1 in
  let run := Run_with_clients pkg fuel (traced_clientset Source csS)
               (traced_clientset Destination csD) (traced_client Source cS)
               (traced_client Destination cD) namespaceS namespaceD in
  events_of m s = [Called side (CCreateRevision revisionS configUuid r)] /\
  outcome_of m s = Returned (err_of r) /\
  (forall sd rev uid e,
     In (Called sd (CCreateRevision rev uid (Err e))) (events_of run s0) ->
     outcome_of run s0 = Stopped (Exited 1 (Error e)) /\
     last (events_of run s0) = Some (Called sd (CCreateRevision rev uid (Err e)))).
Proof.
  intros Hname m r run.
  assert (events_of m s = [Called side (CCreateRevision revisionS configUuid r)] /\
          outcome_of m s = Returned (err_of r)) as [Hev Ho].
  { subst m r. unfold events_of, outcome_of, migrateRevision.
    apply String.eqb_neq in Hname. rewrite Hname. cbn [negb].
    cbv [mbind mret Go_bind Go_ret call observe traced_client CreateRevision].
    destruct c as [? ? ? ? ? ? ? ? ? create ?]. cbn [fst snd world trace].
    destruct (create revisionS configUuid (world s)) as [[x | e] w];
      cbn [err_of fst snd trace]; by rewrite drop_app_length. }
  split; [exact Hev |]. split; [exact Ho |].
  exact (emits_run run _ s0
           (Run_with_clients_create_failed pkg fuel csS csD cS cD namespaceS namespaceD)).
Qed.

(** C10.  On the reconcile-in-place path the label map of the fetched
    revision is written without a nil check: whenever [GetRevision] hands
    back a revision whose [Labels] is nil, [migrateRevision] panics with
    "assignment to entry in nil map" and does not return.  Hence whenever
    [UpdateRevision] is called, or [migrateRevision] returns at all, every
    revision fetched so far had a label map. *)
Theorem migrateRevision_nil_labels_panic (fuel : nat) (c : MigrationClient W) (side : Side)
    (revisionS : Revision) (serviceS : Service) (configUuid latest : string)
    (s : Traced W) :
  Name (Revision_ObjectMeta revisionS) = latest ->
  let m := migrateRevision pkg fuel (traced_client side c) revisionS serviceS configUuid latest in
  (forall n rev,
      In (Called side (CGetRevision n (Ok rev))) (events_of m s) ->
      Labels (Revision_ObjectMeta rev) = None ->
      outcome_of m s = Stopped (Panicked "assignment to entry in nil map")) /\
  (forall v n rev,
      outcome_of m s = Returned v ->
      In (Called side (CGetRevision n (Ok rev))) (events_of m s) ->
      Labels (Revision_ObjectMeta rev) <> None) /\
  (forall sd rev' r,
      In (Called sd (CUpdateRevision rev' r)) (events_of m s) ->
      Labels (Revision_ObjectMeta rev') <> None /\
      exists rev labels,
        In (Called side (CGetRevision latest (Ok rev))) (events_of m s) /\
        Labels (Revision_ObjectMeta rev) = Some labels).
Proof.
  intros Hname m.
  pose proof (emits_run m _ s
    (migrateRevision_emits pkg fuel c side revisionS serviceS configUuid latest)) as Hrun.
  fold m in Hrun.
  assert (forall n rev,
      In (Called side (CGetRevision n (Ok rev))) (events_of m s) ->
      Labels (Revision_ObjectMeta rev) = None ->
      outcome_of m s = Stopped (Panicked "assignment to entry in nil map")) as Hpanic.
  { intros n rev Hin Hnil. destruct Hrun as [r Hb | o d Hb Hr].
    - destruct Hin as [Hin | []]. discriminate Hin.
    - by rewrite (reconcile_nil_map pkg side revisionS _ _ _ _ _ _ Hr Hin Hnil). }
  split; [exact Hpanic |]. split.
  - intros v n rev Hret Hin Hnil. rewrite (Hpanic _ _ Hin Hnil) in Hret. discriminate.
  - intros sd rev' r Hin. destruct Hrun as [r0 Hb | o d Hb Hr].
    + destruct Hin as [Hin | []]. discriminate Hin.
    + destruct (reconcile_updates pkg side revisionS _ _ _ _ _ _ _ Hr Hin)
        as (rev & labels & Hget & Hl & ->).
      rewrite <- Hname. split; [done |]. eauto.
Qed.

(** C2.  On the reconcile-in-place path, when [migrateRevision] succeeds,
    its last two calls are a [GetRevision] and the [UpdateRevision] that
    succeeded (no earlier update did).  The revision submitted is the fetched
    one in every field except the label map, and its label map is the fetched
    one with [configurationGeneration] overwritten by the generation label of
    the source revision: every other label is unchanged. *)
Theorem migrateRevision_reconcile_frame (fuel : nat) (c : MigrationClient W) (side : Side)
    (revisionS : Revision) (serviceS : Service) (configUuid latest : string)
    (s : Traced W) :
  Name (Revision_ObjectMeta revisionS) = latest ->
  let m := migrateRevision pkg fuel (traced_client side c) revisionS serviceS configUuid latest in
  outcome_of m s = Returned None ->
  exists pre fetched submitted labels,
    events_of m s =
      pre ++ [Called side (CGetRevision latest (Ok fetched));
              Called side (CUpdateRevision submitted None)] /\
    count is_reconciled pre = O /\
    Labels (Revision_ObjectMeta fetched) = Some labels /\
    Labels (Revision_ObjectMeta submitted) =
      Some (<[generation_label :=
                map_index (Labels (Revision_ObjectMeta revisionS)) generation_label]> labels) /\
    map_index (Labels (Revision_ObjectMeta submitted)) generation_label =
      map_index (Labels (Revision_ObjectMeta revisionS)) generation_label /\
    (forall k, k <> generation_label ->
       map_index (Labels (Revision_ObjectMeta submitted)) k =
       map_index (Labels (Revision_ObjectMeta fetched)) k) /\
    Name (Revision_ObjectMeta submitted) = Name (Revision_ObjectMeta fetched) /\
    Namespace (Revision_ObjectMeta submitted) = Namespace (Revision_ObjectMeta fetched) /\
    UID (Revision_ObjectMeta submitted) = UID (Revision_ObjectMeta fetched) /\
    Annotations (Revision_ObjectMeta submitted) = Annotations (Revision_ObjectMeta fetched) /\
    Revision_Spec submitted = Revision_Spec fetched.
Proof.
  intros Hname m Hok.
  pose proof (emits_run m _ s
    (migrateRevision_emits pkg fuel c side revisionS serviceS configUuid latest)) as Hrun.
  fold m in Hrun. rewrite Hok in Hrun.
  inversion Hrun as [r Hb Ho Hd | o d Hb Hr Ho Hd].
  { unfold bears in Hb. apply String.eqb_neq in Hb. done. }
  destruct o as [[v |] | why]; cbn in Ho; try discriminate.
  { injection Ho as ->.
    by destruct (reconcile_returned pkg side revisionS _ _ _ _ Hr) as [[e He] _]. }
  destruct (reconcile_success pkg side revisionS _ _ _ Hr) as (pre & rev & labels & Hev & Hl & Hc).
  rewrite Hname in Hev.
  exists pre, rev,
    (relabel rev labels (map_index (Labels (Revision_ObjectMeta revisionS)) generation_label)),
    labels.
  split; [exact Hev |]. split; [done |]. split; [done |].
  unfold relabel. cbn. rewrite Hl. cbn.
  split; [done |]. split; [by rewrite lookup_insert_eq |].
  split; [| done]. intros k Hk. by rewrite lookup_insert_ne.
Qed.

(** C5 (code bug).  [getOrCreateNamespace] makes one call, the [Get] of the
    namespace, and returns the error of that call, whatever it is: when the
    namespace is missing the NotFound error is returned and [Create] is not
    called. *)
Theorem getOrCreateNamespace_never_creates (cs : Clientset W) (side : Side)
    (namespace : string) (s : Traced W) :
  let m := getOrCreateNamespace (traced_clientset side cs) namespace in
  exists r,
    events_of m s = [Called side (CNamespacesGet namespace r)] /\
    outcome_of m s = Returned (err_of r).
Proof.
  intros m. destruct (emits_run m _ s (getOrCreateNamespace_emits cs side namespace))
    as (r & Hd & Ho). eauto.
Qed.

(** C7 (code bug).  In [createService] the error of [DeleteService] is not
    looked at: after a delete that failed, [CreateService] is still called
    and the function returns the result of the create. *)
Theorem createService_creates_after_failed_delete (c : MigrationClient W) (side : Side)
    (service : Service) (force : bool) (s : Traced W) (n : string) (e : error) :
  let m := createService (traced_client side c) service force in
  In (Called side (CDeleteService n (Some e))) (events_of m s) ->
  exists r,
    events_of m s =
      [Called side (CServiceExists (Name (Service_ObjectMeta service)) (Ok true));
       Called side (CDeleteService (Name (Service_ObjectMeta service)) (Some e));
       Called side (CCreateService service r)] /\
    outcome_of m s = Returned (err_of r).
Proof.
  intros m Hin.
  pose proof (emits_run m _ s (createService_emits c side service force)) as Hrun.
  fold m in Hrun.
  destruct Hrun as [e' | Hf | deleted r Hf | r]; in_cases Hin.
  inversion Hin; subst. eauto.
Qed.

(** C4 (code bug).  The loop of [getConfig] never increments [retries]: when
    [GetConfig] fails with NotFound on every attempt and [MaxGetRetries] is
    positive, [getConfig] does not return, however many rounds it is given;
    with a budget of [fuel] rounds it has called [GetConfig] [fuel] times. *)
Theorem getConfig_never_gives_up (fuel : nat) (c : MigrationClient W) (side : Side)
    (serviceName : string) (s : Traced W) :
  (forall n w, IsNotFound (err_of (GetConfig c n w).1) = true) ->
  0 < MaxGetRetries pkg ->
  let m := getConfig pkg fuel (traced_client side c) serviceName in
  outcome_of m s = Stopped OutOfFuel /\
  count is_GetConfig (events_of m s) = fuel.
Proof.
  intros Hlost Hmax m.
  pose proof (emits_run m _ s
    (emits_and _ _ _ (getConfig_emits pkg fuel c side serviceName)
       (getConfig_never_visible pkg fuel c side serviceName Hlost))) as [(o & Hr & Ho) Hv].
  fold m in Hr, Ho, Hv. rewrite Ho. clear Ho. unfold only in Hv.
  by destruct (getConfig_rounds_never_visible pkg side serviceName _ _ _ _ Hr Hv Hmax) as [-> ?].
Qed.

(** C1.  [migrateRevision] follows one of two disjoint strategies, chosen by
    comparing the name of the source revision with the latest-created name
    it is given: with an equal name it only calls [GetRevision] (for that
    name) and [UpdateRevision], and never [CreateRevision]; with a different
    name it calls [CreateRevision] once and nothing else.  In the migration
    of a service, [GetService] is called at most once, and the name in its
    answer is the one every revision is compared with: every revision
    created has a different name, every revision fetched has that name, and
    every update submits a fetched revision of that name.  However far the
    migration gets, the revisions created are the first of the source
    revisions with a different name, in order, and no more updates succeed
    than there are source revisions bearing the name.  When the migration of
    the service comes to its end, the revisions created are all the source
    revisions with a different name, each once, and the number of successful
    updates is the number of source revisions bearing the name: exactly one
    when exactly one revision bears it. *)
Theorem revision_strategies (fuel : nat) (csS csD : Clientset W) (cS cD : MigrationClient W)
    (namespaceS namespaceD : string) (serviceS : Service) (s : Traced W)
    (revisionS : Revision) (configUuid latest : string) (s0 : Traced W) :
  let one := migrateRevision pkg fuel (traced_client Destination cD) revisionS serviceS
               configUuid latest in
  let m := Run_service pkg fuel (traced_clientset Source csS) (traced_clientset Destination csD)
             (traced_client Source cS) (traced_client Destination cD)
             namespaceS namespaceD serviceS in
  let d := events_of m s in
  (Name (Revision_ObjectMeta revisionS) = latest ->
     Forall (reconcile_event Destination revisionS) (events_of one s0) /\
     count is_CreateRevision (events_of one s0) = O) /\
  (Name (Revision_ObjectMeta revisionS) <> latest ->
     exists r, events_of one s0 = [Called Destination (CCreateRevision revisionS configUuid r)]) /\
  (count is_GetService d <= 1)%nat /\
  (forall n serviceD,
     In (Called Destination (CGetService n (Ok serviceD))) d ->
     let captured := LatestCreatedRevisionName (Service_Status serviceD) in
     (forall sd rev uid r,
        In (Called sd (CCreateRevision rev uid r)) d ->
        Name (Revision_ObjectMeta rev) <> captured) /\
     (forall sd n' r, In (Called sd (CGetRevision n' r)) d -> n' = captured) /\
     (forall sd rev' r,
        In (Called sd (CUpdateRevision rev' r)) d ->
        exists fetched labels generation,
          In (Called Destination (CGetRevision captured (Ok fetched))) d /\
          Labels (Revision_ObjectMeta fetched) = Some labels /\
          rev' = relabel fetched labels generation) /\
     (forall n' revisionsS,
        In (Called Source (CListRevisionByService n' (Ok revisionsS))) d ->
        (exists later,
           List.filter (fun rev => negb (bears captured rev)) revisionsS = created d ++ later) /\
        (count is_reconciled d <= length (List.filter (bears captured) revisionsS))%nat) /\
     (forall n' revisionsS,
        outcome_of m s = Returned tt ->
        In (Called Source (CListRevisionByService n' (Ok revisionsS))) d ->
        created d = List.filter (fun rev => negb (bears captured rev)) revisionsS /\
        count is_reconciled d = length (List.filter (bears captured) revisionsS) /\
        (length (List.filter (bears captured) revisionsS) = 1%nat ->
         count is_reconciled d = 1%nat))).
Proof.
  intros one m d.
  pose proof (emits_run one _ s0
    (migrateRevision_emits pkg fuel cD Destination revisionS serviceS configUuid latest)) as Hone.
  fold one in Hone.
  pose proof (emits_run m _ s
    (Run_service_emits pkg fuel csS csD cS cD namespaceS namespaceD serviceS)) as Hrun.
  fold m in Hrun. fold d in Hrun.
  split; [| split; [| split]].
  - intros Hname.
    destruct Hone as [r Hb | o dd Hb Hr].
    { unfold bears in Hb. apply String.eqb_neq in Hb. done. }
    pose proof (reconcile_events _ _ _ _ _ _ _ Hr) as Hev.
    split; [exact Hev |].
    apply count_none. eapply Forall_impl; [exact Hev |].
    by intros [sd [] |].
  - intros Hname. destruct Hone as [r Hb | o dd Hb Hr]; [eauto |].
    unfold bears in Hb. apply String.eqb_eq in Hb. done.
  - by eapply service_run_one_lookup.
  - intros n serviceD Hin captured.
    destruct (service_run_captured _ _ _ _ _ _ _ _ _ Hrun Hin)
      as (d0 & d3 & rest & Hd & Hq0 & Hq3 & Hrest).
    assert (forall e, quiet e = false -> is_GetService e = false -> In e d -> In e rest)
      as Hloc.
    { intros e He Hg Hine. rewrite Hd in Hine. in_cases Hine; try done.
      - pose proof (quiet_in _ _ Hq0 Hine). congruence.
      - subst e. discriminate Hg.
      - pose proof (quiet_in _ _ Hq3 Hine). congruence. }
    assert (forall e, In e rest -> In e d) as Hback.
    { intros e Hine. rewrite Hd. apply in_or_app. right. right. apply in_or_app. by right. }
    assert (forall e, quiet e = true -> is_reconciled e = false) as Hnr
      by (by intros [? [] |]).
    split; [| split; [| split; [| split]]].
    + intros sd rev uid r Hc. apply Hloc in Hc; [| done | done].
      destruct Hrest as [[-> _] | [(e & -> & _) | (revs & uid' & d4 & -> & Hreplay)]];
        in_cases Hc.
      apply replay_events in Hreplay.
      destruct (replay_event_in _ _ _ _ Hreplay Hc) as [_ Hb].
      unfold bears in Hb. by apply String.eqb_neq in Hb.
    + intros sd n' r Hc. apply Hloc in Hc; [| done | done].
      destruct Hrest as [[-> _] | [(e & -> & _) | (revs & uid' & d4 & -> & Hreplay)]];
        in_cases Hc.
      apply replay_events in Hreplay.
      by destruct (replay_event_in _ _ _ _ Hreplay Hc) as [_ ->].
    + intros sd rev' r Hc. apply Hloc in Hc; [| done | done].
      destruct Hrest as [[-> _] | [(e & -> & _) | (revs & uid' & d4 & -> & Hreplay)]];
        in_cases Hc.
      destruct (replay_updates _ _ _ _ _ _ _ _ _ _ _ Hreplay Hc) as (f & l & g & Hg & Hl & ->).
      exists f, l, g. split; [| done]. apply Hback. by right.
    + intros n' revisionsS Hl. apply Hloc in Hl; [| done | done].
      destruct Hrest as [[-> _] | [(e & -> & _) | (revs & uid' & d4 & -> & Hreplay)]];
        in_cases Hl.
      * injection Hl as <- <-.
        destruct (replay_partial _ _ _ _ _ _ _ _ Hreplay) as [Hc Hn].
        rewrite Hd. change (?x :: d3 ++ ?y :: d4) with ([x] ++ d3 ++ [y] ++ d4).
        rewrite !created_app, !count_app.
        rewrite (quiet_created d0 Hq0), (quiet_created d3 Hq3).
        rewrite (quiet_count is_reconciled d0 Hnr Hq0), (quiet_count is_reconciled d3 Hnr Hq3).
        done.
      * apply replay_events in Hreplay. destruct (replay_event_in _ _ _ _ Hreplay Hl).
    + intros n' revisionsS Hdone Hl. apply Hloc in Hl; [| done | done].
      assert (created d = List.filter (fun rev => negb (bears captured rev)) revisionsS /\
              count is_reconciled d = length (List.filter (bears captured) revisionsS))
        as [Hc Hn]; [| by rewrite Hn].
      destruct Hrest as [[-> _] | [(e & -> & _) | (revs & uid' & d4 & -> & Hreplay)]];
        in_cases Hl.
      * injection Hl as <- <-. rewrite Hdone in Hreplay.
        destruct (replay_completed _ _ _ _ _ _ _ Hreplay) as [Hc Hn].
        rewrite Hd. change (?x :: d3 ++ ?y :: d4) with ([x] ++ d3 ++ [y] ++ d4).
        rewrite !created_app, !count_app, Hc, Hn.
        rewrite (quiet_created d0 Hq0), (quiet_created d3 Hq3).
        rewrite (quiet_count is_reconciled d0 Hnr Hq0), (quiet_count is_reconciled d3 Hnr Hq3).
        done.
      * apply replay_events in Hreplay. destruct (replay_event_in _ _ _ _ Hreplay Hl).
Qed.

(** C6 (as amended).  Without [--force], when the existence check reports
    that the service is already on the destination, its migration stops with
    the "already exists" message, and [createService] has made no call but
    that check.  The destination is not always left as it was: when the
    source has a configmap for the service, its copy has been created on the
    destination before the check; that is the only call of the attempt that
    changes the destination. *)
Theorem Run_service_refuses_existing (fuel : nat) (csS csD : Clientset W)
    (cS cD : MigrationClient W) (namespaceS namespaceD : string) (serviceS : Service)
    (s : Traced W) (n : string) :
  Force (migrateFlags pkg) = false ->
  let m := Run_service pkg fuel (traced_clientset Source csS) (traced_clientset Destination csD)
             (traced_client Source cS) (traced_client Destination cD)
             namespaceS namespaceD serviceS in
  let name := Name (Service_ObjectMeta serviceS) in
  In (Called Destination (CServiceExists n (Ok true))) (events_of m s) ->
  outcome_of m s = Stopped (Exited 1 (already_exists_message name)) /\
  ((exists e,
      IsNotFound (Some e) = true /\
      events_of m s =
        [Called Source (CConfigMapsGet namespaceS (generateConfigmapName name) (Err e));
         Called Destination (CServiceExists name (Ok true))]) \/
   (exists cm copy,
      events_of m s =
        [Called Source (CConfigMapsGet namespaceS (generateConfigmapName name) (Ok cm));
         Called Destination
           (CConfigMapsCreate namespaceD (configmap_copy namespaceD cm) (Ok copy));
         Called Destination (CServiceExists name (Ok true))])).
Proof.
  intros Hforce m name Hin.
  pose proof (emits_run m _ s
    (Run_service_emits pkg fuel csS csD cS cD namespaceS namespaceD serviceS)) as Hrun.
  fold m in Hrun.
  assert (forall d, Forall (fun e => config_event e = true) d ->
            ~ In (Called Destination (CServiceExists n (Ok true))) d) as Hq.
  { intros d' Hd Hin'. rewrite Forall_forall in Hd.
    by pose proof (Hd _ (proj2 (list_elem_of_In _ _) Hin')). }
  assert (forall side latest d, Forall (replay_event side latest) d ->
            ~ In (Called Destination (CServiceExists n (Ok true))) d) as Hr.
  { intros sd latest d' Hd Hin'. exact (replay_event_in _ _ _ _ Hd Hin'). }
  assert (forall o d, configmap_run namespaceS namespaceD name o d ->
            ~ In (Called Destination (CServiceExists n (Ok true))) d) as Hcm.
  { intros o d' Hd Hin'. destruct Hd; in_cases Hin'. }
  assert (forall d1 o2 d2,
            configmap_run namespaceS namespaceD name (Returned tt) d1 ->
            createService_run Destination serviceS (Force (migrateFlags pkg)) o2 d2 ->
            In (Called Destination (CServiceExists n (Ok true))) d2 ->
            o2 = Returned (Some (errorString (already_exists_message name))) /\
            ((exists e, IsNotFound (Some e) = true /\
                d1 ++ d2 =
                [Called Source (CConfigMapsGet namespaceS (generateConfigmapName name) (Err e));
                 Called Destination (CServiceExists name (Ok true))]) \/
             (exists cm copy,
                d1 ++ d2 =
                [Called Source (CConfigMapsGet namespaceS (generateConfigmapName name) (Ok cm));
                 Called Destination
                   (CConfigMapsCreate namespaceD (configmap_copy namespaceD cm) (Ok copy));
                 Called Destination (CServiceExists name (Ok true))]))) as Hcs.
  { intros d1 o2 d2 H1 H2 Hin2.
    destruct H2 as [e | _ | deleted r Hf | r]; in_cases Hin2.
    - split; [done |].
      inversion H1 as [e He | | cm r Ho]; subst; [left; eauto |].
      right. destruct r as [copy | e]; [eauto | discriminate Ho].
    - congruence. }
  revert Hin. generalize dependent (events_of m s). generalize dependent (outcome_of m s).
  intros o d Hrun Hin.
  destruct Hrun as [why d Hc | d1 d2 e Hc Hs | d1 d2 e Hc Hs
                   | d1 d2 sD d3 why Hc Hs Hd3 | d1 d2 sD d3 e Hc Hs Hd3
                   | d1 d2 sD d3 revisionsS configUUID o d4 Hc Hs Hd3 Hreplay];
    try pose proof (replay_events _ _ _ _ _ _ _ _ Hreplay) as Hq4;
    in_cases Hin;
    try (by destruct (Hcm _ _ Hc Hin));
    try (by destruct (Hq _ Hd3 Hin));
    try (by destruct (Hr _ _ _ Hq4 Hin));
    destruct (Hcs _ _ _ Hc Hs Hin) as [Ho Hev]; try discriminate Ho.
  injection Ho as ->. split; [done |]. exact Hev.
Qed.

Lemma deletions_all (side : Side) (services : list Service) (d : list Event) :
  deletions side services (Returned None) d ->
  d = map (fun service => Called side (CDeleteService (Name (Service_ObjectMeta service)) None))
        services.
Proof.
  intros Hd. remember (Returned None) as o eqn:Eo.
  induction Hd as [| service rest o d Hd IH |]; [done | | discriminate].
  cbn [map]. by rewrite (IH Eo).
Qed.

Lemma deleteAllServices_run_returns (side : Side) (delete : bool) o d :
  deleteAllServices_run side delete o d -> exists v, o = Returned v.
Proof.
  destruct 1 as [| e | services o d Hd]; eauto.
  induction Hd; eauto.
Qed.

(** C9.  The migration pass makes no call that creates, deletes or updates
    anything on the source, however it ends.  [Run] calls
    [deleteAllServices] only after the pass has returned, that is after every
    service has been migrated without error: if the pass does not return,
    nothing else happens.  Without [--delete], [deleteAllServices] makes no
    call at all.  With [--delete], when the run succeeds, it has listed the
    services of the source and deleted each of them, in order. *)
Theorem source_deleted_last (fuel : nat) (csS csD : Clientset W) (cS cD : MigrationClient W)
    (namespaceS namespaceD : string) (s : Traced W) :
  let pass := Run_migration pkg fuel (traced_clientset Source csS)
                (traced_clientset Destination csD) (traced_client Source cS)
                (traced_client Destination cD) namespaceS namespaceD in
  let m := Run_with_clients pkg fuel (traced_clientset Source csS)
             (traced_clientset Destination csD) (traced_client Source cS)
             (traced_client Destination cD) namespaceS namespaceD in
  Forall (fun e => mutates Source e = false) (events_of pass s) /\
  exists after,
    events_of m s = events_of pass s ++ after /\
    (outcome_of pass s <> Returned tt -> after = [] /\ outcome_of m s = outcome_of pass s) /\
    (Delete (migrateFlags pkg) = false -> after = [] /\ outcome_of m s = outcome_of pass s) /\
    (Delete (migrateFlags pkg) = true -> outcome_of m s = Returned tt ->
       exists services,
         after = Called Source (CListService (Ok services)) ::
                 map (fun service =>
                        Called Source (CDeleteService (Name (Service_ObjectMeta service)) None))
                   services).
Proof.
  intros pass m. split.
  { exact (emits_run pass _ s
      (Run_migration_source_untouched pkg fuel csS csD cS cD namespaceS namespaceD)). }
  destruct (m s) as [o s'] eqn:E. pose proof E as E0.
  unfold m, Run_with_clients in E. fold pass in E.
  apply bind_inv in E as [([] & s1 & E1 & E) | (why & E1 & Ho)].
  - destruct (Run_migration_source_untouched pkg fuel csS csD cS cD namespaceS namespaceD
                _ _ _ E1) as (dp & Htp & _).
    destruct (run_eq pass _ _ _ _ E1 Htp) as [Hop Hep].
    apply bind_inv in E as [(err & s2 & E2 & E) | (why & E2 & ->)];
      destruct (deleteAllServices_emits cS Source _ _ _ _ E2) as (dd & Htd & Hdd);
      [| by destruct (deleteAllServices_run_returns _ _ _ _ Hdd)].
    apply check_inv in E as [-> ->].
    assert (trace s2 = trace s ++ dp ++ dd) as Ht by (by rewrite Htd, Htp, app_assoc).
    destruct (run_eq m _ _ _ _ E0 Ht) as [Hom Hem].
    exists dd. rewrite Hop, Hom, Hem, Hep. split; [done |]. split; [done |]. split.
    + intros Hdel. rewrite Hdel in Hdd. inversion Hdd; subst. done.
    + intros Hdel Hok. rewrite Hdel in Hdd.
      inversion Hdd as [| e | services o' d' Hdl]; subst; [discriminate Hok |].
      destruct err; [discriminate Hok |].
      exists services. by rewrite (deletions_all _ _ _ Hdl).
  - subst o.
    destruct (Run_migration_source_untouched pkg fuel csS csD cS cD namespaceS namespaceD
                _ _ _ E1) as (dp & Htp & _).
    destruct (run_eq pass _ _ _ _ E1 Htp) as [Hop Hep].
    assert (trace s' = trace s ++ dp ++ []) as Ht by (by rewrite app_nil_r).
    destruct (run_eq m _ _ _ _ E0 Ht) as [Hom Hem].
    exists []. rewrite Hop, Hom, Hem, Hep. split; [done |]. split; [done |]. split; [done |].
    intros _ Hok. discriminate Hok.
Qed.

End Claims.

(** * The claims on the example cluster *)

(** ** The loops come to an end *)

(** A loop that ended within its budget ends in the same way with a larger
    one. *)
Lemma forever_more_fuel {St I R} (body : I -> Go St (Step I R)) (fuel fuel' : nat) (i : I)
    (s s' : St) (o : Outcome (option R)) :
  forever fuel body i s = (o, s') ->
  o <> Stopped OutOfFuel ->
  (fuel <= fuel')%nat ->
  forever fuel' body i s = (o, s').
Proof.
  revert fuel' i s. induction fuel as [| fuel IH]; intros fuel' i s E Ho Hle.
  - inversion E; subst. done.
  - destruct fuel' as [| fuel']; [lia |]. cbn [forever] in *.
    unfold mbind, Go_bind in *. destruct (body i s) as [[[i' | | r] | why] s1]; try done.
    apply IH; [done | done | lia].
Qed.

(** X21.  [migrateRevision] comes to an end: a budget of more than
    [MaxGetRetries + MaxUpdateRetries] rounds is never used up. *)
Lemma migrateRevision_returns {W : Type} `{Clock W} (pkg : Package) (fuel : nat)
    (c : MigrationClient W) (side : Side) (revisionS : Revision) (serviceS : Service)
    (configUuid latest : string) (s : Traced W) :
  (Z.to_nat (MaxGetRetries pkg) + Z.to_nat (MaxUpdateRetries pkg) < fuel)%nat ->
  outcome_of (migrateRevision pkg fuel (traced_client side c) revisionS serviceS configUuid latest) s
  <> Stopped OutOfFuel.
Proof.
  intros Hfuel.
  pose proof (emits_run _ _ s
    (migrateRevision_emits pkg fuel c side revisionS serviceS configUuid latest)) as Hrun.
  destruct Hrun as [r Hb | o d Hb Hr]; [done |].
  assert (o <> Stopped OutOfFuel) as Ho.
  { eapply reconcile_total; [exact Hr |]. cbn [fst snd]. rewrite !Z.sub_0_r. exact Hfuel. }
  destruct o as [[v |] | why]; cbn; congruence.
Qed.

(** X22.  The outcome and the calls of [migrateRevision] do not depend on the
    budget, once it exceeds [MaxGetRetries + MaxUpdateRetries]. *)
Lemma migrateRevision_budget {W : Type} `{Clock W} (pkg : Package) (fuel fuel' : nat)
    (c : MigrationClient W) (side : Side) (revisionS : Revision) (serviceS : Service)
    (configUuid latest : string) (s : Traced W) :
  (Z.to_nat (MaxGetRetries pkg) + Z.to_nat (MaxUpdateRetries pkg) < fuel)%nat ->
  (Z.to_nat (MaxGetRetries pkg) + Z.to_nat (MaxUpdateRetries pkg) < fuel')%nat ->
  migrateRevision pkg fuel (traced_client side c) revisionS serviceS configUuid latest s =
  migrateRevision pkg fuel' (traced_client side c) revisionS serviceS configUuid latest s.
Proof.
  intros Hfuel Hfuel'. unfold migrateRevision.
  destruct (negb _); [reflexivity |].
  assert (forall f, (Z.to_nat (MaxGetRetries pkg) + Z.to_nat (MaxUpdateRetries pkg) < f)%nat ->
            (f <= fuel + fuel')%nat ->
            forever f (migrateRevision_body pkg (traced_client side c) revisionS) (0, 0) s =
            forever (fuel + fuel')
              (migrateRevision_body pkg (traced_client side c) revisionS) (0, 0) s) as Hsame.
  { intros f Hf Hle.
    destruct (forever f (migrateRevision_body pkg (traced_client side c) revisionS) (0, 0) s)
      as [o s1] eqn:E.
    symmetry. eapply forever_more_fuel; [exact E | | lia].
    destruct (emits_forever _ f _ (0, 0)
                (fun j => migrateRevision_body_emits pkg c side revisionS j) _ _ _ E)
      as (d & _ & Hr).
    eapply reconcile_total; [exact Hr |]. cbn [fst snd]. rewrite !Z.sub_0_r. exact Hf. }
  unfold mbind, Go_bind.
  by rewrite (Hsame fuel Hfuel ltac:(lia)), (Hsame fuel' Hfuel' ltac:(lia)).
Qed.

(** ** Witnesses and counterexamples *)

(** Proves [In e d] by evaluation, for [e] the element of [d] at position [n]. *)
Tactic Notation "in_at" constr(n) := apply (nth_error_In _ n%nat); vm_compute; reflexivity.

(** C1 on the example: [foo-00001] is created, [foo-00002] is reconciled. *)
Lemma revision_strategies_witness :
  outcome_of (Sim.migrate_foo false) (start Sim.fresh) = Returned tt /\
  created (events_of (Sim.migrate_foo false) (start Sim.fresh)) = [Sim.foo_00001] /\
  count is_reconciled (events_of (Sim.migrate_foo false) (start Sim.fresh)) = 1%nat.
Proof.
  assert (outcome_of (Sim.migrate_foo false) (start Sim.fresh) = Returned tt) as Hdone
    by (vm_compute; reflexivity).
  assert (In (Called Destination (CGetService "foo" (Ok Sim.foo)))
             (events_of (Sim.migrate_foo false) (start Sim.fresh))) as Hget
    by in_at 4%nat.
  assert (In (Called Source (CListRevisionByService "foo" (Ok [Sim.foo_00001; Sim.foo_00002])))
             (events_of (Sim.migrate_foo false) (start Sim.fresh))) as Hlist
    by in_at 6%nat.
  destruct (revision_strategies (Sim.pkg false false) 64 (Sim.clientset Source)
              (Sim.clientset Destination) (Sim.client Source) (Sim.client Destination)
              "default" "default" Sim.foo (start Sim.fresh) Sim.foo_00002 "uid-foo" "foo-00002"
              (start Sim.created_world))
    as (_ & _ & _ & Hcaptured).
  destruct (Hcaptured "foo" Sim.foo Hget) as (_ & _ & _ & _ & Hend).
  destruct (Hend "foo" _ Hdone Hlist) as (Hc & Hn & _).
  exact (conj Hdone (conj Hc Hn)).
Defined.

(** C2 on the example: the generation label written on the destination is
    the one of the source revision. *)
Lemma migrateRevision_reconcile_frame_witness :
  Name (Revision_ObjectMeta Sim.foo_00002) = "foo-00002" /\
  outcome_of (Sim.migrate_revision 64 (Sim.client Destination) Sim.foo_00002)
    (start Sim.created_world) = Returned None /\
  exists pre fetched submitted,
    events_of (Sim.migrate_revision 64 (Sim.client Destination) Sim.foo_00002)
      (start Sim.created_world) =
      pre ++ [Called Destination (CGetRevision "foo-00002" (Ok fetched));
              Called Destination (CUpdateRevision submitted None)] /\
    map_index (Labels (Revision_ObjectMeta submitted)) generation_label =
      map_index (Labels (Revision_ObjectMeta Sim.foo_00002)) generation_label /\
    Revision_Spec submitted = Revision_Spec fetched.
Proof.
  assert (Name (Revision_ObjectMeta Sim.foo_00002) = "foo-00002") as H1 by reflexivity.
  assert (outcome_of (Sim.migrate_revision 64 (Sim.client Destination) Sim.foo_00002)
            (start Sim.created_world) = Returned None) as H2 by (vm_compute; reflexivity).
  destruct (migrateRevision_reconcile_frame (Sim.pkg false false) 64 (Sim.client Destination)
              Destination Sim.foo_00002 Sim.foo "uid-foo" "foo-00002"
              (start Sim.created_world) H1 H2)
    as (pre & fetched & submitted & labels & Hev & _ & _ & _ & Hgen & _ & _ & _ & _ & _ & Hspec).
  exact (conj H1 (conj H2
    (ex_intro _ pre (ex_intro _ fetched (ex_intro _ submitted (conj Hev (conj Hgen Hspec))))))).
Defined.



(** C4 on the example: 40 rounds, 40 calls of [GetConfig], no result. *)
Lemma getConfig_never_gives_up_witness :
  (forall n w,
     IsNotFound (err_of (GetConfig (Sim.lost_config (Sim.client Destination)) n w).1) = true) /\
  0 < MaxGetRetries (Sim.pkg false false) /\
  outcome_of (getConfig (Sim.pkg false false) 40
                (traced_client Destination (Sim.lost_config (Sim.client Destination))) "foo")
    (start Sim.created_world) = Stopped OutOfFuel /\
  count is_GetConfig
    (events_of (getConfig (Sim.pkg false false) 40
                  (traced_client Destination (Sim.lost_config (Sim.client Destination))) "foo")
       (start Sim.created_world)) = 40%nat.
Proof.
  assert (forall n w,
     IsNotFound (err_of (GetConfig (Sim.lost_config (Sim.client Destination)) n w).1) = true)
    as H1 by (intros n w; reflexivity).
  assert (0 < MaxGetRetries (Sim.pkg false false)) as H2 by (cbn; lia).
  exact (conj H1 (conj H2
    (getConfig_never_gives_up (Sim.pkg false false) 40
       (Sim.lost_config (Sim.client Destination)) Destination "foo"
       (start Sim.created_world) H1 H2))).
Defined.

(** C5 on the example: the namespace is missing, the NotFound error comes
    back and the namespace is still missing. *)
Lemma getOrCreateNamespace_never_creates_witness :
  outcome_of (getOrCreateNamespace Sim.destinationClientset "default") (start Sim.no_namespace)
  = Returned (Some (Sim.not_found "default")) /\
  Sim.namespaces (Sim.destination
    (world (getOrCreateNamespace Sim.destinationClientset "default" (start Sim.no_namespace)).2))
  = [] /\
  exists r,
    events_of (getOrCreateNamespace Sim.destinationClientset "default") (start Sim.no_namespace)
    = [Called Destination (CNamespacesGet "default" r)].
Proof.
  destruct (getOrCreateNamespace_never_creates (Sim.clientset Destination) Destination "default"
              (start Sim.no_namespace)) as (r & Hev & _).
  split; [vm_compute; reflexivity |]. split; [vm_compute; reflexivity |].
  exact (ex_intro _ r Hev).
Defined.

(** C6 as stated fails: the destination has a service [foo] and no
    configmap; after the refused migration it has the configmap of [foo]. *)
Lemma refused_migration_counterexample :
  Force (migrateFlags (Sim.pkg false false)) = false /\
  existsb (Sim.service_named "foo") (Sim.services (Sim.destination Sim.taken)) = true /\
  outcome_of (Sim.migrate_foo false) (start Sim.taken)
  = Stopped (Exited 1 (already_exists_message "foo")) /\
  Sim.configmaps (Sim.destination Sim.taken) = [] /\
  Sim.configmaps (Sim.destination (world (Sim.migrate_foo false (start Sim.taken)).2))
  = [configmap_copy "default" Sim.foo_config] /\
  Sim.destination (world (Sim.migrate_foo false (start Sim.taken)).2)
  <> Sim.destination Sim.taken /\
  count (mutates Destination) (events_of (Sim.migrate_foo false) (start Sim.taken)) = 1%nat.
Proof.
  repeat split; try (vm_compute; reflexivity).
  intros Heq. apply (f_equal Sim.configmaps) in Heq. vm_compute in Heq. discriminate Heq.
Qed.

Lemma Run_service_refuses_existing_witness :
  Force (migrateFlags (Sim.pkg false false)) = false /\
  In (Called Destination (CServiceExists "foo" (Ok true)))
     (events_of (Sim.migrate_foo false) (start Sim.taken)) /\
  outcome_of (Sim.migrate_foo false) (start Sim.taken)
  = Stopped (Exited 1 (already_exists_message (Name (Service_ObjectMeta Sim.foo)))).
Proof.
  assert (Force (migrateFlags (Sim.pkg false false)) = false) as H1 by reflexivity.
  assert (In (Called Destination (CServiceExists "foo" (Ok true)))
             (events_of (Sim.migrate_foo false) (start Sim.taken))) as H2
    by in_at 2%nat.
  destruct (Run_service_refuses_existing (Sim.pkg false false) 64 (Sim.clientset Source)
              (Sim.clientset Destination) (Sim.client Source) (Sim.client Destination)
              "default" "default" Sim.foo (start Sim.taken) "foo" H1 H2) as [Ho _].
  exact (conj H1 (conj H2 Ho)).
Defined.

(** C7 on the example: the delete is refused, the create is attempted all
    the same and it is its error that comes back. *)
Lemma createService_creates_after_failed_delete_witness :
  In (Called Destination
        (CDeleteService "foo" (Some (StatusError StatusReasonUnknown "delete refused"))))
     (events_of (createService
                   (traced_client Destination (Sim.stuck_delete (Sim.client Destination)))
                   Sim.foo true) (start Sim.taken)) /\
  exists r,
    events_of (createService
                 (traced_client Destination (Sim.stuck_delete (Sim.client Destination)))
                 Sim.foo true) (start Sim.taken) =
      [Called Destination (CServiceExists "foo" (Ok true));
       Called Destination
         (CDeleteService "foo" (Some (StatusError StatusReasonUnknown "delete refused")));
       Called Destination (CCreateService Sim.foo r)] /\
    outcome_of (createService
                  (traced_client Destination (Sim.stuck_delete (Sim.client Destination)))
                  Sim.foo true) (start Sim.taken) = Returned (err_of r).
Proof.
  assert (In (Called Destination
        (CDeleteService "foo" (Some (StatusError StatusReasonUnknown "delete refused"))))
     (events_of (createService
                   (traced_client Destination (Sim.stuck_delete (Sim.client Destination)))
                   Sim.foo true) (start Sim.taken))) as H1 by in_at 1%nat.
  exact (conj H1
    (createService_creates_after_failed_delete (Sim.stuck_delete (Sim.client Destination))
       Destination Sim.foo true (start Sim.taken) "foo"
       (StatusError StatusReasonUnknown "delete refused") H1)).
Defined.

(** C8 as stated fails: a [CreateRevision] that fails with NotFound, or with
    Conflict, is not tried again, and in the whole run the first such
    failure is the end: one [CreateRevision], no sleep, exit with status 1. *)
Lemma create_retry_counterexample :
  Name (Revision_ObjectMeta Sim.foo_00001) <> "foo-00002" /\
  outcome_of (Sim.migrate_revision 64
                (Sim.failing_create StatusReasonNotFound (Sim.client Destination)) Sim.foo_00001)
    (start Sim.created_world)
  = Returned (Some (StatusError StatusReasonNotFound "create refused")) /\
  count is_CreateRevision
    (events_of (Sim.migrate_revision 64
                  (Sim.failing_create StatusReasonNotFound (Sim.client Destination))
                  Sim.foo_00001) (start Sim.created_world)) = 1%nat /\
  outcome_of (Sim.migrate_revision 64
                (Sim.failing_create StatusReasonConflict (Sim.client Destination)) Sim.foo_00001)
    (start Sim.created_world)
  = Returned (Some (StatusError StatusReasonConflict "create refused")) /\
  count is_CreateRevision
    (events_of (Sim.migrate_revision 64
                  (Sim.failing_create StatusReasonConflict (Sim.client Destination))
                  Sim.foo_00001) (start Sim.created_world)) = 1%nat /\
  count is_Slept
    (events_of (Sim.migrate_revision 64
                  (Sim.failing_create StatusReasonConflict (Sim.client Destination))
                  Sim.foo_00001) (start Sim.created_world)) = 0%nat /\
  outcome_of (More.run_failing_create StatusReasonNotFound) (start Sim.fresh)
  = Stopped (Exited 1 (Error (StatusError StatusReasonNotFound "create refused"))) /\
  count is_CreateRevision
    (events_of (More.run_failing_create StatusReasonNotFound) (start Sim.fresh)) = 1%nat /\
  count is_Slept
    (events_of (More.run_failing_create StatusReasonNotFound) (start Sim.fresh)) = 0%nat.
Proof. split; [discriminate |]. vm_compute. repeat split; reflexivity. Qed.

Lemma migrateRevision_create_once_witness :
  Name (Revision_ObjectMeta Sim.foo_00001) <> "foo-00002" /\
  events_of (Sim.migrate_revision 64
               (Sim.failing_create StatusReasonConflict (Sim.client Destination)) Sim.foo_00001)
    (start Sim.created_world)
  = [Called Destination
       (CCreateRevision Sim.foo_00001 "uid-foo"
          (Err (StatusError StatusReasonConflict "create refused")))] /\
  outcome_of (Sim.migrate_revision 64
                (Sim.failing_create StatusReasonConflict (Sim.client Destination)) Sim.foo_00001)
    (start Sim.created_world)
  = Returned (Some (StatusError StatusReasonConflict "create refused")) /\
  In (Called Destination
        (CCreateRevision Sim.foo_00001 "uid-foo"
           (Err (StatusError StatusReasonConflict "create refused"))))
     (events_of (More.run_failing_create StatusReasonConflict) (start Sim.fresh)) /\
  outcome_of (More.run_failing_create StatusReasonConflict) (start Sim.fresh)
  = Stopped (Exited 1 (Error (StatusError StatusReasonConflict "create refused"))) /\
  last (events_of (More.run_failing_create StatusReasonConflict) (start Sim.fresh))
  = Some (Called Destination
            (CCreateRevision Sim.foo_00001 "uid-foo"
               (Err (StatusError StatusReasonConflict "create refused")))).
Proof.
  assert (Name (Revision_ObjectMeta Sim.foo_00001) <> "foo-00002") as H1 by discriminate.
  assert (In (Called Destination
                (CCreateRevision Sim.foo_00001 "uid-foo"
                   (Err (StatusError StatusReasonConflict "create refused"))))
             (events_of (More.run_failing_create StatusReasonConflict) (start Sim.fresh)))
    as H2 by in_at 10%nat.
  destruct (migrateRevision_create_once (Sim.pkg false false) 64
              (Sim.failing_create StatusReasonConflict (Sim.client Destination)) Destination
              Sim.foo_00001 Sim.foo "uid-foo" "foo-00002" (start Sim.created_world)
              (Sim.clientset Source) (Sim.clientset Destination) (Sim.client Source)
              (Sim.failing_create StatusReasonConflict (Sim.client Destination))
              "default" "default" (start Sim.fresh) H1)
    as (Hev & Ho & Hrun).
  destruct (Hrun _ _ _ _ H2) as [Hexit Hlast].
  exact (conj H1 (conj Hev (conj Ho (conj H2 (conj Hexit Hlast))))).
Defined.

(** C9 on the example: with [--delete] the source has no service left after
    the run, and the only calls after the migration pass are the listing and
    the deletion of [foo]. *)
Lemma source_deleted_last_witness :
  Delete (migrateFlags (Sim.pkg false true)) = true /\
  outcome_of (Sim.run false true) (start Sim.fresh) = Returned tt /\
  Sim.services (Sim.source (world (Sim.run false true (start Sim.fresh)).2)) = [] /\
  Sim.source (world (Sim.run false false (start Sim.fresh)).2) = Sim.source Sim.fresh /\
  Forall (fun e => mutates Source e = false)
    (events_of (Run_migration (Sim.pkg false true) 64 Sim.sourceClientset
                  Sim.destinationClientset Sim.sourceClient Sim.destinationClient
                  "default" "default") (start Sim.fresh)) /\
  exists after services,
    events_of (Sim.run false true) (start Sim.fresh) =
      events_of (Run_migration (Sim.pkg false true) 64 Sim.sourceClientset
                   Sim.destinationClientset Sim.sourceClient Sim.destinationClient
                   "default" "default") (start Sim.fresh) ++ after /\
    after = Called Source (CListService (Ok services)) ::
            map (fun service =>
                   Called Source (CDeleteService (Name (Service_ObjectMeta service)) None))
              services.
Proof.
  assert (Delete (migrateFlags (Sim.pkg false true)) = true) as H1 by reflexivity.
  assert (outcome_of (Sim.run false true) (start Sim.fresh) = Returned tt) as H2
    by (vm_compute; reflexivity).
  destruct (source_deleted_last (Sim.pkg false true) 64 (Sim.clientset Source)
              (Sim.clientset Destination) (Sim.client Source) (Sim.client Destination)
              "default" "default" (start Sim.fresh))
    as (Hpass & after & Hev & _ & _ & Hdel).
  destruct (Hdel H1 H2) as (services & Hafter).
  split; [exact H1 |]. split; [exact H2 |].
  split; [vm_compute; reflexivity |]. split; [vm_compute; reflexivity |].
  split; [exact Hpass |].
  exact (ex_intro _ after (ex_intro _ services (conj Hev Hafter))).
Defined.

(** C10 on the example: the fetched revision has no label map. *)
Lemma migrateRevision_nil_labels_panic_witness :
  Name (Revision_ObjectMeta Sim.foo_00002) = "foo-00002" /\
  In (Called Destination
        (CGetRevision "foo-00002"
           (Ok {| Revision_ObjectMeta := Sim.meta "foo-00002" None; Revision_Spec := "" |})))
     (events_of (Sim.migrate_revision 64 (Sim.bare_revision (Sim.client Destination))
                   Sim.foo_00002) (start Sim.created_world)) /\
  outcome_of (Sim.migrate_revision 64 (Sim.bare_revision (Sim.client Destination))
                Sim.foo_00002) (start Sim.created_world)
  = Stopped (Panicked "assignment to entry in nil map").
Proof.
  assert (Name (Revision_ObjectMeta Sim.foo_00002) = "foo-00002") as H1 by reflexivity.
  assert (In (Called Destination
        (CGetRevision "foo-00002"
           (Ok {| Revision_ObjectMeta := Sim.meta "foo-00002" None; Revision_Spec := "" |})))
     (events_of (Sim.migrate_revision 64 (Sim.bare_revision (Sim.client Destination))
                   Sim.foo_00002) (start Sim.created_world))) as H2 by in_at 0%nat.
  destruct (migrateRevision_nil_labels_panic (Sim.pkg false false) 64
              (Sim.bare_revision (Sim.client Destination)) Destination Sim.foo_00002 Sim.foo
              "uid-foo" "foo-00002" (start Sim.created_world) H1) as (Hpanic & _ & _).
  exact (conj H1 (conj H2 (Hpanic _ _ H2 eq_refl))).
Defined.

(** ** The whole command on the example *)

(** The end-to-end scenario: [foo] with [foo-00001] (generation 1) and
    [foo-00002] (generation 2, latest) is migrated to an empty destination. *)
Example Run_end_to_end :
  outcome_of (Sim.Run_sim false false) (start Sim.fresh) = Returned tt /\
  map (fun rev => (Name (Revision_ObjectMeta rev),
                   map_index (Labels (Revision_ObjectMeta rev)) generation_label))
    (Sim.revisions (Sim.destination (world (Sim.Run_sim false false (start Sim.fresh)).2)))
  = [("foo-00002", "2"); ("foo-00001", "1")] /\
  map (fun cm => Name (ConfigMap_ObjectMeta cm))
    (Sim.configmaps (Sim.destination (world (Sim.Run_sim false false (start Sim.fresh)).2)))
  = ["foo-config"] /\
  Sim.source (world (Sim.Run_sim false false (start Sim.fresh)).2) = Sim.source Sim.fresh.
Proof. vm_compute. repeat split; reflexivity. Qed.

(** Missing inputs stop [Run] before any call is made. *)
Example Run_without_namespace :
  Run (Package_init {| Flag_Namespace := ""; KubeConfig := "source.yml";
                       DestinationKubeConfig := "destination.yml";
                       DestinationNamespace := "default"; Force := false; Delete := false |})
      (fun _ => "") Sim.BuildConfigFromFlags
      (fun side => Ok (traced_clientset side (Sim.clientset side)))
      (fun side => Ok side)
      (fun side _ => traced_client side (Sim.client side))
      64 (start Sim.fresh)
  = (Stopped (Exited 1
       ("cannot get source cluster namespace, please use --namespace to set" +:+ newline)),
     start Sim.fresh).
Proof. reflexivity. Qed.

(** * More properties of the code *)

(** ** The inputs of [Run] *)

Section RunInputs.
Context {St : Type} `{Clock St} {RestConfig ServingV1Client : Type}.
Variable pkg : Package.
Variable BuildConfigFromFlags : string -> string -> result RestConfig.
Variable kubernetes_NewForConfig : RestConfig -> result (Clientset St).
Variable serving_NewForConfig : RestConfig -> result ServingV1Client.
Variable NewMigrationClient : ServingV1Client -> string -> MigrationClient St.

(** X1.  [Run] needs a kubeconfig for each cluster (flag or environment
    variable) and both namespaces.  When one of them is empty it exits with
    status 1 and one of four messages, the one of the first missing input in
    that order, and nothing has been done: the state is the one it started
    from. *)
Theorem Run_requires_inputs (os_Getenv : string -> string) (fuel : nat) (s : St) :
  let kubeconfigS := flag_or_env (KubeConfig (migrateFlags pkg)) (os_Getenv "KUBECONFIG") in
  let kubeconfigD := flag_or_env (DestinationKubeConfig (migrateFlags pkg))
                       (os_Getenv "KUBECONFIG_DESTINATION") in
  let namespaceS := Flag_Namespace (migrateFlags pkg) in
  let namespaceD := DestinationNamespace (migrateFlags pkg) in
  kubeconfigS = "" \/ kubeconfigD = "" \/ namespaceS = "" \/ namespaceD = "" ->
  exists msg,
    Run pkg os_Getenv BuildConfigFromFlags kubernetes_NewForConfig serving_NewForConfig
      NewMigrationClient fuel s = (Stopped (Exited 1 msg), s) /\
    (kubeconfigS = "" ->
     msg = "cannot get source cluster kube config, please use --kubeconfig or export environment variable KUBECONFIG to set" +:+ newline) /\
    (kubeconfigS <> "" -> kubeconfigD = "" ->
     msg = "cannot get destination cluster kube config, please use --destination-kubeconfig or export environment variable KUBECONFIG_DESTINATION to set" +:+ newline) /\
    (kubeconfigS <> "" -> kubeconfigD <> "" -> namespaceS = "" ->
     msg = "cannot get source cluster namespace, please use --namespace to set" +:+ newline) /\
    (kubeconfigS <> "" -> kubeconfigD <> "" -> namespaceS <> "" ->
     msg = "cannot get destination cluster namespace, please use --destination-namespace to set" +:+ newline).
Proof.
  intros kS kD nS nD Hmissing. unfold Run. fold (flag_or_env (KubeConfig (migrateFlags pkg)) (os_Getenv "KUBECONFIG")).
  fold (flag_or_env (DestinationKubeConfig (migrateFlags pkg)) (os_Getenv "KUBECONFIG_DESTINATION")).
  fold kS kD nS nD.
  destruct (String.eqb kS "") eqn:EkS.
  { apply String.eqb_eq in EkS. eexists. split; [reflexivity |]. repeat split; congruence. }
  destruct (String.eqb kD "") eqn:EkD.
  { apply String.eqb_eq in EkD. apply String.eqb_neq in EkS.
    eexists. split; [reflexivity |]. repeat split; congruence. }
  destruct (String.eqb nS "") eqn:EnS.
  { apply String.eqb_eq in EnS. apply String.eqb_neq in EkS, EkD.
    eexists. split; [reflexivity |]. repeat split; congruence. }
  destruct (String.eqb nD "") eqn:EnD.
  { apply String.eqb_eq in EnD. apply String.eqb_neq in EkS, EkD, EnS.
    eexists. split; [reflexivity |]. repeat split; congruence. }
  apply String.eqb_neq in EkS, EkD, EnS, EnD. destruct Hmissing as [? | [? | [? | ?]]]; done.
Qed.

(** X2.  The kubeconfig flags take precedence over the environment: when
    both flags are given, [Run] does not depend on the environment
    variables. *)
Theorem Run_flags_override_environment (getenv getenv' : string -> string) (fuel : nat) (s : St) :
  KubeConfig (migrateFlags pkg) <> "" ->
  DestinationKubeConfig (migrateFlags pkg) <> "" ->
  Run pkg getenv BuildConfigFromFlags kubernetes_NewForConfig serving_NewForConfig
    NewMigrationClient fuel s =
  Run pkg getenv' BuildConfigFromFlags kubernetes_NewForConfig serving_NewForConfig
    NewMigrationClient fuel s.
Proof.
  intros HS HD. unfold Run.
  apply String.eqb_neq in HS, HD. by rewrite HS, HD.
Qed.

(** X3.  When the clients of the source cannot be built, [Run] exits with
    the error of the constructor that failed, and nothing has been done. *)
Theorem Run_source_clients_failure (os_Getenv : string -> string) (fuel : nat) (s : St)
    (e : error) :
  let kubeconfigS := flag_or_env (KubeConfig (migrateFlags pkg)) (os_Getenv "KUBECONFIG") in
  let kubeconfigD := flag_or_env (DestinationKubeConfig (migrateFlags pkg))
                       (os_Getenv "KUBECONFIG_DESTINATION") in
  kubeconfigS <> "" -> kubeconfigD <> "" ->
  Flag_Namespace (migrateFlags pkg) <> "" -> DestinationNamespace (migrateFlags pkg) <> "" ->
  BuildConfigFromFlags "" kubeconfigS = Err e \/
  (exists cfg, BuildConfigFromFlags "" kubeconfigS = Ok cfg /\
     (kubernetes_NewForConfig cfg = Err e \/
      (exists clientSet, kubernetes_NewForConfig cfg = Ok clientSet) /\
      serving_NewForConfig cfg = Err e)) ->
  Run pkg os_Getenv BuildConfigFromFlags kubernetes_NewForConfig serving_NewForConfig
    NewMigrationClient fuel s = (Stopped (Exited 1 (Error e)), s).
Proof.
  intros kS kD HkS HkD HnS HnD Hfail. unfold Run.
  fold (flag_or_env (KubeConfig (migrateFlags pkg)) (os_Getenv "KUBECONFIG")).
  fold (flag_or_env (DestinationKubeConfig (migrateFlags pkg)) (os_Getenv "KUBECONFIG_DESTINATION")).
  fold kS kD.
  apply String.eqb_neq in HkS, HkD, HnS, HnD. rewrite HkS, HkD, HnS, HnD.
  unfold getClients.
  destruct Hfail as [-> | (cfg & -> & [-> | [[clientSet ->] ->]])]; reflexivity.
Qed.

End RunInputs.

Section RunClients.
Context {W : Type} `{Clock W} {RestConfig ServingV1Client : Type}.
Variable pkg : Package.
Variable os_Getenv : string -> string.
Variable BuildConfigFromFlags : string -> string -> result RestConfig.
Variable kubernetes_NewForConfig : RestConfig -> result (Clientset (Traced W)).
Variable serving_NewForConfig : RestConfig -> result ServingV1Client.
Variable NewMigrationClient : ServingV1Client -> string -> MigrationClient (Traced W).

(** X4.  The first call of [Run] is the snapshot of the source.  When that
    call fails, or when the clients of the destination cannot be built after
    it, [Run] exits with that error and has made no other call: nothing is
    called on the destination, and nothing is migrated. *)
Theorem Run_stops_before_destination (fuel : nat) (s : Traced W)
    (clientSetS : Clientset (Traced W)) (cS : MigrationClient W) :
  let kubeconfigS := flag_or_env (KubeConfig (migrateFlags pkg)) (os_Getenv "KUBECONFIG") in
  let kubeconfigD := flag_or_env (DestinationKubeConfig (migrateFlags pkg))
                       (os_Getenv "KUBECONFIG_DESTINATION") in
  let m := Run pkg os_Getenv BuildConfigFromFlags kubernetes_NewForConfig
             serving_NewForConfig NewMigrationClient fuel in
  let snapshot := (PrintServiceWithRevisions cS "source" (world s)).1 in
  kubeconfigS <> "" -> kubeconfigD <> "" ->
  Flag_Namespace (migrateFlags pkg) <> "" -> DestinationNamespace (migrateFlags pkg) <> "" ->
  getClients BuildConfigFromFlags kubernetes_NewForConfig serving_NewForConfig
    NewMigrationClient kubeconfigS (Flag_Namespace (migrateFlags pkg))
  = Ok (clientSetS, traced_client Source cS) ->
  (forall e, snapshot = Some e ->
     events_of m s = [Called Source (CPrintServiceWithRevisions "source" snapshot)] /\
     outcome_of m s = Stopped (Exited 1 (Error e))) /\
  (forall e, snapshot = None ->
     getClients BuildConfigFromFlags kubernetes_NewForConfig serving_NewForConfig
       NewMigrationClient kubeconfigD (DestinationNamespace (migrateFlags pkg)) = Err e ->
     events_of m s = [Called Source (CPrintServiceWithRevisions "source" snapshot)] /\
     outcome_of m s = Stopped (Exited 1 (Error e))).
Proof.
  intros kS kD m snapshot HkS HkD HnS HnD HclientsS.
  assert (m s =
    (_ ← (err ← call (PrintServiceWithRevisions (traced_client Source cS) "source"); check err);
     match getClients BuildConfigFromFlags kubernetes_NewForConfig serving_NewForConfig
             NewMigrationClient kD (DestinationNamespace (migrateFlags pkg)) with
     | Err err => os_Exit 1 (Error err)
     | Ok (clientSetD, migrationClientD) =>
         Run_with_clients pkg fuel clientSetS clientSetD (traced_client Source cS)
           migrationClientD (Flag_Namespace (migrateFlags pkg))
           (DestinationNamespace (migrateFlags pkg))
     end) s) as Em.
  { unfold m, Run.
    fold (flag_or_env (KubeConfig (migrateFlags pkg)) (os_Getenv "KUBECONFIG")).
    fold (flag_or_env (DestinationKubeConfig (migrateFlags pkg))
            (os_Getenv "KUBECONFIG_DESTINATION")).
    fold kS kD.
    apply String.eqb_neq in HkS, HkD, HnS, HnD. rewrite HkS, HkD, HnS, HnD, HclientsS.
    unfold mbind, Go_bind.
    by destruct (call (PrintServiceWithRevisions (traced_client Source cS) "source") s)
      as [[[e |] | why] s1]. }
  unfold events_of, outcome_of. rewrite Em. clear Em.
  cbv [mbind Go_bind call traced_client observe PrintServiceWithRevisions]. fold snapshot.
  destruct cS as [print ? ? ? ? ? ? ? ? ? ?]. cbn [PrintServiceWithRevisions] in snapshot.
  subst snapshot. destruct (print "source" (world s)) as [r w] eqn:Ep. cbn [fst].
  split.
  - intros e ->. cbn. by rewrite drop_app_length.
  - intros e -> ->. cbn. by rewrite drop_app_length.
Qed.

End RunClients.

(** ** More about [migrateRevision] *)

Section MoreReconcile.
Variable pkg : Package.
Variable side : Side.
Variable revisionS : Revision.

Ltac inv_round :=
  match goal with
  | H : reconcile_round _ _ _ _ _ _ |- _ => inversion H; subst; clear H
  end.

Ltac count_simpl :=
  repeat (rewrite count_app || rewrite count_cons);
  cbn [is_GetRevision is_UpdateRevision is_Slept is_CreateRevision];
  try change (count is_GetRevision []) with O;
  try change (count is_UpdateRevision []) with O;
  try change (count is_Slept []) with O.

(** The loop makes at most [MaxGetRetries] sleeps, [MaxUpdateRetries + 1]
    updates and [MaxGetRetries + MaxUpdateRetries + 1] fetches. *)
Lemma reconcile_bounds fuel i o d :
  rounds (reconcile_round pkg side revisionS) fuel i o d ->
  (count is_Slept d <= Z.to_nat (MaxGetRetries pkg - i.1))%nat /\
  (count is_UpdateRevision d <= Z.to_nat (MaxUpdateRetries pkg - i.2) + 1)%nat /\
  (count is_GetRevision d <=
     Z.to_nat (MaxGetRetries pkg - i.1) + Z.to_nat (MaxUpdateRetries pkg - i.2) + 1)%nat.
Proof.
  induction 1 as [i | fuel i i' d d' o Hb Hr (IHs & IHu & IHg) | fuel i d Hb
                 | fuel i r d Hb | fuel i why d Hb].
  - cbn. lia.
  - inv_round; cbn [fst snd] in *; count_simpl; lia.
  - inv_round; count_simpl; lia.
  - inv_round; count_simpl; lia.
  - inv_round; count_simpl; lia.
Qed.


(** An error that is not retried ends the loop: the call that met it is the
    last one and its error is returned. *)
Lemma reconcile_fatal fuel i o d ev e :
  rounds (reconcile_round pkg side revisionS) fuel i o d ->
  In ev d ->
  (exists n, ev = Called side (CGetRevision n (Err e)) /\ IsNotFound (Some e) = false) \/
  (exists rev, ev = Called side (CUpdateRevision rev (Some e)) /\ IsConflict (Some e) = false) ->
  o = Returned (Some (Some e)) /\ last d = Some ev.
Proof.
  induction 1 as [i | fuel i i' d d' o Hb Hr IH | fuel i d Hb
                 | fuel i r d Hb | fuel i why d Hb]; intros Hin Hev.
  - destruct Hin.
  - apply in_app_or in Hin as [Hin | Hin].
    + inv_round; in_cases Hin; subst ev;
        destruct Hev as [(n & Hev & Hf) | (rev' & Hev & Hf)]; try discriminate Hev;
        inversion Hev; subst; congruence.
    + destruct (IH Hin Hev) as [-> Hlast]. split; [done |].
      rewrite last_app, Hlast. done.
  - inv_round. in_cases Hin; subst ev;
      destruct Hev as [(n & Hev & Hf) | (rev' & Hev & Hf)]; discriminate Hev.
  - inv_round; in_cases Hin; subst ev;
      destruct Hev as [(n & Hev & Hf) | (rev' & Hev & Hf)]; try discriminate Hev;
      inversion Hev; subst; done.
  - inv_round. in_cases Hin; subst ev;
      destruct Hev as [(n & Hev & Hf) | (rev' & Hev & Hf)]; discriminate Hev.
Qed.

(** The calls of the loop come in attempts. *)
Lemma reconcile_attempts fuel i o d :
  rounds (reconcile_round pkg side revisionS) fuel i o d ->
  exists ds, d = concat ds /\ Forall (attempt side revisionS) ds.
Proof.
  induction 1 as [i | fuel i i' d d' o Hb Hr (ds & -> & IH) | fuel i d Hb
                 | fuel i r d Hb | fuel i why d Hb].
  - by exists [].
  - exists (d :: ds). split; [done |]. constructor; [| done].
    inv_round; by constructor.
  - exists [d]. split; [cbn; by rewrite app_nil_r |]. repeat constructor.
    inv_round; by constructor.
  - exists [d]. split; [cbn; by rewrite app_nil_r |]. repeat constructor.
    inv_round; by constructor.
  - exists [d]. split; [cbn; by rewrite app_nil_r |]. repeat constructor.
    inv_round; by constructor.
Qed.

End MoreReconcile.

Section MoreClaims.
Context {W : Type} `{Clock W}.
Variable pkg : Package.

(** X5.  Whatever the client answers, one call of [migrateRevision] makes at
    most one [CreateRevision], at most [MaxGetRetries] sleeps, at most
    [MaxUpdateRetries + 1] updates and at most
    [MaxGetRetries + MaxUpdateRetries + 1] fetches: the two retry counters
    are spent independently. *)
Theorem migrateRevision_call_bounds (fuel : nat) (c : MigrationClient W) (side : Side)
    (revisionS : Revision) (serviceS : Service) (configUuid latest : string)
    (s : Traced W) :
  let d := events_of (migrateRevision pkg fuel (traced_client side c) revisionS serviceS
                        configUuid latest) s in
  (count is_CreateRevision d <= 1)%nat /\
  (count is_Slept d <= Z.to_nat (MaxGetRetries pkg))%nat /\
  (count is_UpdateRevision d <= Z.to_nat (MaxUpdateRetries pkg) + 1)%nat /\
  (count is_GetRevision d <=
     Z.to_nat (MaxGetRetries pkg) + Z.to_nat (MaxUpdateRetries pkg) + 1)%nat.
Proof.
  intros d.
  pose proof (emits_run _ _ s
    (migrateRevision_emits pkg fuel c side revisionS serviceS configUuid latest)) as Hrun.
  fold d in Hrun. destruct Hrun as [r Hb | o d' Hb Hr].
  - cbn. lia.
  - destruct (reconcile_bounds _ _ _ _ _ _ _ Hr) as (Hs & Hu & Hg).
    cbn [fst snd] in *. rewrite !Z.sub_0_r in *.
    split; [| done].
    rewrite count_none; [lia |].
    eapply Forall_impl; [exact (reconcile_events _ _ _ _ _ _ _ Hr) |]. by intros [sd [] |].
Qed.



(** X7.  On the reconcile-in-place path only NotFound on the fetch and
    Conflict on the update are retried: a fetch that fails with another
    error, or an update that fails with another error, is the last call of
    [migrateRevision], which returns that error. *)
Theorem migrateRevision_fatal_errors (fuel : nat) (c : MigrationClient W) (side : Side)
    (revisionS : Revision) (serviceS : Service) (configUuid latest : string)
    (s : Traced W) :
  Name (Revision_ObjectMeta revisionS) = latest ->
  let m := migrateRevision pkg fuel (traced_client side c) revisionS serviceS configUuid latest in
  (forall n e,
     In (Called side (CGetRevision n (Err e))) (events_of m s) ->
     IsNotFound (Some e) = false ->
     outcome_of m s = Returned (Some e) /\
     last (events_of m s) = Some (Called side (CGetRevision n (Err e)))) /\
  (forall rev e,
     In (Called side (CUpdateRevision rev (Some e))) (events_of m s) ->
     IsConflict (Some e) = false ->
     outcome_of m s = Returned (Some e) /\
     last (events_of m s) = Some (Called side (CUpdateRevision rev (Some e)))).
Proof.
  intros Hname m.
  pose proof (emits_run m _ s
    (migrateRevision_emits pkg fuel c side revisionS serviceS configUuid latest)) as Hrun.
  fold m in Hrun. destruct Hrun as [r Hb | o d Hb Hr].
  { unfold bears in Hb. apply String.eqb_neq in Hb. done. }
  split.
  - intros n e Hin Hf.
    destruct (reconcile_fatal _ _ _ _ _ _ _ _ e Hr Hin) as [-> Hlast]; [left; eauto | done].
  - intros rev e Hin Hf.
    destruct (reconcile_fatal _ _ _ _ _ _ _ _ e Hr Hin) as [-> Hlast]; [right; eauto | done].
Qed.

(** X8.  On the reconcile-in-place path the calls of [migrateRevision] come
    in attempts, each starting with a fetch of the revision by the name of
    the source revision: a sleep of one second only follows a fetch that
    failed with NotFound, and an update only follows the fetch of the
    revision it submits, relabelled.  So a retry after a conflict reads the
    revision again before it writes. *)
Theorem migrateRevision_attempts (fuel : nat) (c : MigrationClient W) (side : Side)
    (revisionS : Revision) (serviceS : Service) (configUuid latest : string)
    (s : Traced W) :
  Name (Revision_ObjectMeta revisionS) = latest ->
  let m := migrateRevision pkg fuel (traced_client side c) revisionS serviceS configUuid latest in
  exists attempts,
    events_of m s = concat attempts /\
    Forall (attempt side revisionS) attempts.
Proof.
  intros Hname m.
  pose proof (emits_run m _ s
    (migrateRevision_emits pkg fuel c side revisionS serviceS configUuid latest)) as Hrun.
  fold m in Hrun. destruct Hrun as [r Hb | o d Hb Hr].
  { unfold bears in Hb. apply String.eqb_neq in Hb. done. }
  exact (reconcile_attempts _ _ _ _ _ _ _ Hr).
Qed.

(** X9.  Reconciling is idempotent: when the fetched revision already
    carries the generation label of the source, the revision submitted by
    the successful update is the fetched revision itself. *)
Theorem migrateRevision_reconcile_idempotent (fuel : nat) (c : MigrationClient W)
    (side : Side) (revisionS : Revision) (serviceS : Service) (configUuid latest : string)
    (s : Traced W) :
  Name (Revision_ObjectMeta revisionS) = latest ->
  let m := migrateRevision pkg fuel (traced_client side c) revisionS serviceS configUuid latest in
  outcome_of m s = Returned None ->
  exists pre fetched submitted,
    events_of m s =
      pre ++ [Called side (CGetRevision latest (Ok fetched));
              Called side (CUpdateRevision submitted None)] /\
    (forall labels,
       Labels (Revision_ObjectMeta fetched) = Some labels ->
       labels !! generation_label =
         Some (map_index (Labels (Revision_ObjectMeta revisionS)) generation_label) ->
       submitted = fetched).
Proof.
  intros Hname m Hok.
  pose proof (emits_run m _ s
    (migrateRevision_emits pkg fuel c side revisionS serviceS configUuid latest)) as Hrun.
  fold m in Hrun. rewrite Hok in Hrun.
  inversion Hrun as [r Hb Ho Hd | o d Hb Hr Ho Hd].
  { unfold bears in Hb. apply String.eqb_neq in Hb. done. }
  destruct o as [[v |] | why]; cbn in Ho; try discriminate.
  { injection Ho as ->.
    by destruct (reconcile_returned pkg side revisionS _ _ _ _ Hr) as [[e He] _]. }
  destruct (reconcile_success pkg side revisionS _ _ _ Hr) as (pre & rev & m0 & Hev & Hl & _).
  rewrite Hname in Hev. eexists pre, rev, _. split; [exact Hev |].
  intros labels Hl' Hgen. rewrite Hl in Hl'. injection Hl' as ->.
  unfold relabel, Revision_with_Labels, with_Labels. rewrite (insert_id _ _ _ Hgen).
  destruct rev as [[? ? ? ? ?] ?]. cbn in *. by rewrite Hl.
Qed.

End MoreClaims.

(** ** More about the other functions *)

Section MoreFunctions.
Context {W : Type} `{Clock W}.
Variable pkg : Package.

(** The runs of the loop of [getConfig] that return: NotFound answers, each
    followed by a sleep, then the answer that is returned. *)
Lemma getConfig_rounds_returned (side : Side) (serviceName : string) fuel retries v d :
  rounds (getConfig_round pkg side serviceName) fuel retries (Returned v) d ->
  exists es r,
    d = flat_map (fun e => [Called side (CGetConfig serviceName (Err e)); Slept time_Second]) es
        ++ [Called side (CGetConfig serviceName r)] /\
    Forall (fun e => IsNotFound (Some e) = true) es /\
    v = Some match r with
             | Ok config => (Some config, None)
             | Err e => (None, Some e)
             end.
Proof.
  intros Hr. remember (Returned v) as o eqn:Eo. revert v Eo.
  induction Hr as [i | fuel i i' d d' o Hb Hr IH | fuel i d Hb
                  | fuel i r d Hb | fuel i why d Hb]; intros v Eo; try discriminate.
  - destruct (IH _ Eo) as (es & r & -> & Hes & ->).
    inversion Hb; subst. exists (e :: es), r. split; [done |]. split; [by constructor | done].
  - inversion Hb.
  - injection Eo as <-. inversion Hb; subst.
    + by exists [], (Err e).
    + by exists [], (Ok config).
Qed.

(** X10.  When [getConfig] returns, its calls are a series of [GetConfig]
    that failed with NotFound, each followed by a sleep of one second, and
    one last [GetConfig] whose answer is what [getConfig] returns: the
    configuration, or the error with no configuration. *)
Theorem getConfig_returns_last_answer (fuel : nat) (c : MigrationClient W) (side : Side)
    (serviceName : string) (s : Traced W) v :
  let m := getConfig pkg fuel (traced_client side c) serviceName in
  outcome_of m s = Returned v ->
  exists es r,
    events_of m s =
      flat_map (fun e => [Called side (CGetConfig serviceName (Err e)); Slept time_Second]) es
      ++ [Called side (CGetConfig serviceName r)] /\
    Forall (fun e => IsNotFound (Some e) = true) es /\
    v = match r with
        | Ok config => (Some config, None)
        | Err e => (None, Some e)
        end.
Proof.
  intros m Hret.
  destruct (emits_run m _ s (getConfig_emits pkg fuel c side serviceName)) as (o & Hr & Ho).
  fold m in Hr, Ho. rewrite Hret in Ho.
  destruct o as [v' | why]; [| discriminate Ho].
  destruct (getConfig_rounds_returned _ _ _ _ _ _ Hr) as (es & r & Hd & Hes & ->).
  injection Ho as ->. eauto.
Qed.

Lemma deletions_failed_at (side : Side) (services : list Service) e d :
  deletions side services (Returned (Some e)) d ->
  exists done service later,
    services = done ++ service :: later /\
    d = map (fun svc => Called side (CDeleteService (Name (Service_ObjectMeta svc)) None)) done
        ++ [Called side (CDeleteService (Name (Service_ObjectMeta service)) (Some e))].
Proof.
  intros Hd. remember (Returned (Some e)) as o eqn:Eo.
  induction Hd as [| service rest o d Hd IH | service rest e'].
  - discriminate.
  - destruct (IH Eo) as (done & svc & later & -> & ->).
    by exists (service :: done), svc, later.
  - injection Eo as ->. by exists [], service, rest.
Qed.

(** X11.  [deleteAllServices] stops at the first delete that fails: when it
    returns an error, either the listing failed and nothing was deleted, or
    the services before the failing one were deleted, in order, the failing
    delete is the last call, and the services after it are left alone. *)
Theorem deleteAllServices_stops_at_failure (c : MigrationClient W) (side : Side)
    (delete : bool) (s : Traced W) (e : error) :
  let m := deleteAllServices (traced_client side c) delete in
  outcome_of m s = Returned (Some e) ->
  delete = true /\
  (events_of m s = [Called side (CListService (Err e))] \/
   exists done service later,
     events_of m s =
       Called side (CListService (Ok (done ++ service :: later))) ::
       map (fun svc => Called side (CDeleteService (Name (Service_ObjectMeta svc)) None)) done ++
       [Called side (CDeleteService (Name (Service_ObjectMeta service)) (Some e))]).
Proof.
  intros m Hret.
  pose proof (emits_run m _ s (deleteAllServices_emits c side delete)) as Hrun.
  fold m in Hrun. rewrite Hret in Hrun.
  inversion Hrun as [| e' | services o d Hd]; subst.
  - split; [done |]. by left.
  - split; [done |]. right.
    destruct (deletions_failed_at _ _ _ _ Hd) as (done & svc & later & -> & ->). eauto.
Qed.

(** X12.  [createService] starts with the existence check.  When the check
    fails it returns that error and makes no other call; when the service is
    not there it creates it, with or without [--force], and deletes nothing;
    without [--force] it never deletes; it never creates more than once, and
    what it creates is the source service as it was read. *)
Theorem createService_discipline (c : MigrationClient W) (side : Side) (service : Service)
    (force : bool) (s : Traced W) :
  let m := createService (traced_client side c) service force in
  let name := Name (Service_ObjectMeta service) in
  (exists r rest, events_of m s = Called side (CServiceExists name r) :: rest) /\
  (forall n e,
     In (Called side (CServiceExists n (Err e))) (events_of m s) ->
     events_of m s = [Called side (CServiceExists name (Err e))] /\
     outcome_of m s = Returned (Some e)) /\
  (forall n,
     In (Called side (CServiceExists n (Ok false))) (events_of m s) ->
     exists r,
       events_of m s = [Called side (CServiceExists name (Ok false));
                        Called side (CCreateService service r)] /\
       outcome_of m s = Returned (err_of r)) /\
  (force = false -> count is_DeleteService (events_of m s) = O) /\
  (count is_CreateService (events_of m s) <= 1)%nat /\
  (forall sd service' r,
     In (Called sd (CCreateService service' r)) (events_of m s) -> service' = service).
Proof.
  intros m name.
  pose proof (emits_run m _ s (createService_emits c side service force)) as Hrun.
  fold m in Hrun. fold name in Hrun.
  destruct Hrun as [e | Hf | deleted r Hf | r].
  all: split; [eauto |].
  all: split; [intros n e' Hin; in_cases Hin; by injection Hin as <- <- |].
  all: split; [intros n Hin; in_cases Hin; eauto |].
  all: split; [intros Hforce; try done; congruence |].
  all: split; [cbn; lia |].
  all: intros sd service' r' Hin; in_cases Hin; by injection Hin as <- <- <-.
Qed.

End MoreFunctions.

(** ** More about the replay of the revisions *)

Section MoreReplay.
Variable pkg : Package.
Variable side : Side.

(** The pauses of [migrateRevision] last one second: none of them is the
    five-second pause of [Run]. *)
Lemma reconcile_no_throttle revisionS fuel i o d :
  rounds (reconcile_round pkg side revisionS) fuel i o d -> count is_throttle d = O.
Proof.
  induction 1 as [i | fuel i i' d d' o Hb Hr IH | fuel i d Hb
                 | fuel i r d Hb | fuel i why d Hb].
  - done.
  - rewrite count_app, IH. by inversion Hb.
  - by inversion Hb.
  - by inversion Hb.
  - by inversion Hb.
Qed.

Lemma revision_run_no_throttle fuel configUuid latest rev o d :
  revision_run pkg side fuel configUuid latest rev o d -> count is_throttle d = O.
Proof.
  destruct 1 as [r Hb | o d Hb Hr]; [done |]. exact (reconcile_no_throttle _ _ _ _ _ Hr).
Qed.

(** The replay pauses once after each revision that was migrated without
    error, also after the last one. *)
Lemma replay_throttle fuel configUuid latest revisionsS o d :
  replay pkg side fuel configUuid latest revisionsS o d ->
  exists migrated rest,
    revisionsS = migrated ++ rest /\
    count is_throttle d = length migrated /\
    (o = Returned tt -> rest = [] /\
       (revisionsS <> [] -> last d = Some (Slept (5 * time_Second)))) /\
    (forall why, o = Stopped why -> rest <> [] /\ o <> Returned tt).
Proof.
  induction 1 as [| rev rest d d' o Hrun Hrest (migrated & rest' & -> & Hc & Hret & Hstop)
                 | rev rest e d Hrun | rev rest why d Hrun].
  - exists [], []. repeat split; done.
  - exists (rev :: migrated), rest'. split; [done |].
    split; [| split].
    + rewrite count_app, count_cons, (revision_run_no_throttle _ _ _ _ _ _ Hrun), Hc. done.
    + intros Ho. destruct (Hret Ho) as [-> Hlast]. split; [done |]. intros _.
      rewrite app_nil_r in *. destruct migrated as [| rev' migrated].
      * inversion Hrest; subst. by rewrite last_snoc.
      * rewrite last_app, last_cons, (Hlast ltac:(done)). done.
    + intros why Ho. exact (Hstop why Ho).
  - exists [], (rev :: rest). split; [done |].
    rewrite (revision_run_no_throttle _ _ _ _ _ _ Hrun). repeat split; done.
  - exists [], (rev :: rest). split; [done |].
    rewrite (revision_run_no_throttle _ _ _ _ _ _ Hrun). repeat split; done.
Qed.

(** What [CreateRevision] is given in a replay is the UID of the replay. *)
Lemma replay_stamped fuel configUuid latest revisionsS o d :
  replay pkg side fuel configUuid latest revisionsS o d ->
  Forall (fun uid => uid = configUuid) (stamped d).
Proof.
  assert (forall rev o d, revision_run pkg side fuel configUuid latest rev o d ->
            Forall (fun uid => uid = configUuid) (stamped d)) as Hone.
  { intros rev o' d' [r Hb | o'' d'' Hb Hr].
    - by repeat constructor.
    - apply reconcile_events in Hr. induction Hr as [| e d0 He _ IH]; [constructor |].
      destruct e as [sd [] |]; try destruct He; exact IH. }
  induction 1 as [| rev rest d d' o Hrun Hrest IH | rev rest e d Hrun | rev rest why d Hrun].
  - constructor.
  - unfold stamped. rewrite omap_app. apply Forall_app. split; [exact (Hone _ _ _ Hrun) | exact IH].
  - exact (Hone _ _ _ Hrun).
  - exact (Hone _ _ _ Hrun).
Qed.

End MoreReplay.

Section MoreRun.
Context {W : Type} `{Clock W}.
Variable pkg : Package.

(** X14.  [Run] pauses five seconds after each revision it migrated, also
    after the last one, and the pauses of [migrateRevision] itself are
    shorter: the number of five-second pauses in the replay of the revisions
    of a service is the number of revisions migrated without error, and it
    is the number of revisions of the source exactly when the replay comes
    to its end. *)
Theorem Run_revisions_throttle (fuel : nat) (c : MigrationClient W)
    (revisionsS : list Revision) (serviceS : Service) (configUUID latest : string)
    (s : Traced W) :
  let m := Run_revisions pkg fuel (traced_client Destination c) revisionsS serviceS
             configUUID latest in
  (count is_throttle (events_of m s) <= length revisionsS)%nat /\
  (outcome_of m s = Returned tt <->
   count is_throttle (events_of m s) = length revisionsS) /\
  (outcome_of m s = Returned tt -> revisionsS <> [] ->
   last (events_of m s) = Some (Slept (5 * time_Second))).
Proof.
  intros m.
  pose proof (emits_run m _ s
    (Run_revisions_emits pkg fuel c revisionsS serviceS configUUID latest)) as Hrun.
  fold m in Hrun.
  destruct (replay_throttle _ _ _ _ _ _ _ _ Hrun) as (migrated & rest & -> & Hc & Hret & Hstop).
  rewrite Hc, length_app. split; [lia |]. split; [split |].
  - intros Ho. destruct (Hret Ho) as [-> _]. cbn. lia.
  - intros Hlen. assert (rest = []) as -> by (destruct rest; [done | cbn in Hlen; lia]).
    destruct (outcome_of m s) as [[] | why] eqn:Ho; [done |].
    by destruct (Hstop why eq_refl) as [Hrest _].
  - intros Ho Hne. by destruct (Hret Ho) as [_ Hlast]; apply Hlast.
Qed.

(** A computation that calls no [CreateRevision] can be put in front of
    one whose [CreateRevision] calls are described by [Q]. *)
Lemma emits_after {A B} (m : Go (Traced W) A) (k : A -> Go (Traced W) B)
    (Q : list Event -> Prop) :
  Q [] ->
  (forall d1 d2, Forall (fun e => quiet e = true) d1 -> Q d2 -> Q (d1 ++ d2)) ->
  emits m (only (fun e => quiet e = true)) ->
  (forall a, emits (k a) (fun _ d => Q d)) ->
  emits (m ≫= k) (fun _ d => Q d).
Proof.
  intros Hnil Happ Hm Hk. eapply emits_mono; [apply (emits_bind _ _ _ _ Hm Hk) |].
  intros o d [(a & d1 & d2 & -> & H1 & H2) | (why & _ & H1)].
  - by apply Happ.
  - rewrite <- (app_nil_r d). by apply Happ.
Qed.

Lemma stamped_quiet (d : list Event) :
  Forall (fun e => quiet e = true) d -> stamped d = [].
Proof.
  induction 1 as [| e d He _ IH]; [done |]. by destruct e as [sd [] |].
Qed.

(** X15.  The revisions created for a service all carry the UID of one
    configuration: the one that [GetConfig] answered on the destination, for
    the name of the service that [GetService] returned there. *)
Theorem Run_service_stamps_configuration (fuel : nat) (csS csD : Clientset W)
    (cS cD : MigrationClient W) (namespaceS namespaceD : string) (serviceS : Service)
    (s : Traced W) :
  let m := Run_service pkg fuel (traced_clientset Source csS) (traced_clientset Destination csD)
             (traced_client Source cS) (traced_client Destination cD)
             namespaceS namespaceD serviceS in
  stamped (events_of m s) = [] \/
  exists serviceD config,
    In (Called Destination (CGetService (Name (Service_ObjectMeta serviceS)) (Ok serviceD)))
       (events_of m s) /\
    In (Called Destination (CGetConfig (Name (Service_ObjectMeta serviceD)) (Ok config)))
       (events_of m s) /\
    Forall (fun uid => uid = UID (Configuration_ObjectMeta config)) (stamped (events_of m s)).
Proof.
  intros m.
  set (Q := fun d : list Event =>
    stamped d = [] \/
    exists serviceD config,
      In (Called Destination (CGetService (Name (Service_ObjectMeta serviceS)) (Ok serviceD))) d /\
      In (Called Destination (CGetConfig (Name (Service_ObjectMeta serviceD)) (Ok config))) d /\
      Forall (fun uid => uid = UID (Configuration_ObjectMeta config)) (stamped d)).
  assert (Q []) as Hnil by (by left).
  assert (forall d1 d2, Forall (fun e => quiet e = true) d1 -> Q d2 -> Q (d1 ++ d2)) as Happ.
  { intros d1 d2 Hq [Hs | (serviceD & config & Hsvc & Hcfg & Hs)].
    - left. unfold stamped. rewrite omap_app. fold (stamped d1). fold (stamped d2).
      by rewrite (stamped_quiet _ Hq), Hs.
    - right. exists serviceD, config. split; [apply in_or_app; by right |].
      split; [apply in_or_app; by right |].
      unfold stamped. rewrite omap_app. fold (stamped d1). fold (stamped d2).
      by rewrite (stamped_quiet _ Hq). }
  apply (emits_run m (fun _ d => Q d) s). unfold m, Run_service. cbv zeta.
  apply emits_after; [done | done | unfold getConfigmap; only_auto |]. intros [configmapS err].
  apply emits_after; [done | done | unfold check, os_Exit; only_auto |]. intros _.
  apply emits_after; [done | done | unfold createConfigmap, check, os_Exit; only_auto |].
  intros _.
  apply emits_after; [done | done | unfold createService; only_auto |]. intros err'.
  apply emits_after; [done | done | unfold check, os_Exit; only_auto |]. intros _.
  intros s0 o s' E.
  apply bind_inv in E as [(r & s1 & E1 & E) | (why & E1 & ->)];
    trace_cbn_in E1; apply call_inv in E1 as (a & Ho & Ht1); [| discriminate Ho].
  injection Ho as <-. destruct r as [serviceD | e].
  2: { apply stop_inv in E as [-> ->]. eexists. split; [exact Ht1 |]. by left. }
  apply bind_inv in E as [([config err''] & s2 & E2 & E) | (why & E2 & ->)];
    destruct (emits_and _ _ _ (getConfig_emits pkg fuel cD Destination _)
                (getConfig_events pkg fuel cD Destination _) _ _ _ E2)
      as (d2 & Ht2 & (o2 & Hrounds & Ho2) & Hq2); unfold only in Hq2.
  2: { eexists. split; [by rewrite Ht2, Ht1, <- app_assoc |]. left.
       cbn. apply stamped_quiet, config_event_quiet, Hq2. }
  destruct o2 as [v | why]; [| discriminate Ho2].
  destruct (getConfig_rounds_returned _ _ _ _ _ _ _ Hrounds) as (es & r & Hd2 & _ & ->).
  apply bind_inv in E as [([] & s3 & E3 & E) | (why & E3 & ->)];
    apply check_inv in E3 as [Hc ->].
  2: { eexists. split; [by rewrite Ht2, Ht1, <- app_assoc |]. left.
       cbn. apply stamped_quiet, config_event_quiet, Hq2. }
  destruct config as [config |].
  2: { apply stop_inv in E as [-> ->]. eexists. split; [by rewrite Ht2, Ht1, <- app_assoc |].
       left. cbn. apply stamped_quiet, config_event_quiet, Hq2. }
  assert (r = Ok config) as -> by (destruct r; injection Ho2 as ?; congruence).
  apply bind_inv in E as [(r' & s4 & E4 & E) | (why & E4 & ->)];
    trace_cbn_in E4; apply call_inv in E4 as (a & Ho & Ht4); [| discriminate Ho].
  injection Ho as <-. destruct r' as [revisionsS | e].
  2: { apply stop_inv in E as [-> ->]. eexists.
       split; [by rewrite Ht4, Ht2, Ht1, <- !app_assoc |]. left.
       cbn. unfold stamped. rewrite omap_app. fold (stamped d2).
       by rewrite (stamped_quiet _ (config_event_quiet _ Hq2)). }
  destruct (Run_revisions_emits _ _ _ _ _ _ _ _ _ _ E) as (d5 & Ht5 & Hreplay).
  eexists. split; [by rewrite Ht5, Ht4, Ht2, Ht1, <- !app_assoc |]. right.
  exists serviceD, config. split; [by left |]. split.
  - right. cbn [app]. apply in_or_app. left. rewrite Hd2. apply in_or_app. right. by left.
  - cbn. unfold stamped. rewrite !omap_app. fold (stamped d2). fold (stamped d5).
    rewrite (stamped_quiet _ (config_event_quiet _ Hq2)). cbn.
    exact (replay_stamped _ _ _ _ _ _ _ _ Hreplay).
Qed.

End MoreRun.

(** The run of a service starts with the lookup of its configmap on the
    source, and no other call of it is one of the migration pass. *)
Lemma service_run_shape pkg fuel namespaceS namespaceD serviceS o d :
  service_run pkg fuel namespaceS namespaceD serviceS o d ->
  exists r rest,
    d = Called Source (CConfigMapsGet namespaceS (configmap_of serviceS) r) :: rest /\
    Forall (fun e => pass_level e = false) rest.
Proof.
  assert (forall o d, configmap_run namespaceS namespaceD (Name (Service_ObjectMeta serviceS)) o d ->
            exists r rest,
              d = Called Source (CConfigMapsGet namespaceS (configmap_of serviceS) r) :: rest /\
              Forall (fun e => pass_level e = false) rest) as Hcm.
  { intros o' d' [e He | e He | cm r]; eexists _, _; (split; [reflexivity |]);
      by repeat constructor. }
  assert (forall force o d, createService_run Destination serviceS force o d ->
            Forall (fun e => pass_level e = false) d) as Hcs.
  { intros force o' d' []; by repeat constructor. }
  assert (forall d, Forall (fun e => config_event e = true) d ->
            Forall (fun e => pass_level e = false) d) as Hcfg.
  { intros d' Hd. eapply Forall_impl; [exact Hd |]. by intros [sd [] |]. }
  assert (forall fuel uid latest revs o d, replay pkg Destination fuel uid latest revs o d ->
            Forall (fun e => pass_level e = false) d) as Hrp.
  { intros fuel' uid latest revs o' d' Hd. apply replay_events in Hd.
    eapply Forall_impl; [exact Hd |]. by intros [sd [] |]. }
  destruct 1 as [why d Hc | d1 d2 e Hc Hs | d1 d2 e Hc Hs
                | d1 d2 sD d3 why Hc Hs Hd3 | d1 d2 sD d3 e Hc Hs Hd3
                | d1 d2 sD d3 revisionsS configUUID o d4 Hc Hs Hd3 Hreplay];
    destruct (Hcm _ _ Hc) as (r & rest & -> & Hrest);
    try pose proof (Hcs _ _ _ Hs) as H2; try pose proof (Hcfg _ Hd3) as H3;
    try pose proof (Hrp _ _ _ _ _ _ Hreplay) as H4;
    eexists r, _; (split; [cbn [app]; reflexivity |]);
    repeat first [ done | apply Forall_app; split | apply Forall_cons; split ].
Qed.

(** The services are migrated in the order of the list, and the loop stops
    at the first one that fails. *)
Lemma services_run_order pkg fuel namespaceS namespaceD services o d :
  services_run pkg fuel namespaceS namespaceD services o d ->
  exists started later,
    services = started ++ later /\
    lookups d = map configmap_of started /\
    Forall (fun e => pass_level e = true -> exists ns n r,
              e = Called Source (CConfigMapsGet ns n r)) d /\
    (o = Returned tt -> later = []).
Proof.
  assert (forall d, Forall (fun e => pass_level e = false) d ->
            lookups d = [] /\
            Forall (fun e => pass_level e = true -> exists ns n r,
                      e = Called Source (CConfigMapsGet ns n r)) d) as Hrest.
  { intros d0. induction 1 as [| e d1 He _ [IH1 IH2]]; [done |]. split.
    - by destruct e as [[] [] |].
    - constructor; [congruence | done]. }
  induction 1 as [| service rest d d' o Hs Hrun (started & later & -> & Hl & Hp & Hret)
                 | service rest why d Hs];
    [by exists [], [] | |];
    destruct (service_run_shape _ _ _ _ _ _ _ Hs) as (r & tail & -> & Htail);
    destruct (Hrest _ Htail) as [Hl1 Hp1].
  - exists (service :: started), later. split; [done |]. split; [| split; [| done]].
    + unfold lookups in *. cbn. rewrite omap_app, Hl1, Hl. done.
    + constructor; [eauto |]. by apply Forall_app.
  - exists [service], rest. split; [done |]. split; [| split; [| done]].
    + unfold lookups in *. cbn. by rewrite Hl1.
    + constructor; [eauto | done].
Qed.

Lemma services_run_no_preflight pkg fuel namespaceS namespaceD services o d ev e :
  services_run pkg fuel namespaceS namespaceD services o d ->
  In ev d -> preflight_failure e ev -> False.
Proof.
  intros Hrun Hin Hev.
  destruct (services_run_order _ _ _ _ _ _ _ Hrun) as (_ & _ & _ & _ & Hp & _).
  rewrite List.Forall_forall in Hp. destruct (Hp ev Hin) as (ns & n & r & ->).
  - by destruct ev as [sd [] |].
  - exact Hev.
Qed.

(** The run of a service is the run of its configmap stage and, when that
    stage returns, what follows from the existence check on: no configmap is
    created there. *)
Lemma service_run_split pkg fuel namespaceS namespaceD serviceS o d :
  service_run pkg fuel namespaceS namespaceD serviceS o d ->
  exists o1 d1 rest,
    configmap_run namespaceS namespaceD (Name (Service_ObjectMeta serviceS)) o1 d1 /\
    d = d1 ++ rest /\
    Forall (fun e => is_ConfigMapsCreate e = false) rest /\
    match o1 with
    | Stopped why => rest = [] /\ o = Stopped why
    | Returned _ =>
        exists r tl,
          rest = Called Destination (CServiceExists (Name (Service_ObjectMeta serviceS)) r) :: tl
    end.
Proof.
  assert (forall force o d, createService_run Destination serviceS force o d ->
            Forall (fun e => is_ConfigMapsCreate e = false) d /\
            exists r tl,
              d = Called Destination (CServiceExists (Name (Service_ObjectMeta serviceS)) r) :: tl)
    as Hcs.
  { intros force o' d' []; (split; [by repeat constructor | eauto]). }
  assert (forall d, Forall (fun e => config_event e = true) d ->
            Forall (fun e => is_ConfigMapsCreate e = false) d) as Hcfg.
  { intros d' Hd. eapply Forall_impl; [exact Hd |]. by intros [sd [] |]. }
  assert (forall fuel uid latest revs o d, replay pkg Destination fuel uid latest revs o d ->
            Forall (fun e => is_ConfigMapsCreate e = false) d) as Hrp.
  { intros fuel' uid latest revs o' d' Hd. apply replay_events in Hd.
    eapply Forall_impl; [exact Hd |]. by intros [sd [] |]. }
  destruct 1 as [why d Hc | d1 d2 e Hc Hs | d1 d2 e Hc Hs
                | d1 d2 sD d3 why Hc Hs Hd3 | d1 d2 sD d3 e Hc Hs Hd3
                | d1 d2 sD d3 revisionsS configUUID o d4 Hc Hs Hd3 Hreplay].
  { exists (Stopped why), d, []. by rewrite app_nil_r. }
  all: destruct (Hcs _ _ _ Hs) as (H2 & r & tl & Hd2);
    try pose proof (Hcfg _ Hd3) as H3; try pose proof (Hrp _ _ _ _ _ _ Hreplay) as H4;
    eexists (Returned tt), d1, _; (split; [exact Hc |]); (split; [reflexivity |]);
    (split; [| rewrite Hd2; cbn [app]; eauto]).
  all: repeat first [ done | apply Forall_app; split | apply Forall_cons; split ].
Qed.

Section MorePassClaims.
Context {W : Type} `{Clock W}.
Variable pkg : Package.

(** X16.  The migration pass takes the services in the order in which the
    source listed them and stops at the first one whose migration fails: the
    configmaps looked up on the source are those of a prefix of the list, one
    lookup for each service and in that order, and those of the whole list
    when the pass comes to its end. *)
Theorem Run_migration_in_order (fuel : nat) (csS csD : Clientset W)
    (cS cD : MigrationClient W) (namespaceS namespaceD : string) (s : Traced W)
    (services : list Service) :
  let m := Run_migration pkg fuel (traced_clientset Source csS)
             (traced_clientset Destination csD) (traced_client Source cS)
             (traced_client Destination cD) namespaceS namespaceD in
  In (Called Source (CListService (Ok services))) (events_of m s) ->
  exists started later,
    services = started ++ later /\
    lookups (events_of m s) = map configmap_of started /\
    (outcome_of m s = Returned tt -> later = []).
Proof.
  intros m Hin.
  pose proof (emits_run m _ s
    (Run_migration_emits pkg fuel csS csD cS cD namespaceS namespaceD)) as Hrun.
  fold m in Hrun.
  destruct Hrun as [e | r e Hr | r e Hr | r services' why d Hr Hrun
                   | r services' d after Hr Hrun].
  - in_cases Hin.
  - in_cases Hin.
  - in_cases Hin.
  - destruct (services_run_order _ _ _ _ _ _ _ Hrun) as (started & later & -> & Hl & Hp & _).
    in_cases Hin.
    + injection Hin as <-. exists started, later. split; [done |]. split; [exact Hl | done].
    + rewrite List.Forall_forall in Hp. by destruct (Hp _ Hin eq_refl) as (? & ? & ? & ?).
  - destruct (services_run_order _ _ _ _ _ _ _ Hrun) as (started & later & -> & Hl & Hp & Hret).
    assert (lookups (d ++ [Called Destination (CPrintServiceWithRevisions "destination" after)])
            = map configmap_of started) as Hl'.
    { unfold lookups in *. rewrite omap_app, Hl. cbn. by rewrite app_nil_r. }
    in_cases Hin.
    + injection Hin as <-. exists started, later. split; [done |]. split; [exact Hl' |].
      intros _. by apply Hret.
    + rewrite List.Forall_forall in Hp. by destruct (Hp _ Hin eq_refl) as (? & ? & ? & ?).
Qed.

(** X17.  The calls that the migration pass makes itself are hard gates: a
    snapshot of the destination, the check of the destination namespace or the
    listing of the source services that fails is the last call of the pass,
    which exits with status 1 and the error of that call. *)
Theorem Run_migration_preflight (fuel : nat) (csS csD : Clientset W)
    (cS cD : MigrationClient W) (namespaceS namespaceD : string) (s : Traced W)
    (ev : Event) (e : error) :
  let m := Run_migration pkg fuel (traced_clientset Source csS)
             (traced_clientset Destination csD) (traced_client Source cS)
             (traced_client Destination cD) namespaceS namespaceD in
  In ev (events_of m s) -> preflight_failure e ev ->
  outcome_of m s = Stopped (Exited 1 (Error e)) /\ last (events_of m s) = Some ev.
Proof.
  intros m Hin Hev.
  pose proof (emits_run m _ s
    (Run_migration_emits pkg fuel csS csD cS cD namespaceS namespaceD)) as Hrun.
  fold m in Hrun.
  destruct Hrun as [e0 | r e0 Hr | r e0 Hr | r services' why d Hr Hrun
                   | r services' d after Hr Hrun].
  - in_cases Hin; subst ev; cbn in Hev. by injection Hev as ->.
  - in_cases Hin; subst ev; cbn in Hev; [discriminate Hev |].
    rewrite Hr in Hev. by injection Hev as ->.
  - in_cases Hin; subst ev; cbn in Hev; [discriminate Hev | congruence |].
    by injection Hev as ->.
  - in_cases Hin; try (subst ev; cbn in Hev; congruence).
    destruct (services_run_no_preflight _ _ _ _ _ _ _ _ _ Hrun Hin Hev).
  - in_cases Hin; try (subst ev; cbn in Hev; congruence).
    + destruct (services_run_no_preflight _ _ _ _ _ _ _ _ _ Hrun Hin Hev).
    + subst ev. cbn in Hev. subst after. split; [done |].
      by rewrite !last_cons, last_snoc.
Qed.

(** X18.  Without [--force], [Run] deletes nothing on the destination,
    however the run goes; when [--delete] is not given either, it calls
    [DeleteService] nowhere. *)
Theorem Run_deletes_on_request_only (fuel : nat) (csS csD : Clientset W)
    (cS cD : MigrationClient W) (namespaceS namespaceD : string) (s : Traced W) :
  let m := Run_with_clients pkg fuel (traced_clientset Source csS)
             (traced_clientset Destination csD) (traced_client Source cS)
             (traced_client Destination cD) namespaceS namespaceD in
  Force (migrateFlags pkg) = false ->
  Forall (fun e => deletes Destination e = false) (events_of m s) /\
  (Delete (migrateFlags pkg) = false -> count is_DeleteService (events_of m s) = O).
Proof.
  intros m Hforce. split.
  - apply (emits_run m (only (fun e => deletes Destination e = false)) s).
    unfold m, Run_with_clients, Run_migration, Run_service, Run_revisions, migrateRevision,
      migrateRevision_body, set_label, getConfig, getConfig_body, createService,
      createConfigmap, getConfigmap, getOrCreateNamespace, deleteAllServices, check, os_Exit,
      panic.
    rewrite Hforce. cbv beta iota zeta. cbn [negb]. only_auto.
  - intros Hdelete. apply count_none.
    apply (emits_run m (only (fun e => is_DeleteService e = false)) s).
    unfold m, Run_with_clients, Run_migration, Run_service, Run_revisions, migrateRevision,
      migrateRevision_body, set_label, getConfig, getConfig_body, createService,
      createConfigmap, getConfigmap, getOrCreateNamespace, deleteAllServices, check, os_Exit,
      panic.
    rewrite Hforce, Hdelete. cbv beta iota zeta. cbn [negb]. only_auto.
Qed.

(** X19.  The migration of a service starts with the lookup of its
    configmap on the source.  A lookup that fails with NotFound is no error:
    no configmap is created and the migration goes on with the existence
    check of the service; a lookup that fails otherwise ends the run with
    that error.  A configmap that was found is copied to the destination
    namespace by the next call, and nowhere else; a copy that fails ends the
    run with its error, and after one that succeeds the migration goes on
    with the existence check. *)
Theorem Run_service_configmap (fuel : nat) (csS csD : Clientset W)
    (cS cD : MigrationClient W) (namespaceS namespaceD : string) (serviceS : Service)
    (s : Traced W) :
  let m := Run_service pkg fuel (traced_clientset Source csS) (traced_clientset Destination csD)
             (traced_client Source cS) (traced_client Destination cD)
             namespaceS namespaceD serviceS in
  let proceeds rest :=
    exists r tl,
      rest = Called Destination (CServiceExists (Name (Service_ObjectMeta serviceS)) r) :: tl in
  exists r rest,
    events_of m s = Called Source (CConfigMapsGet namespaceS (configmap_of serviceS) r) :: rest /\
    match r with
    | Err e =>
        count is_ConfigMapsCreate rest = O /\
        if IsNotFound (Some e) then proceeds rest
        else rest = [] /\ outcome_of m s = Stopped (Exited 1 (Error e))
    | Ok cm =>
        exists r' rest',
          rest = Called Destination
                   (CConfigMapsCreate namespaceD (configmap_copy namespaceD cm) r') :: rest' /\
          count is_ConfigMapsCreate rest' = O /\
          match err_of r' with
          | Some e => rest' = [] /\ outcome_of m s = Stopped (Exited 1 (Error e))
          | None => proceeds rest'
          end
    end.
Proof.
  intros m proceeds.
  pose proof (emits_run m _ s
    (Run_service_emits pkg fuel csS csD cS cD namespaceS namespaceD serviceS)) as Hrun.
  fold m in Hrun.
  destruct (service_run_split _ _ _ _ _ _ _ Hrun) as (o1 & d1 & rest & Hcm & -> & Hrest & Ho).
  apply count_none in Hrest.
  destruct Hcm as [e He | e He | cm r'].
  - exists (Err e), rest. split; [done |]. split; [done |]. by rewrite He.
  - exists (Err e), rest. split; [done |]. split; [done |]. by rewrite He.
  - exists (Ok cm), (Called Destination
                       (CConfigMapsCreate namespaceD (configmap_copy namespaceD cm) r') :: rest).
    split; [done |]. exists r', rest. split; [done |]. split; [done |].
    by destruct (err_of r').
Qed.

End MorePassClaims.

(** ** The configuration gate *)

(** An answer of [GetConfig] that is not retried ends the loop of
    [getConfig]: it is the last call and its error is returned. *)
Lemma getConfig_rounds_fatal pkg side serviceName fuel retries o d sd n e :
  rounds (getConfig_round pkg side serviceName) fuel retries o d ->
  In (Called sd (CGetConfig n (Err e))) d ->
  IsNotFound (Some e) = false ->
  o = Returned (Some (None, Some e)) /\ last d = Some (Called sd (CGetConfig n (Err e))).
Proof.
  induction 1 as [i | fuel i i' d d' o Hb Hr IH | fuel i d Hb
                 | fuel i r d Hb | fuel i why d Hb]; intros Hin Hf.
  - destruct Hin.
  - apply in_app_or in Hin as [Hin | Hin].
    + inversion Hb; subst. in_cases Hin. inversion Hin; subst. congruence.
    + destruct (IH Hin Hf) as [-> Hlast]. split; [done |]. by rewrite last_app, Hlast.
  - inversion Hb.
  - inversion Hb; subst; in_cases Hin. by inversion Hin; subst.
  - inversion Hb.
Qed.

Section ConfigurationGate.
Context {W : Type} `{Clock W}.
Variable pkg : Package.

(** A computation that makes none of the calls [Q] speaks about can be put
    in front of one that [Q] describes. *)
Lemma emits_prefix {A B} (P : Event -> Prop) (m : Go (Traced W) A)
    (k : A -> Go (Traced W) B) (Q : Outcome B -> list Event -> Prop) :
  (forall why d, Forall P d -> Q (Stopped why) d) ->
  (forall o d1 d2, Forall P d1 -> Q o d2 -> Q o (d1 ++ d2)) ->
  emits m (only P) ->
  (forall a, emits (k a) Q) ->
  emits (m ≫= k) Q.
Proof.
  intros Hstop Happ Hm Hk. eapply emits_mono; [apply (emits_bind _ _ _ _ Hm Hk) |].
  intros o d [(a & d1 & d2 & -> & H1 & H2) | (why & -> & H1)].
  - by apply Happ.
  - by apply Hstop.
Qed.

(** X20.  The lookup of the configuration is a hard gate, and [Run] reads
    [config.UID] only behind it.  A [GetConfig] that fails with an error
    other than NotFound is the last call of the migration of the service,
    which exits with status 1 and that error; and the revisions of the
    source are listed, which is the next thing [Run] does after reading the
    UID, only directly after a [GetConfig] that answered a configuration. *)
Theorem Run_service_configuration_gate (fuel : nat) (csS csD : Clientset W)
    (cS cD : MigrationClient W) (namespaceS namespaceD : string) (serviceS : Service)
    (s : Traced W) :
  let m := Run_service pkg fuel (traced_clientset Source csS) (traced_clientset Destination csD)
             (traced_client Source cS) (traced_client Destination cD)
             namespaceS namespaceD serviceS in
  (forall sd n e,
     In (Called sd (CGetConfig n (Err e))) (events_of m s) ->
     IsNotFound (Some e) = false ->
     outcome_of m s = Stopped (Exited 1 (Error e)) /\
     last (events_of m s) = Some (Called sd (CGetConfig n (Err e)))) /\
  (forall sd n r,
     In (Called sd (CListRevisionByService n r)) (events_of m s) ->
     exists n' config pre post,
       events_of m s =
         pre ++ Called Destination (CGetConfig n' (Ok config)) ::
                Called sd (CListRevisionByService n r) :: post).
Proof.
  intros m.
  set (Q := fun (o : Outcome unit) (d : list Event) =>
    (forall sd n e,
       In (Called sd (CGetConfig n (Err e))) d ->
       IsNotFound (Some e) = false ->
       o = Stopped (Exited 1 (Error e)) /\ last d = Some (Called sd (CGetConfig n (Err e)))) /\
    (forall sd n r,
       In (Called sd (CListRevisionByService n r)) d ->
       exists n' config pre post,
         d = pre ++ Called Destination (CGetConfig n' (Ok config)) ::
                    Called sd (CListRevisionByService n r) :: post)).
  set (P := fun e : Event => reads_configuration e = false).
  assert (forall d ev, Forall P d -> In ev d -> reads_configuration ev = true -> False) as Hnone.
  { intros d ev Hd Hin Hev. rewrite List.Forall_forall in Hd.
    specialize (Hd _ Hin). unfold P in Hd. congruence. }
  assert (forall why d, Forall P d -> Q (Stopped why) d) as Hstop.
  { intros why d Hd. split.
    - intros sd n e Hin _. destruct (Hnone _ _ Hd Hin eq_refl).
    - intros sd n r Hin. destruct (Hnone _ _ Hd Hin eq_refl). }
  assert (forall o d1 d2, Forall P d1 -> Q o d2 -> Q o (d1 ++ d2)) as Happ.
  { intros o d1 d2 Hd [HA HB]. split.
    - intros sd n e Hin Hf. apply in_app_or in Hin as [Hin | Hin];
        [destruct (Hnone _ _ Hd Hin eq_refl) |].
      destruct (HA _ _ _ Hin Hf) as [-> Hlast]. split; [done |]. by rewrite last_app, Hlast.
    - intros sd n r Hin. apply in_app_or in Hin as [Hin | Hin];
        [destruct (Hnone _ _ Hd Hin eq_refl) |].
      destruct (HB _ _ _ Hin) as (n' & config & pre & post & ->).
      exists n', config, (d1 ++ pre), post. by rewrite <- app_assoc. }
  apply (emits_run m Q s). unfold m, Run_service. cbv zeta.
  apply (emits_prefix P); [done | done | unfold getConfigmap; only_auto |].
  intros [configmapS err].
  apply (emits_prefix P); [done | done | unfold check, os_Exit; only_auto |]. intros _.
  apply (emits_prefix P);
    [done | done | unfold createConfigmap, check, os_Exit; only_auto |]. intros _.
  apply (emits_prefix P); [done | done | unfold createService; only_auto |]. intros err'.
  apply (emits_prefix P); [done | done | unfold check, os_Exit; only_auto |]. intros _.
  apply (emits_prefix P); [done | done | only_auto |]. intros [serviceD | e0].
  2: { eapply emits_mono; [apply emits_stop |]. intros o d [-> ->]. by apply Hstop. }
  clear Hstop Happ.
  intros s0 o s' E.
  apply bind_inv in E as [([config err''] & s2 & E2 & E) | (why & E2 & ->)];
    destruct (emits_and _ _ _ (getConfig_emits pkg fuel cD Destination _)
                (getConfig_events pkg fuel cD Destination _) _ _ _ E2)
      as (d2 & Ht2 & (o2 & Hrounds & Ho2) & Hq2); unfold only in Hq2.
  all: pose proof (fun sd n e => getConfig_rounds_fatal _ _ _ _ _ _ _ sd n e Hrounds) as Hfatal.
  all: assert (forall sd n r, ~ In (Called sd (CListRevisionByService n r)) d2) as Hnolist
    by (intros sd n r Hin; rewrite List.Forall_forall in Hq2; by pose proof (Hq2 _ Hin)).
  2: { exists d2. split; [exact Ht2 |]. split.
       - intros sd n e Hin Hf.
         destruct (Hfatal _ _ _ Hin Hf) as [-> _]. discriminate Ho2.
       - intros sd n r Hin. destruct (Hnolist _ _ _ Hin). }
  apply bind_inv in E as [([] & s3 & E3 & E) | (why & E3 & ->)];
    apply check_inv in E3 as [Hc ->].
  2: { exists d2. split; [exact Ht2 |]. split.
       - intros sd n e Hin Hf.
         destruct (Hfatal _ _ _ Hin Hf) as [-> Hlast]. injection Ho2 as -> ->.
         by injection Hc as ->.
       - intros sd n r Hin. destruct (Hnolist _ _ _ Hin). }
  destruct err'' as [e1 |]; [discriminate Hc |]. clear Hc.
  assert (forall sd n e, In (Called sd (CGetConfig n (Err e))) d2 ->
            IsNotFound (Some e) = false -> False) as Hclean.
  { intros sd n e Hin Hf.
    destruct (Hfatal _ _ _ Hin Hf) as [-> _]. discriminate Ho2. }
  destruct config as [config |].
  2: { apply stop_inv in E as [-> ->]. exists d2. split; [exact Ht2 |]. split.
       - intros sd n e Hin Hf. destruct (Hclean _ _ _ Hin Hf).
       - intros sd n r Hin. destruct (Hnolist _ _ _ Hin). }
  destruct o2 as [v | why]; [| discriminate Ho2].
  destruct (getConfig_rounds_returned _ _ _ _ _ _ _ Hrounds) as (es & r & Hd2 & _ & ->).
  assert (r = Ok config) as -> by (destruct r; injection Ho2 as ?; congruence).
  apply bind_inv in E as [(r' & s4 & E4 & E) | (why & E4 & ->)];
    trace_cbn_in E4; apply call_inv in E4 as (a & Ho & Ht4); [| discriminate Ho].
  injection Ho as <-. destruct r' as [revisionsS | e1].
  - destruct (Run_revisions_emits _ _ _ _ _ _ _ _ _ _ E) as (d5 & Ht5 & Hreplay).
    apply replay_events in Hreplay.
    exists (d2 ++ Called Source (CListRevisionByService (Name (Service_ObjectMeta serviceS))
                                   (Ok revisionsS)) :: d5).
    split; [by rewrite Ht5, Ht4, Ht2, <- !app_assoc |]. split.
    + intros sd n e Hin Hf. apply in_app_or in Hin as [Hin | Hin];
        [destruct (Hclean _ _ _ Hin Hf) |].
      destruct Hin as [Hin | Hin]; [discriminate Hin |].
      destruct (replay_event_in _ _ _ _ Hreplay Hin).
    + intros sd n r Hin. apply in_app_or in Hin as [Hin | Hin];
        [destruct (Hnolist _ _ _ Hin) |].
      destruct Hin as [Hin | Hin]; [| destruct (replay_event_in _ _ _ _ Hreplay Hin)].
      inversion Hin; subst. eexists _, config, _, d5.
      rewrite <- app_assoc. reflexivity.
  - apply stop_inv in E as [-> ->].
    exists (d2 ++ [Called Source (CListRevisionByService (Name (Service_ObjectMeta serviceS))
                                    (Err e1))]).
    split; [by rewrite Ht4, Ht2, <- !app_assoc |]. split.
    + intros sd n e Hin Hf. apply in_app_or in Hin as [Hin | Hin];
        [destruct (Hclean _ _ _ Hin Hf) |]. in_cases Hin.
    + intros sd n r Hin. apply in_app_or in Hin as [Hin | Hin];
        [destruct (Hnolist _ _ _ Hin) |]. in_cases Hin.
      inversion Hin; subst. eexists _, config, _, [].
      rewrite <- app_assoc. reflexivity.
Qed.

End ConfigurationGate.

Lemma append_length (x y : string) :
  String.length (x +:+ y) = (String.length x + String.length y)%nat.
Proof. induction x as [| ch x IH]; simpl; [reflexivity | f_equal; exact IH]. Qed.

Lemma append_cancel_r (a b c : string) : a +:+ c = b +:+ c -> a = b.
Proof.
  revert b. induction a as [| ch a IH]; intros [| ch' b] Heq.
  - reflexivity.
  - apply (f_equal String.length) in Heq. rewrite !append_length in Heq.
    simpl in Heq. lia.
  - apply (f_equal String.length) in Heq. rewrite !append_length in Heq.
    simpl in Heq. lia.
  - simpl in Heq. injection Heq as -> Heq. by rewrite (IH _ Heq).
Qed.

(** X13.  The name of the configmap of a service determines the service:
    two services with different names have different configmap names. *)
Theorem generateConfigmapName_injective (serviceName serviceName' : string) :
  generateConfigmapName serviceName = generateConfigmapName serviceName' ->
  serviceName = serviceName'.
Proof. apply append_cancel_r. Qed.

(** ** The properties above on the examples *)

(** X1 on the example: no kubeconfig for the source, neither flag nor
    environment variable. *)
Lemma Run_requires_inputs_witness :
  flag_or_env (KubeConfig (migrateFlags (Package_init More.no_flags))) "" = "" /\
  More.Run_with More.no_flags (fun _ => "") (start Sim.fresh) =
    (Stopped (Exited 1 ("cannot get source cluster kube config, please use --kubeconfig or export environment variable KUBECONFIG to set" +:+ newline)),
     start Sim.fresh).
Proof.
  assert (flag_or_env (KubeConfig (migrateFlags (Package_init More.no_flags))) "" = "") as H1
    by reflexivity.
  destruct (Run_requires_inputs (Package_init More.no_flags) Sim.BuildConfigFromFlags
              (fun side => Ok (traced_clientset side (Sim.clientset side)))
              (fun side => Ok side)
              (fun side _ => traced_client side (Sim.client side))
              (fun _ => "") 64 (start Sim.fresh) (or_introl H1))
    as (msg & Hrun & Hmsg & _).
  split; [exact H1 |]. rewrite <- (Hmsg H1). exact Hrun.
Defined.

(** X2 on the example: both kubeconfig flags are given. *)
Lemma Run_flags_override_environment_witness :
  KubeConfig (migrateFlags (Sim.pkg false false)) <> "" /\
  DestinationKubeConfig (migrateFlags (Sim.pkg false false)) <> "" /\
  Run (Sim.pkg false false) (fun _ => "") Sim.BuildConfigFromFlags
    (fun side => Ok (traced_clientset side (Sim.clientset side)))
    (fun side => Ok side)
    (fun side _ => traced_client side (Sim.client side)) 64 (start Sim.fresh) =
  Run (Sim.pkg false false) (fun _ => "nowhere.yml") Sim.BuildConfigFromFlags
    (fun side => Ok (traced_clientset side (Sim.clientset side)))
    (fun side => Ok side)
    (fun side _ => traced_client side (Sim.client side)) 64 (start Sim.fresh).
Proof.
  assert (KubeConfig (migrateFlags (Sim.pkg false false)) <> "") as H1 by discriminate.
  assert (DestinationKubeConfig (migrateFlags (Sim.pkg false false)) <> "") as H2
    by discriminate.
  exact (conj H1 (conj H2
    (Run_flags_override_environment (Sim.pkg false false) Sim.BuildConfigFromFlags
       (fun side => Ok (traced_clientset side (Sim.clientset side)))
       (fun side => Ok side)
       (fun side _ => traced_client side (Sim.client side))
       (fun _ => "") (fun _ => "nowhere.yml") 64 (start Sim.fresh) H1 H2))).
Defined.

(** X3 on the example: the kubeconfig of the source, taken from the
    environment, names a file that is not there. *)
Lemma Run_source_clients_failure_witness :
  Sim.BuildConfigFromFlags "" "nowhere.yml" =
    Err (errorString "stat nowhere.yml: no such file or directory") /\
  More.Run_with More.no_flags (fun _ => "nowhere.yml") (start Sim.fresh) =
    (Stopped (Exited 1 "stat nowhere.yml: no such file or directory"), start Sim.fresh).
Proof.
  assert (Sim.BuildConfigFromFlags "" "nowhere.yml" =
            Err (errorString "stat nowhere.yml: no such file or directory")) as H1
    by reflexivity.
  split; [exact H1 |].
  apply (Run_source_clients_failure (Package_init More.no_flags) Sim.BuildConfigFromFlags
           (fun side => Ok (traced_clientset side (Sim.clientset side)))
           (fun side => Ok side)
           (fun side _ => traced_client side (Sim.client side))
           (fun _ => "nowhere.yml") 64 (start Sim.fresh)
           (errorString "stat nowhere.yml: no such file or directory")).
  - discriminate.
  - discriminate.
  - discriminate.
  - discriminate.
  - left. exact H1.
Defined.

(** X4 on the example: the kubeconfig of the destination names a file that
    is not there. *)
Lemma Run_stops_before_destination_witness :
  events_of (More.Run_with More.lost_destination (fun _ => "")) (start Sim.fresh) =
    [Called Source (CPrintServiceWithRevisions "source" None)] /\
  outcome_of (More.Run_with More.lost_destination (fun _ => "")) (start Sim.fresh) =
    Stopped (Exited 1 "stat nowhere.yml: no such file or directory").
Proof.
  destruct (Run_stops_before_destination (Package_init More.lost_destination) (fun _ => "")
              Sim.BuildConfigFromFlags
              (fun side => Ok (traced_clientset side (Sim.clientset side)))
              (fun side => Ok side)
              (fun side _ => traced_client side (Sim.client side))
              64 (start Sim.fresh) (traced_clientset Source (Sim.clientset Source))
              (Sim.client Source)
              ltac:(discriminate) ltac:(discriminate) ltac:(discriminate) ltac:(discriminate)
              eq_refl) as [_ Hd].
  exact (Hd (errorString "stat nowhere.yml: no such file or directory") eq_refl eq_refl).
Defined.


(** X7 on the example: a fetch that is refused is not tried again. *)
Lemma migrateRevision_fatal_errors_witness :
  In (Called Destination (CGetRevision "foo-00002" (Err More.forbidden)))
     (events_of (Sim.migrate_revision 64 More.refused_get Sim.foo_00002)
        (start Sim.created_world)) /\
  IsNotFound (Some More.forbidden) = false /\
  outcome_of (Sim.migrate_revision 64 More.refused_get Sim.foo_00002)
    (start Sim.created_world) = Returned (Some More.forbidden) /\
  last (events_of (Sim.migrate_revision 64 More.refused_get Sim.foo_00002)
          (start Sim.created_world)) =
    Some (Called Destination (CGetRevision "foo-00002" (Err More.forbidden))).
Proof.
  assert (In (Called Destination (CGetRevision "foo-00002" (Err More.forbidden)))
            (events_of (Sim.migrate_revision 64 More.refused_get Sim.foo_00002)
               (start Sim.created_world))) as H1 by in_at 0%nat.
  assert (IsNotFound (Some More.forbidden) = false) as H2 by reflexivity.
  destruct (migrateRevision_fatal_errors (Sim.pkg false false) 64 More.refused_get
              Destination Sim.foo_00002 Sim.foo "uid-foo" "foo-00002"
              (start Sim.created_world) eq_refl) as [Hget _].
  exact (conj H1 (conj H2 (Hget _ _ H1 H2))).
Defined.

(** X8 on the example. *)
Lemma migrateRevision_attempts_witness :
  Name (Revision_ObjectMeta Sim.foo_00002) = "foo-00002" /\
  exists attempts,
    events_of (Sim.migrate_revision 64 (Sim.client Destination) Sim.foo_00002)
      (start Sim.created_world) = concat attempts /\
    Forall (attempt Destination Sim.foo_00002) attempts.
Proof.
  split; [reflexivity |].
  exact (migrateRevision_attempts (Sim.pkg false false) 64 (Sim.client Destination)
           Destination Sim.foo_00002 Sim.foo "uid-foo" "foo-00002"
           (start Sim.created_world) eq_refl).
Defined.

(** X9 on the example: the destination revision already carries the
    generation of the source. *)
Lemma migrateRevision_reconcile_idempotent_witness :
  outcome_of (Sim.migrate_revision 64 (Sim.client Destination) Sim.foo_00002)
    (start More.reconciled_world) = Returned None /\
  exists pre fetched submitted,
    events_of (Sim.migrate_revision 64 (Sim.client Destination) Sim.foo_00002)
      (start More.reconciled_world) =
      pre ++ [Called Destination (CGetRevision "foo-00002" (Ok fetched));
              Called Destination (CUpdateRevision submitted None)] /\
    (forall labels,
       Labels (Revision_ObjectMeta fetched) = Some labels ->
       labels !! generation_label =
         Some (map_index (Labels (Revision_ObjectMeta Sim.foo_00002)) generation_label) ->
       submitted = fetched).
Proof.
  assert (outcome_of (Sim.migrate_revision 64 (Sim.client Destination) Sim.foo_00002)
            (start More.reconciled_world) = Returned None) as H1 by (vm_compute; reflexivity).
  split; [exact H1 |].
  exact (migrateRevision_reconcile_idempotent (Sim.pkg false false) 64 (Sim.client Destination)
           Destination Sim.foo_00002 Sim.foo "uid-foo" "foo-00002"
           (start More.reconciled_world) eq_refl H1).
Defined.

(** X10 on the example: the configuration shows at the fourth request. *)
Lemma getConfig_returns_last_answer_witness :
  exists config es r,
    outcome_of (getConfig (Sim.pkg false false) 64 (traced_client Destination More.lagging)
                  "foo") (start 0%nat) = Returned (Some config, None) /\
    events_of (getConfig (Sim.pkg false false) 64 (traced_client Destination More.lagging)
                 "foo") (start 0%nat) =
      flat_map (fun e => [Called Destination (CGetConfig "foo" (Err e)); Slept time_Second]) es
      ++ [Called Destination (CGetConfig "foo" r)] /\
    r = Ok config.
Proof.
  eexists.
  assert (outcome_of (getConfig (Sim.pkg false false) 64
                        (traced_client Destination More.lagging) "foo") (start 0%nat)
          = Returned (Some _, None)) as H1 by (vm_compute; reflexivity).
  destruct (getConfig_returns_last_answer (Sim.pkg false false) 64 More.lagging Destination
              "foo" (start 0%nat) _ H1) as (es & r & Hev & _ & Hv).
  exists es, r. split; [exact H1 |]. split; [exact Hev |].
  destruct r as [config' | e]; [by injection Hv as -> | discriminate Hv].
Defined.

(** X11 on the example: the delete of [foo] is refused. *)
Lemma deleteAllServices_stops_at_failure_witness :
  outcome_of (deleteAllServices (traced_client Source (Sim.stuck_delete (Sim.client Source)))
                true) (start Sim.fresh) =
    Returned (Some (StatusError StatusReasonUnknown "delete refused")) /\
  (events_of (deleteAllServices (traced_client Source (Sim.stuck_delete (Sim.client Source)))
                true) (start Sim.fresh) =
     [Called Source (CListService (Err (StatusError StatusReasonUnknown "delete refused")))] \/
   exists done service later,
     events_of (deleteAllServices (traced_client Source (Sim.stuck_delete (Sim.client Source)))
                  true) (start Sim.fresh) =
       Called Source (CListService (Ok (done ++ service :: later))) ::
       map (fun svc => Called Source (CDeleteService (Name (Service_ObjectMeta svc)) None)) done ++
       [Called Source (CDeleteService (Name (Service_ObjectMeta service))
                         (Some (StatusError StatusReasonUnknown "delete refused")))]).
Proof.
  assert (outcome_of (deleteAllServices
                        (traced_client Source (Sim.stuck_delete (Sim.client Source))) true)
            (start Sim.fresh) =
          Returned (Some (StatusError StatusReasonUnknown "delete refused"))) as H1
    by (vm_compute; reflexivity).
  split; [exact H1 |].
  exact (proj2 (deleteAllServices_stops_at_failure (Sim.stuck_delete (Sim.client Source))
                  Source true (start Sim.fresh) _ H1)).
Defined.

(** X13 on the example. *)
Lemma generateConfigmapName_injective_witness :
  generateConfigmapName "foo" = "foo-config" /\
  forall serviceName, generateConfigmapName serviceName = "foo-config" -> serviceName = "foo".
Proof.
  split; [reflexivity |]. intros serviceName Hname.
  exact (generateConfigmapName_injective serviceName "foo" Hname).
Defined.

(** X16 on the example: [bar] is already on the destination, so the pass
    stops there and [foo], which comes after it, is not looked at. *)
Lemma Run_migration_in_order_witness :
  In (Called Source (CListService (Ok [More.bar; Sim.foo])))
     (events_of (More.pass false) (start More.two_services)) /\
  lookups (events_of (More.pass false) (start More.two_services)) = ["bar-config"] /\
  exists started later,
    [More.bar; Sim.foo] = started ++ later /\
    lookups (events_of (More.pass false) (start More.two_services)) =
      map configmap_of started /\
    (outcome_of (More.pass false) (start More.two_services) = Returned tt -> later = []).
Proof.
  assert (In (Called Source (CListService (Ok [More.bar; Sim.foo])))
            (events_of (More.pass false) (start More.two_services))) as H1 by in_at 2%nat.
  split; [exact H1 |]. split; [vm_compute; reflexivity |].
  exact (Run_migration_in_order (Sim.pkg false false) 64 (Sim.clientset Source)
           (Sim.clientset Destination) (Sim.client Source) (Sim.client Destination)
           "default" "default" (start More.two_services) [More.bar; Sim.foo] H1).
Defined.

(** X17 on the example: the namespace of the destination is not there. *)
Lemma Run_migration_preflight_witness :
  In (Called Destination (CNamespacesGet "default" (Err (Sim.not_found "default"))))
     (events_of (More.pass false) (start Sim.no_namespace)) /\
  outcome_of (More.pass false) (start Sim.no_namespace) =
    Stopped (Exited 1 (Error (Sim.not_found "default"))) /\
  last (events_of (More.pass false) (start Sim.no_namespace)) =
    Some (Called Destination (CNamespacesGet "default" (Err (Sim.not_found "default")))).
Proof.
  assert (In (Called Destination (CNamespacesGet "default" (Err (Sim.not_found "default"))))
            (events_of (More.pass false) (start Sim.no_namespace))) as H1 by in_at 1%nat.
  split; [exact H1 |].
  exact (Run_migration_preflight (Sim.pkg false false) 64 (Sim.clientset Source)
           (Sim.clientset Destination) (Sim.client Source) (Sim.client Destination)
           "default" "default" (start Sim.no_namespace) _ (Sim.not_found "default") H1 eq_refl).
Defined.

(** X18 on the example: [foo] is already on the destination and stays. *)
Lemma Run_deletes_on_request_only_witness :
  Force (migrateFlags (Sim.pkg false false)) = false /\
  Forall (fun e => deletes Destination e = false)
    (events_of (Sim.run false false) (start Sim.taken)) /\
  count is_DeleteService (events_of (Sim.run false false) (start Sim.taken)) = O.
Proof.
  destruct (Run_deletes_on_request_only (Sim.pkg false false) 64 (Sim.clientset Source)
              (Sim.clientset Destination) (Sim.client Source) (Sim.client Destination)
              "default" "default" (start Sim.taken) eq_refl) as [Hd Hc].
  exact (conj eq_refl (conj Hd (Hc eq_refl))).
Defined.

(** X20 on the example: reading the configuration of [foo] is refused. *)
Lemma Run_service_configuration_gate_witness :
  In (Called Destination (CGetConfig "foo" (Err More.forbidden)))
     (events_of More.migrate_foo_refused (start Sim.fresh)) /\
  IsNotFound (Some More.forbidden) = false /\
  outcome_of More.migrate_foo_refused (start Sim.fresh) =
    Stopped (Exited 1 (Error More.forbidden)) /\
  last (events_of More.migrate_foo_refused (start Sim.fresh)) =
    Some (Called Destination (CGetConfig "foo" (Err More.forbidden))).
Proof.
  assert (In (Called Destination (CGetConfig "foo" (Err More.forbidden)))
            (events_of More.migrate_foo_refused (start Sim.fresh))) as H1 by in_at 5%nat.
  assert (IsNotFound (Some More.forbidden) = false) as H2 by reflexivity.
  destruct (Run_service_configuration_gate (Sim.pkg false false) 64 (Sim.clientset Source)
              (Sim.clientset Destination) (Sim.client Source) More.refused_config
              "default" "default" Sim.foo (start Sim.fresh)) as [Hgate _].
  exact (conj H1 (conj H2 (Hgate _ _ _ H1 H2))).
Defined.

(** X21 on the example: the default bounds and a budget of 64 rounds. *)
Lemma migrateRevision_returns_witness :
  (Z.to_nat (MaxGetRetries (Sim.pkg false false)) +
   Z.to_nat (MaxUpdateRetries (Sim.pkg false false)) < 64)%nat /\
  outcome_of (Sim.migrate_revision 64 (Sim.lost_revision (Sim.client Destination))
                Sim.foo_00002) (start Sim.created_world) <> Stopped OutOfFuel.
Proof.
  assert (Z.to_nat (MaxGetRetries (Sim.pkg false false)) +
          Z.to_nat (MaxUpdateRetries (Sim.pkg false false)) < 64)%nat as H1 by (cbn; lia).
  split; [exact H1 |].
  exact (migrateRevision_returns (Sim.pkg false false) 64
           (Sim.lost_revision (Sim.client Destination)) Destination Sim.foo_00002 Sim.foo
           "uid-foo" "foo-00002" (start Sim.created_world) H1).
Defined.

(** X22 on the example: budgets of 40 and of 64 rounds. *)
Lemma migrateRevision_budget_witness :
  Sim.migrate_revision 40 (Sim.lost_revision (Sim.client Destination)) Sim.foo_00002
    (start Sim.created_world) =
  Sim.migrate_revision 64 (Sim.lost_revision (Sim.client Destination)) Sim.foo_00002
    (start Sim.created_world).
Proof.
  apply (migrateRevision_budget (Sim.pkg false false) 40 64
           (Sim.lost_revision (Sim.client Destination)) Destination Sim.foo_00002 Sim.foo
           "uid-foo" "foo-00002" (start Sim.created_world)); cbn; lia.
Defined.
